(** * Ordered slide collection of a presentation: model and properties

    Shallow embedding of
    - [servers/fastapi/api/v1/ppt/endpoints/slide.py]
      ([edit_slide], [edit_slide_html], [delete_slide], [create_slide]),
    - [servers/fastapi/utils/s3_utils.py]
      ([_build_s3_client], [get_s3_client], [_upload_file_to_s3_sync],
       [_download_file_from_s3_sync]).

    The relational store is a record of tables (lists of rows).  A request
    handler runs in a session that holds the committed store, the store as
    the session sees it, the unit of work (the changed objects the handler
    has registered, none of them sent yet) and the statements the database
    has received; [commit] flushes the unit of work in the order of the
    object-relational mapper, not in the order of the handler; an exception
    leaves the committed store as it was. *)

From Stdlib Require Import ZArith NArith List String Ascii Bool Lia.
From Stdlib Require Import Permutation Sorted.
Import ListNotations.

Open Scope string_scope.
Open Scope list_scope.
Open Scope Z_scope.

(** ** Python values *)

(** [uuid.UUID]: a 128-bit number. *)
Definition UUID := N.

Definition uuid_eqb (a b : UUID) : bool := N.eqb a b.

(** JSON documents, as stored in [SlideModel.content]. *)
#[local] Set Warnings "-register-all".
Inductive json : Type :=
| JNull
| JBool (b : bool)
| JNum (z : Z)
| JStr (s : string)
| JArr (items : list json)
| JObj (fields : list (string * json)).

(** A Python [dict] with string keys, in insertion order. *)
Definition Content := list (string * json).

(** [d.get(key, default)] *)
Fixpoint dict_get (d : Content) (key : string) (default : json) : json :=
  match d with
  | [] => default
  | (k, v) :: rest => if String.eqb k key then v else dict_get rest key default
  end.

(** [len(l)] *)
Definition len {A : Type} (l : list A) : Z := Z.of_nat (List.length l).

(** Truth value of an [Optional[str]]: [None] and the empty string are false. *)
Definition truthy (o : option string) : bool :=
  match o with
  | None => false
  | Some s => negb (String.eqb s "")
  end.

(** [a or b] on [Optional[str]]. *)
Definition str_or (a b : option string) : option string :=
  if truthy a then a else b.

(** The exceptions a handler can end with. *)
Inductive Exn : Type :=
| HTTPException (status_code : Z) (detail : string)
| IndexError
| TypeError
| OverflowError
| CollaboratorError (message : string).

Inductive Result (A : Type) : Type :=
| Return (a : A)
| Raise (e : Exn).

Arguments Return {A} a.
Arguments Raise {A} e.

(** [l[i]] on a Python list: negative indices count from the end. *)
Definition py_getitem {A : Type} (l : list A) (i : Z) : Result A :=
  let i' := if i <? 0 then i + len l else i in
  if (i' <? 0) || (len l <=? i') then Raise IndexError
  else match nth_error l (Z.to_nat i') with
       | Some a => Return a
       | None => Raise IndexError
       end.

(** ** Rows *)

(** Modelled from the spec: the layout classes ([SlideLayoutModel],
    [PresentationLayoutModel], [PresentationStructureModel]) and the
    outline classes are not among the sources; the fields are the
    attributes [create_slide] and [edit_slide] read ([id], [name],
    [ordered], [slides], [content]). *)
Module SlideLayoutModel.
Record t : Type := mk { id : string; json_schema : json }.
End SlideLayoutModel.

Module PresentationLayoutModel.
Record t : Type := mk {
  name : string;
  ordered : bool;
  slides : list SlideLayoutModel.t
}.
End PresentationLayoutModel.

Module PresentationStructureModel.
Record t : Type := mk { slides : list Z }.
End PresentationStructureModel.

Module SlideOutlineModel.
Record t : Type := mk { content : string }.
End SlideOutlineModel.

Module PresentationOutlineModel.
Record t : Type := mk { slides : list SlideOutlineModel.t }.
End PresentationOutlineModel.

(** Modelled from the spec: [models/sql/slide.py] is not among the sources;
    the fields are those of the spec's Slide and of the constructor call in
    [create_slide], with [id] the primary key ([sql_session.get(SlideModel,
    id)]). *)
Module SlideModel.
Record t : Type := mk {
  id : UUID;
  presentation : UUID;
  layout_group : string;
  layout : string;
  index : Z;
  speaker_note : json;
  content : Content;
  html_content : option string
}.

Definition set_index (s : t) (i : Z) : t :=
  mk (id s) (presentation s) (layout_group s) (layout s) i
     (speaker_note s) (content s) (html_content s).

Definition set_id (s : t) (u : UUID) : t :=
  mk u (presentation s) (layout_group s) (layout s) (index s)
     (speaker_note s) (content s) (html_content s).

Definition set_content (s : t) (c : Content) : t :=
  mk (id s) (presentation s) (layout_group s) (layout s) (index s)
     (speaker_note s) c (html_content s).

Definition set_layout (s : t) (l : string) : t :=
  mk (id s) (presentation s) (layout_group s) l (index s)
     (speaker_note s) (content s) (html_content s).

Definition set_speaker_note (s : t) (n : json) : t :=
  mk (id s) (presentation s) (layout_group s) (layout s) (index s)
     n (content s) (html_content s).

Definition set_html_content (s : t) (h : option string) : t :=
  mk (id s) (presentation s) (layout_group s) (layout s) (index s)
     (speaker_note s) (content s) h.
End SlideModel.

(** Modelled from the spec: [models/sql/presentation.py] is not among the
    sources; the fields are the attributes the handlers read.  [n_slides]
    may be [None] ([presentation.n_slides or len(slides_list)]). *)
Module PresentationModel.
Record t : Type := mk {
  id : UUID;
  n_slides : option Z;
  language : string;
  tone : option string;
  verbosity : option string;
  instructions : option string;
  (** the value of [get_layout()] *)
  get_layout : PresentationLayoutModel.t
}.

Definition set_n_slides (p : t) (n : option Z) : t :=
  mk (id p) n (language p) (tone p) (verbosity p) (instructions p)
     (get_layout p).
End PresentationModel.

(** [models/sql/image_asset.py] *)
Module ImageAsset.
Record t : Type := mk {
  id : UUID;
  created_at : Z;
  is_uploaded : bool;
  path : string;
  s3_url : option string;
  extras : option Content
}.
End ImageAsset.

(** Modelled from the spec: [models/presentation_with_slides.py] is not
    among the sources; the presentation fields and the slides. *)
Module PresentationWithSlides.
Record t : Type := mk {
  presentation : PresentationModel.t;
  slides : list SlideModel.t
}.
End PresentationWithSlides.

(** ** The store and the session *)

Record DB : Type := mkDB {
  presentations : list PresentationModel.t;
  slide_rows : list SlideModel.t;
  image_assets : list ImageAsset.t
}.

(** One change of a row: a changed object in the unit of work of a
    session, or the statement that carries it to the database. *)
Inductive Write : Type :=
| WDeleteSlide (id : UUID)
| WSetIndex (id : UUID) (index : Z)
| WUpdateSlide (old_id : UUID) (row : SlideModel.t)
| WInsertSlide (row : SlideModel.t)
| WInsertAsset (row : ImageAsset.t)
| WUpdatePresentation (row : PresentationModel.t).

(** A session.  [committed] is the store as last committed.  [pending] is
    the store as the session sees it: the rows of the transaction with the
    attributes the handler has assigned to the objects it loaded
    ([s.index = ...] changes the loaded object at once) and the objects it
    added.  [unit_of_work] lists these changed objects in the order the
    handler registered them with [sql_session.add]; assigning and
    registering send nothing.  [sent] lists the statements the database has
    received, in the order it received them.  A query flushes before it
    runs; in the four handlers every query comes before the first change or
    after the commit, so the only flush is the one of [commit]. *)
Record Session : Type := mkSession {
  committed : DB;
  pending : DB;
  unit_of_work : list Write;
  sent : list Write
}.

(** A session opened on a store: nothing changed, nothing sent. *)
Definition open_session (db : DB) : Session := mkSession db db [] [].

(** A handler step: reads and writes the session, returns or raises. *)
Definition M (A : Type) : Type := Session -> Session * Result A.

Definition ret {A : Type} (a : A) : M A := fun s => (s, Return a).

Definition raise {A : Type} (e : Exn) : M A := fun s => (s, Raise e).

Definition bind {A B : Type} (m : M A) (k : A -> M B) : M B :=
  fun s =>
    match m s with
    | (s', Return a) => k a s'
    | (s', Raise e) => (s', Raise e)
    end.

Notation "x <- m ;; k" := (bind m (fun x => k))
  (at level 61, m at next level, right associativity).
Notation "m ;;; k" := (bind m (fun _ => k))
  (at level 61, right associativity).

(** The outcome of an awaited collaborator, lifted into a handler. *)
Definition await {A : Type} (r : Result A) : M A := fun s => (s, r).

(** [for x in l: body(x)] *)
Fixpoint for_each {A : Type} (l : list A) (body : A -> M unit) : M unit :=
  match l with
  | [] => ret tt
  | x :: rest => body x ;;; for_each rest body
  end.

(** ** Queries *)

Fixpoint insert_by {A : Type} (leb : A -> A -> bool) (x : A) (l : list A)
  : list A :=
  match l with
  | [] => [x]
  | y :: rest => if leb x y then x :: l else y :: insert_by leb x rest
  end.

(** [ORDER BY]: a stable sort for the order [leb]. *)
Fixpoint order_by {A : Type} (leb : A -> A -> bool) (l : list A) : list A :=
  match l with
  | [] => []
  | x :: rest => insert_by leb x (order_by leb rest)
  end.

Definition index_asc (a b : SlideModel.t) : bool :=
  SlideModel.index a <=? SlideModel.index b.

Definition index_desc (a b : SlideModel.t) : bool :=
  SlideModel.index b <=? SlideModel.index a.

(** [select(SlideModel).where(SlideModel.presentation == presentation_id)] *)
Definition of_presentation (presentation_id : UUID) (s : SlideModel.t) : bool :=
  uuid_eqb (SlideModel.presentation s) presentation_id.

(** [... .where(presentation == pid).order_by(SlideModel.index)] on a table. *)
Definition list_ordered (presentation_id : UUID) (rows : list SlideModel.t)
  : list SlideModel.t :=
  order_by index_asc (filter (of_presentation presentation_id) rows).

(** [sql_session.get(PresentationModel, presentation_id)] *)
Definition get_presentation (presentation_id : UUID)
  : M (option PresentationModel.t) :=
  fun s =>
    (s, Return (find (fun p => uuid_eqb (PresentationModel.id p) presentation_id)
                     (presentations (pending s)))).

(** [sql_session.get(SlideModel, id)] *)
Definition get_slide (id : UUID) : M (option SlideModel.t) :=
  fun s =>
    (s, Return (find (fun r => uuid_eqb (SlideModel.id r) id)
                     (slide_rows (pending s)))).

(** [(await sql_session.scalars(select(SlideModel).where(p))).all()] *)
Definition select_slides (p : SlideModel.t -> bool) : M (list SlideModel.t) :=
  fun s => (s, Return (filter p (slide_rows (pending s)))).

(** [... .where(p).order_by(SlideModel.index)] and
    [... .order_by(SlideModel.index.desc())] *)
Definition select_slides_ordered (p : SlideModel.t -> bool)
  (leb : SlideModel.t -> SlideModel.t -> bool) : M (list SlideModel.t) :=
  fun s => (s, Return (order_by leb (filter p (slide_rows (pending s))))).

(** A Python [int] travels to the database as a signed 64-bit integer:
    executing a statement with any other [int] as a parameter raises
    [OverflowError]. *)
Definition fits_int64 (i : Z) : bool := (- 2 ^ 63 <=? i) && (i <? 2 ^ 63).

Definition int_parameter (i : Z) : Result unit :=
  if fits_int64 i then Return tt else Raise OverflowError.

(** The statement about to run carries the [int] [i] as a parameter. *)
Definition bind_parameter (i : Z) : M unit := fun s => (s, int_parameter i).

(** ** Writes *)

Definition on_slides (f : list SlideModel.t -> list SlideModel.t) (db : DB) : DB :=
  mkDB (presentations db) (f (slide_rows db)) (image_assets db).

(** What one change does to a store: a row is found by its primary key. *)
Definition apply_write (w : Write) (db : DB) : DB :=
  match w with
  | WDeleteSlide id =>
    on_slides (filter (fun r => negb (uuid_eqb (SlideModel.id r) id))) db
  | WSetIndex id i =>
    on_slides (map (fun r =>
      if uuid_eqb (SlideModel.id r) id then SlideModel.set_index r i else r))
      db
  | WUpdateSlide old_id row =>
    on_slides (map (fun r =>
      if uuid_eqb (SlideModel.id r) old_id then row else r)) db
  | WInsertSlide row => on_slides (fun rows => rows ++ [row]) db
  | WInsertAsset row =>
    mkDB (presentations db) (slide_rows db) (image_assets db ++ [row])
  | WUpdatePresentation p =>
    mkDB (map (fun q =>
            if uuid_eqb (PresentationModel.id q) (PresentationModel.id p)
            then p else q) (presentations db))
         (slide_rows db) (image_assets db)
  end.

(** The store after a sequence of statements. *)
Definition replay (ws : list Write) (db : DB) : DB :=
  fold_left (fun d w => apply_write w d) ws db.

(** Changed objects: the session sees the change [f] and keeps the objects
    [w] in its unit of work; the database receives nothing. *)
Definition with_pending (f : DB -> DB) (w : list Write) : M unit :=
  fun s => (mkSession (committed s) (f (pending s)) (unit_of_work s ++ w)
                      (sent s),
            Return tt).

(** A statement executed at once: the database receives it now. *)
Definition execute (w : Write) : M unit :=
  fun s => (mkSession (committed s) (apply_write w (pending s))
                      (unit_of_work s) (sent s ++ [w]),
            Return tt).

(** [await sql_session.execute(sa_delete(SlideModel).where(SlideModel.id == id))] *)
Definition delete_slide_row (id : UUID) : M unit := execute (WDeleteSlide id).

(** [s.index = i; sql_session.add(s)] for a row [s] loaded in this session:
    the loaded object with the primary key of [s] gets the new index and is
    registered as changed. *)
Definition write_index (s : SlideModel.t) (i : Z) : M unit :=
  with_pending (apply_write (WSetIndex (SlideModel.id s) i))
    [WSetIndex (SlideModel.id s) i].

(** A loaded row whose attributes, primary key included, were reassigned:
    the object that had the key [old_id] is now [row]. *)
Definition update_slide (old_id : UUID) (row : SlideModel.t) : M unit :=
  with_pending (apply_write (WUpdateSlide old_id row))
    [WUpdateSlide old_id row].

(** [sql_session.add(new_slide)] for a row built in the handler. *)
Definition add_slide (row : SlideModel.t) : M unit :=
  with_pending (apply_write (WInsertSlide row)) [WInsertSlide row].

(** [sql_session.add_all(assets)] *)
Definition add_all_assets (assets : list ImageAsset.t) : M unit :=
  with_pending
    (fun db => mkDB (presentations db) (slide_rows db)
                    (image_assets db ++ assets))
    (map WInsertAsset assets).

(** [sql_session.add(presentation)] for the loaded presentation row. *)
Definition add_presentation (p : PresentationModel.t) : M unit :=
  with_pending (apply_write (WUpdatePresentation p)) [WUpdatePresentation p].

(** *** The flush *)

Definition is_update_presentation (w : Write) : bool :=
  match w with WUpdatePresentation _ => true | _ => false end.

Definition is_update_slide (w : Write) : bool :=
  match w with WSetIndex _ _ | WUpdateSlide _ _ => true | _ => false end.

Definition is_insert_slide (w : Write) : bool :=
  match w with WInsertSlide _ => true | _ => false end.

Definition is_insert_asset (w : Write) : bool :=
  match w with WInsertAsset _ => true | _ => false end.

Definition is_delete_slide (w : Write) : bool :=
  match w with WDeleteSlide _ => true | _ => false end.

(** The primary key by which the row of a statement is found. *)
Definition write_key (w : Write) : UUID :=
  match w with
  | WDeleteSlide id => id
  | WSetIndex id _ => id
  | WUpdateSlide old_id _ => old_id
  | WInsertSlide row => SlideModel.id row
  | WInsertAsset row => ImageAsset.id row
  | WUpdatePresentation p => PresentationModel.id p
  end.

Definition key_asc (a b : Write) : bool := N.leb (write_key a) (write_key b).

(** The statements of a flush, in the order the unit of work of the
    object-relational mapper sends them: table by table, the tables without
    a declared relationship in the order of the names of their model classes
    ([models.sql.image_asset.ImageAsset],
    [models.sql.presentation.PresentationModel],
    [models.sql.slide.SlideModel]); for one table the UPDATEs of the loaded
    rows sorted by primary key, then the INSERTs of the added rows in the
    order they were added; the DELETEs of rows come last.  The order in which
    the handler registered the objects plays no part in the order of the
    UPDATEs. *)
Definition flush (u : list Write) : list Write :=
  filter is_insert_asset u
  ++ order_by key_asc (filter is_update_presentation u)
  ++ order_by key_asc (filter is_update_slide u)
  ++ filter is_insert_slide u
  ++ filter is_delete_slide u.

(** [await sql_session.commit()]: the unit of work is flushed and what the
    session sees becomes the committed store. *)
Definition commit : M unit :=
  fun s => (mkSession (pending s) (pending s) []
                      (sent s ++ flush (unit_of_work s)),
            Return tt).

(** ** The handlers of [slide.py] *)

Section Handlers.

(** The awaited collaborators; each returns or raises. *)
Variable get_slide_layout_from_prompt :
  string -> PresentationLayoutModel.t -> SlideModel.t ->
  Result SlideLayoutModel.t.
Variable get_edited_slide_content :
  string -> SlideModel.t -> string -> SlideLayoutModel.t -> Result Content.
(** Returns the new assets and the edited content as it left it. *)
Variable process_old_and_new_slides_and_fetch_assets :
  Content -> Content -> Result (list ImageAsset.t * Content).
Variable get_edited_slide_html : string -> string -> Result string.
Variable generate_presentation_structure :
  PresentationOutlineModel.t -> PresentationLayoutModel.t ->
  option string -> bool -> Result PresentationStructureModel.t.
Variable get_slide_content_from_type_and_outline :
  SlideLayoutModel.t -> SlideOutlineModel.t -> string -> option string ->
  option string -> option string -> Result Content.
(** Returns the new assets and the content of the slide as it left it. *)
Variable process_slide_and_fetch_assets :
  SlideModel.t -> Result (list ImageAsset.t * Content).
(** [layout_model.to_presentation_structure()] *)
Variable to_presentation_structure :
  PresentationLayoutModel.t -> PresentationStructureModel.t.

(** [edit_slide]; [fresh] is the value of [uuid.uuid4()].  The handler
    checks no range of [slide_index] before the query that carries it. *)
Definition edit_slide (presentation_id : UUID) (slide_index : Z)
  (prompt : string) (fresh : UUID) : M SlideModel.t :=
  presentation <- get_presentation presentation_id ;;
  match presentation with
  | None => raise (HTTPException 404 "Presentation not found")
  | Some presentation =>
    bind_parameter slide_index ;;;
    slide_result <- select_slides (fun s =>
      of_presentation presentation_id s
      && (SlideModel.index s =? slide_index)) ;;
    match slide_result with
    | [] => raise (HTTPException 404 "Slide not found")
    | slide :: _ =>
      let presentation_layout := PresentationModel.get_layout presentation in
      slide_layout <- await (get_slide_layout_from_prompt
                               prompt presentation_layout slide) ;;
      edited_slide_content <- await (get_edited_slide_content
        prompt slide (PresentationModel.language presentation) slide_layout) ;;
      processed <- await (process_old_and_new_slides_and_fetch_assets
        (SlideModel.content slide) edited_slide_content) ;;
      let new_assets := fst processed in
      let edited_slide_content := snd processed in
      let old_id := SlideModel.id slide in
      let slide := SlideModel.set_id slide fresh in
      let slide := SlideModel.set_content slide edited_slide_content in
      let slide := SlideModel.set_layout slide
                     (SlideLayoutModel.id slide_layout) in
      let slide := SlideModel.set_speaker_note slide
        (dict_get edited_slide_content "__speaker_note__" (JStr "")) in
      update_slide old_id slide ;;;
      add_all_assets new_assets ;;;
      commit ;;;
      ret slide
    end
  end.

(** [edit_slide_html]; [fresh] is the value of [uuid.uuid4()]. *)
Definition edit_slide_html (id : UUID) (prompt : string)
  (html : option string) (fresh : UUID) : M SlideModel.t :=
  slide <- get_slide id ;;
  match slide with
  | None => raise (HTTPException 404 "Slide not found")
  | Some slide =>
    let html_to_edit := str_or html (SlideModel.html_content slide) in
    if negb (truthy html_to_edit)
    then raise (HTTPException 400 "No HTML to edit")
    else
      edited_slide_html <- await (get_edited_slide_html prompt
        (match html_to_edit with Some h => h | None => "" end)) ;;
      let old_id := SlideModel.id slide in
      let slide := SlideModel.set_id slide fresh in
      let slide := SlideModel.set_html_content slide
                     (Some edited_slide_html) in
      update_slide old_id slide ;;;
      commit ;;;
      ret slide
  end.

(** [delete_slide].  The queries that carry [slide_index] run after the
    range check, so with an index within the number of rows of the table. *)
Definition delete_slide (presentation_id : UUID) (slide_index : Z)
  : M PresentationWithSlides.t :=
  presentation <- get_presentation presentation_id ;;
  match presentation with
  | None => raise (HTTPException 404 "Presentation not found")
  | Some presentation =>
    slides_list <- select_slides_ordered
                     (of_presentation presentation_id) index_asc ;;
    if (slide_index <? 0) || (len slides_list <=? slide_index)
    then raise (HTTPException 400 "Slide index out of range")
    else
      slide_result <- select_slides (fun s =>
        of_presentation presentation_id s
        && (SlideModel.index s =? slide_index)) ;;
      match slide_result with
      | [] => raise (HTTPException 404 "Slide not found")
      | slide_to_delete :: _ =>
        delete_slide_row (SlideModel.id slide_to_delete) ;;;
        subsequent_slides <- select_slides_ordered (fun s =>
          of_presentation presentation_id s
          && (slide_index <? SlideModel.index s)) index_asc ;;
        for_each subsequent_slides (fun s =>
          write_index s (SlideModel.index s - 1)) ;;;
        match PresentationModel.n_slides presentation with
        | None => raise TypeError
        | Some n =>
          let presentation :=
            PresentationModel.set_n_slides presentation
              (Some (Z.max 0 (n - 1))) in
          add_presentation presentation ;;;
          commit ;;;
          updated_slides <- select_slides_ordered
                              (of_presentation presentation_id) index_asc ;;
          ret (PresentationWithSlides.mk presentation updated_slides)
        end
      end
  end.

(** [presentation.n_slides or len(slides_list)] *)
Definition n_slides_or (n : option Z) (l : Z) : Z :=
  match n with
  | None => l
  | Some k => if k =? 0 then l else k
  end.

(** [create_slide]; [fresh] is the identity [SlideModel(...)] gives the
    new row.  The query that carries [slide_index] runs after the range
    check, so with an index within the number of rows of the table. *)
Definition create_slide (presentation_id : UUID) (slide_index : Z)
  (content : string) (fresh : UUID) : M PresentationWithSlides.t :=
  presentation <- get_presentation presentation_id ;;
  match presentation with
  | None => raise (HTTPException 404 "Presentation not found")
  | Some presentation =>
    slides_list <- select_slides_ordered
                     (of_presentation presentation_id) index_asc ;;
    if (slide_index <? 0) || (len slides_list <? slide_index)
    then raise (HTTPException 400 "Slide index out of range")
    else
      let outline_slide := SlideOutlineModel.mk content in
      let outline_model := PresentationOutlineModel.mk [outline_slide] in
      let layout_model := PresentationModel.get_layout presentation in
      presentation_structure <-
        (if PresentationLayoutModel.ordered layout_model
         then ret (to_presentation_structure layout_model)
         else await (generate_presentation_structure outline_model
                layout_model (PresentationModel.instructions presentation)
                true)) ;;
      match firstn 1 (PresentationStructureModel.slides
                        presentation_structure) with
      | [] => raise (HTTPException 500 "Failed to select slide layout")
      | layout_index :: _ =>
        let layout_index :=
          if len (PresentationLayoutModel.slides layout_model)
             <=? layout_index
          then 0 else layout_index in
        slide_layout <- await (py_getitem
          (PresentationLayoutModel.slides layout_model) layout_index) ;;
        slide_content <- await (get_slide_content_from_type_and_outline
          slide_layout outline_slide
          (PresentationModel.language presentation)
          (PresentationModel.tone presentation)
          (PresentationModel.verbosity presentation)
          (PresentationModel.instructions presentation)) ;;
        let new_slide := SlideModel.mk fresh presentation_id
          (PresentationLayoutModel.name layout_model)
          (SlideLayoutModel.id slide_layout)
          slide_index
          (dict_get slide_content "__speaker_note__" (JStr ""))
          slide_content
          None in
        subsequent_slides <- select_slides_ordered (fun s =>
          of_presentation presentation_id s
          && (slide_index <=? SlideModel.index s)) index_desc ;;
        for_each subsequent_slides (fun s =>
          write_index s (SlideModel.index s + 1)) ;;;
        processed <- await (process_slide_and_fetch_assets new_slide) ;;
        let generated_assets := fst processed in
        let new_slide := SlideModel.set_content new_slide (snd processed) in
        add_slide new_slide ;;;
        add_all_assets generated_assets ;;;
        let presentation :=
          PresentationModel.set_n_slides presentation
            (Some (n_slides_or (PresentationModel.n_slides presentation)
                               (len slides_list) + 1)) in
        add_presentation presentation ;;;
        commit ;;;
        updated_slides <- select_slides_ordered
                            (of_presentation presentation_id) index_asc ;;
        ret (PresentationWithSlides.mk presentation updated_slides)
      end
  end.

End Handlers.

(** ** Object storage: [get_env.py] and [s3_utils.py] *)

(** [os.environ] *)
Definition Environ := string -> option string.

Definition get_object_storage_endpoint_env (environ : Environ) : option string :=
  environ "OBJECT_STORAGE_ENDPOINT".

Definition get_object_storage_prefix_env (environ : Environ) : option string :=
  environ "OBJECT_STORAGE_PREFIX".

Definition get_object_storage_region_env (environ : Environ) : option string :=
  str_or (environ "OBJECT_STORAGE_REGION") (Some "us-east-1").

Definition get_object_storage_bucket_name_env (environ : Environ)
  : option string :=
  environ "OBJECT_STORAGE_BUCKET_NAME".

Definition get_object_storage_access_key_id_env (environ : Environ)
  : option string :=
  environ "OBJECT_STORAGE_ACCESS_KEY_ID".

Definition get_object_storage_secret_access_key_env (environ : Environ)
  : option string :=
  environ "OBJECT_STORAGE_SECRET_ACCESS_KEY".

(** The handle [boto3.client("s3", ...)] returns. *)
Record S3Client : Type := mkS3Client {
  endpoint_url : option string;
  aws_access_key_id : option string;
  aws_secret_access_key : option string;
  region_name : option string;
  addressing_style : string
}.

Definition is_slash (c : ascii) : bool := Ascii.eqb c "/"%char.

(** [s.lstrip("/")] *)
Fixpoint lstrip_slash (s : string) : string :=
  match s with
  | EmptyString => EmptyString
  | String c rest => if is_slash c then lstrip_slash rest else s
  end.

(** [s.rstrip("/")] *)
Fixpoint rstrip_slash (s : string) : string :=
  match s with
  | EmptyString => EmptyString
  | String c rest =>
    match rstrip_slash rest with
    | EmptyString => if is_slash c then EmptyString else String c EmptyString
    | r => String c r
    end
  end.

(** [s.strip("/")] *)
Definition strip_slash (s : string) : string := rstrip_slash (lstrip_slash s).

(** [posixpath.split]: the text up to and including the last slash, and
    the text after it; [None] when there is no slash. *)
Fixpoint split_last_slash (s : string) : option (string * string) :=
  match s with
  | EmptyString => None
  | String c rest =>
    match split_last_slash rest with
    | Some (head, tail) => Some (String c head, tail)
    | None => if is_slash c then Some (String c EmptyString, rest) else None
    end
  end.

(** [os.path.basename] *)
Definition basename (path : string) : string :=
  match split_last_slash path with
  | Some (_, tail) => tail
  | None => path
  end.

(** [os.path.dirname] *)
Definition dirname (path : string) : string :=
  match split_last_slash path with
  | Some (head, _) =>
    if String.eqb (lstrip_slash head) "" then head else rstrip_slash head
  | None => ""
  end.

Section ObjectStorage.

(** [client.upload_file(local_path, bucket, key, ExtraArgs=...)] *)
Variable upload_file :
  S3Client -> string -> string -> string ->
  option (list (string * string)) -> Result unit.
(** [client.download_file(bucket, object_key, local_path)] *)
Variable download_file : S3Client -> string -> string -> string -> Result unit.
(** [os.makedirs(path, exist_ok=True)] *)
Variable makedirs : string -> Result unit.
(** [mimetypes.guess_type(path)[0]] *)
Variable guess_type : string -> option string.

Variable environ : Environ.

(** [_build_s3_client] *)
Definition _build_s3_client : option S3Client :=
  let endpoint := get_object_storage_endpoint_env environ in
  let access_key := get_object_storage_access_key_id_env environ in
  let secret_key := get_object_storage_secret_access_key_env environ in
  let region := get_object_storage_region_env environ in
  if negb (truthy endpoint) || negb (truthy access_key)
     || negb (truthy secret_key)
  then None
  else Some (mkS3Client endpoint access_key secret_key region "path").

(** [get_s3_client]: reads and writes the module global [_s3_client];
    returns the new value of the global and the handle. *)
Definition get_s3_client (_s3_client : option S3Client)
  : option S3Client * option S3Client :=
  match _s3_client with
  | None => let c := _build_s3_client in (c, c)
  | Some c => (Some c, Some c)
  end.

(** The object key [_upload_file_to_s3_sync] builds. *)
Definition object_key (local_path : string) (postfix : option string)
  : string :=
  let filename := basename local_path in
  let base_prefix :=
    match str_or (get_object_storage_prefix_env environ) (Some "") with
    | Some p => p
    | None => ""
    end in
  let key_parts := [] in
  let key_parts :=
    if negb (String.eqb base_prefix "")
    then key_parts ++ [strip_slash base_prefix] else key_parts in
  let key_parts :=
    match postfix with
    | Some p => if truthy postfix
                then key_parts ++ [strip_slash p] else key_parts
    | None => key_parts
    end in
  let key_parts := key_parts ++ [filename] in
  String.concat "/" key_parts.

(** [extra_args or None] after the content type was guessed. *)
Definition extra_args (local_path : string)
  : option (list (string * string)) :=
  match guess_type local_path with
  | Some content_type =>
    if truthy (Some content_type)
    then Some [("ContentType", content_type)] else None
  | None => None
  end.

(** [_upload_file_to_s3_sync] on the global [_s3_client]. *)
Definition _upload_file_to_s3_sync (_s3_client : option S3Client)
  (local_path : string) (postfix : option string)
  : option S3Client * Result (option string) :=
  let (_s3_client, client) := get_s3_client _s3_client in
  let bucket := get_object_storage_bucket_name_env environ in
  match client, bucket with
  | Some client, Some bucket_name =>
    if negb (truthy bucket) then (_s3_client, Return None)
    else
      let key := object_key local_path postfix in
      match upload_file client local_path bucket_name key
              (extra_args local_path) with
      | Raise e => (_s3_client, Raise e)
      | Return _ => (_s3_client, Return (Some key))
      end
  | _, _ => (_s3_client, Return None)
  end.


(** [_download_file_from_s3_sync] on the global [_s3_client]. *)
Definition _download_file_from_s3_sync (_s3_client : option S3Client)
  (object_key : string) (local_path : string)
  : option S3Client * Result (option string) :=
  let (_s3_client, client) := get_s3_client _s3_client in
  let bucket := get_object_storage_bucket_name_env environ in
  match client, bucket with
  | Some client, Some bucket_name =>
    if negb (truthy bucket) then (_s3_client, Return None)
    else
      match makedirs (dirname local_path) with
      | Raise e => (_s3_client, Raise e)
      | Return _ =>
        match download_file client bucket_name object_key local_path with
        | Raise e => (_s3_client, Raise e)
        | Return _ => (_s3_client, Return (Some local_path))
        end
      end
  | _, _ => (_s3_client, Return None)
  end.




End ObjectStorage.

(** ** Pure readings of the loops and of the invariants *)

(** The rows as the session sees them after
    [for s in l: s.index = g(s); sql_session.add(s)]. *)
Definition reindex (g : SlideModel.t -> Z) (l rows : list SlideModel.t)
  : list SlideModel.t :=
  fold_left (fun rows s =>
    map (fun r => if uuid_eqb (SlideModel.id r) (SlideModel.id s)
                  then SlideModel.set_index r (g s) else r) rows) l rows.

(** The effect of the insert loop on one row: a slide of the presentation
    at index [i] or later moves up by one. *)
Definition shift_up (presentation_id : UUID) (i : Z) (r : SlideModel.t)
  : SlideModel.t :=
  if of_presentation presentation_id r && (i <=? SlideModel.index r)
  then SlideModel.set_index r (SlideModel.index r + 1) else r.

(** The effect of the delete loop on one row: a slide of the presentation
    after index [i] moves down by one. *)
Definition shift_down (presentation_id : UUID) (i : Z) (r : SlideModel.t)
  : SlideModel.t :=
  if of_presentation presentation_id r && (i <? SlideModel.index r)
  then SlideModel.set_index r (SlideModel.index r - 1) else r.

(** What the loop does to one row. *)
Definition reindex_row (g : SlideModel.t -> Z) (l : list SlideModel.t)
  (r : SlideModel.t) : SlideModel.t :=
  fold_left (fun r s =>
    if uuid_eqb (SlideModel.id r) (SlideModel.id s)
    then SlideModel.set_index r (g s) else r) l r.

(** [list(range(lo, lo + n))] *)
Fixpoint range_from (lo : Z) (n : nat) : list Z :=
  match n with
  | O => []
  | S k => lo :: range_from (lo + 1) k
  end.

(** [list(range(n))] *)
Definition py_range (n : nat) : list Z := range_from 0 n.

(** The live slides of a presentation carry the indices [0 .. count-1], in
    this order in the ordered listing. *)
Definition contiguous (presentation_id : UUID) (rows : list SlideModel.t)
  : Prop :=
  map SlideModel.index (list_ordered presentation_id rows)
  = py_range (List.length (list_ordered presentation_id rows)).

(** [SlideModel.id] is the primary key of the slide table. *)
Definition primary_key (rows : list SlideModel.t) : Prop :=
  NoDup (map SlideModel.id rows).

(** The row [sql_session.get(PresentationModel, presentation_id)] finds. *)
Definition presentation_row (presentation_id : UUID) (db : DB)
  : option PresentationModel.t :=
  find (fun p => uuid_eqb (PresentationModel.id p) presentation_id)
       (presentations db).

(** ** The router *)

(** A call of one of the four routes of [SLIDE_ROUTER], with the value
    [uuid.uuid4()] takes in it. *)
Inductive Request : Type :=
| Edit (presentation_id : UUID) (slide_index : Z) (prompt : string)
       (fresh : UUID)
| EditHtml (id : UUID) (prompt : string) (html : option string) (fresh : UUID)
| Delete (presentation_id : UUID) (slide_index : Z)
| Create (presentation_id : UUID) (slide_index : Z) (content : string)
         (fresh : UUID).

(** The identity a request brings into the store. *)
Definition fresh_of (req : Request) : list UUID :=
  match req with
  | Edit _ _ _ fresh => [fresh]
  | EditHtml _ _ _ fresh => [fresh]
  | Delete _ _ => []
  | Create _ _ _ fresh => [fresh]
  end.

Section Router.

Variable get_slide_layout_from_prompt :
  string -> PresentationLayoutModel.t -> SlideModel.t ->
  Result SlideLayoutModel.t.
Variable get_edited_slide_content :
  string -> SlideModel.t -> string -> SlideLayoutModel.t -> Result Content.
Variable process_old_and_new_slides_and_fetch_assets :
  Content -> Content -> Result (list ImageAsset.t * Content).
Variable get_edited_slide_html : string -> string -> Result string.
Variable generate_presentation_structure :
  PresentationOutlineModel.t -> PresentationLayoutModel.t ->
  option string -> bool -> Result PresentationStructureModel.t.
Variable get_slide_content_from_type_and_outline :
  SlideLayoutModel.t -> SlideOutlineModel.t -> string -> option string ->
  option string -> option string -> Result Content.
Variable process_slide_and_fetch_assets :
  SlideModel.t -> Result (list ImageAsset.t * Content).
Variable to_presentation_structure :
  PresentationLayoutModel.t -> PresentationStructureModel.t.

(** Modelled from the spec: the session dependency [get_async_session] is
    not among the sources; each operation is scoped to one transaction, so
    a request runs in a session of its own opened on the committed store,
    and the store after it is what that session committed. *)
Definition serve (req : Request) (db : DB) : DB :=
  match req with
  | Edit presentation_id slide_index prompt fresh =>
    committed (fst (edit_slide get_slide_layout_from_prompt
                      get_edited_slide_content
                      process_old_and_new_slides_and_fetch_assets
                      presentation_id slide_index prompt fresh
                      (open_session db)))
  | EditHtml id prompt html fresh =>
    committed (fst (edit_slide_html get_edited_slide_html id prompt html fresh
                      (open_session db)))
  | Delete presentation_id slide_index =>
    committed (fst (delete_slide presentation_id slide_index
                      (open_session db)))
  | Create presentation_id slide_index content fresh =>
    committed (fst (create_slide generate_presentation_structure
                      get_slide_content_from_type_and_outline
                      process_slide_and_fetch_assets
                      to_presentation_structure
                      presentation_id slide_index content fresh
                      (open_session db)))
  end.

(** Requests served one after the other. *)
Definition serve_all (reqs : list Request) (db : DB) : DB :=
  fold_left (fun db req => serve req db) reqs db.

End Router.

(** The invariants of a presentation in a store: the slide table has a
    primary key, the live slides of the presentation are contiguous, and
    its counter, when the presentation row exists, is their number. *)
Definition consistent (presentation_id : UUID) (db : DB) : Prop :=
  primary_key (slide_rows db)
  /\ contiguous presentation_id (slide_rows db)
  /\ forall p, presentation_row presentation_id db = Some p ->
               PresentationModel.n_slides p
               = Some (len (list_ordered presentation_id (slide_rows db))).

(** ** [models/image_prompt.py] *)

Module ImagePrompt.
Record t : Type := mk {
  prompt : string;
  theme_prompt : option string;
  presentation_id : option string
}.

(** An [Optional[str]] inside an f-string: [None] prints as ["None"]. *)
Definition format_optional (o : option string) : string :=
  match o with
  | Some s => s
  | None => "None"
  end.

(** [get_image_prompt] *)
Definition get_image_prompt (self : t) (with_theme : bool) : string :=
  if with_theme
  then (prompt self ++ ", " ++ format_optional (theme_prompt self))%string
  else prompt self.
End ImagePrompt.

(** A string holds a slash. *)
Fixpoint has_slash (s : string) : bool :=
  match s with
  | EmptyString => false
  | String c rest => is_slash c || has_slash rest
  end.

(** ** A sample store and sample collaborators *)

Module Example.

Definition layouts : list SlideLayoutModel.t :=
  [SlideLayoutModel.mk "title" JNull;
   SlideLayoutModel.mk "bullets" JNull;
   SlideLayoutModel.mk "image" JNull].

Definition layout_model : PresentationLayoutModel.t :=
  PresentationLayoutModel.mk "general" false layouts.

Definition deck : PresentationModel.t :=
  PresentationModel.mk 1%N (Some 3) "English" None None None layout_model.

Definition other_deck : PresentationModel.t :=
  PresentationModel.mk 2%N (Some 1) "French" None None None layout_model.

Definition slide (id presentation : UUID) (index : Z) (title : string)
  (html : option string) : SlideModel.t :=
  SlideModel.mk id presentation "general" "title" index (JStr "")
    [("title", JStr title)] html.

Definition s0 : SlideModel.t := slide 10%N 1%N 0 "Welcome" None.
Definition s1 : SlideModel.t := slide 11%N 1%N 1 "Agenda" (Some "<p>Agenda</p>").
Definition s2 : SlideModel.t := slide 12%N 1%N 2 "Thanks" (Some "").
Definition t0 : SlideModel.t := slide 20%N 2%N 0 "Bonjour" None.

(** The rows are stored in no particular order. *)
Definition db : DB := mkDB [other_deck; deck] [s1; t0; s2; s0] [].

Definition empty_db : DB :=
  mkDB [PresentationModel.mk 1%N (Some 0) "English" None None None
          layout_model] [] [].

Definition get_slide_layout_from_prompt (prompt : string)
  (layout : PresentationLayoutModel.t) (s : SlideModel.t)
  : Result SlideLayoutModel.t :=
  py_getitem (PresentationLayoutModel.slides layout) 1.

Definition get_edited_slide_content (prompt : string) (s : SlideModel.t)
  (language : string) (layout : SlideLayoutModel.t) : Result Content :=
  Return [("title", JStr prompt); ("__speaker_note__", JStr "Say hello")].

Definition process_old_and_new_slides_and_fetch_assets
  (old_content new_content : Content)
  : Result (list ImageAsset.t * Content) :=
  Return ([ImageAsset.mk 77%N 0 false "/images/a.png" None None], new_content).

Definition get_edited_slide_html (prompt html : string) : Result string :=
  Return (html ++ "<!-- " ++ prompt ++ " -->")%string.

(** A structure collaborator that suggests the layout index [k]. *)
Definition generate_presentation_structure (k : Z)
  (outline : PresentationOutlineModel.t) (layout : PresentationLayoutModel.t)
  (instructions : option string) (single : bool)
  : Result PresentationStructureModel.t :=
  Return (PresentationStructureModel.mk [k]).

Definition get_slide_content_from_type_and_outline
  (layout : SlideLayoutModel.t) (outline : SlideOutlineModel.t)
  (language : string) (tone verbosity instructions : option string)
  : Result Content :=
  Return [("title", JStr (SlideOutlineModel.content outline))].

Definition process_slide_and_fetch_assets (s : SlideModel.t)
  : Result (list ImageAsset.t * Content) :=
  Return ([], SlideModel.content s).

(** An asset collaborator whose image service is down. *)
Definition failing_assets (s : SlideModel.t)
  : Result (list ImageAsset.t * Content) :=
  Raise (CollaboratorError "image service unavailable").

Definition to_presentation_structure (layout : PresentationLayoutModel.t)
  : PresentationStructureModel.t :=
  PresentationStructureModel.mk
    (map Z.of_nat (seq 0 (List.length (PresentationLayoutModel.slides layout)))).

(** The handlers with these collaborators. *)
Definition create (k : Z) :=
  create_slide (generate_presentation_structure k)
    get_slide_content_from_type_and_outline process_slide_and_fetch_assets
    to_presentation_structure.

Definition edit :=
  edit_slide get_slide_layout_from_prompt get_edited_slide_content
    process_old_and_new_slides_and_fetch_assets.

Definition edit_html := edit_slide_html get_edited_slide_html.

(** The value a run returned, [d] if it raised. *)
Definition returned {A : Type} (d : A) (x : Session * Result A) : A :=
  match snd x with
  | Return a => a
  | Raise _ => d
  end.


Definition full_environ : Environ := fun name =>
  if String.eqb name "OBJECT_STORAGE_ENDPOINT" then Some "http://minio:9000"
  else if String.eqb name "OBJECT_STORAGE_ACCESS_KEY_ID" then Some "key"
  else if String.eqb name "OBJECT_STORAGE_SECRET_ACCESS_KEY" then Some "secret"
  else if String.eqb name "OBJECT_STORAGE_BUCKET_NAME" then Some "decks"
  else if String.eqb name "OBJECT_STORAGE_PREFIX" then Some "/presenton/"
  else None.


Definition upload_file (client : S3Client) (local_path bucket key : string)
  (extra : option (list (string * string))) : Result unit := Return tt.

Definition download_file (client : S3Client)
  (bucket key local_path : string) : Result unit := Return tt.

Definition makedirs (path : string) : Result unit := Return tt.

Definition guess_type (path : string) : option string := Some "image/png".

(** A presentation whose layout list is empty. *)
Definition bare_deck : PresentationModel.t :=
  PresentationModel.mk 3%N (Some 0) "English" None None None
    (PresentationLayoutModel.mk "bare" false []).

Definition bare_db : DB := mkDB [bare_deck] [] [].

(** A presentation row that carries no counter. *)
Definition uncounted_db : DB :=
  mkDB [PresentationModel.mk 1%N None "English" None None None layout_model]
       [s1; s2; s0] [].

(** The router with the sample collaborators, and a run of requests: an
    insert, a delete, an edit, an HTML edit, a rejected insert and an insert
    into the other presentation. *)
Definition serve_requests (reqs : list Request) (db : DB) : DB :=
  serve_all get_slide_layout_from_prompt get_edited_slide_content
    process_old_and_new_slides_and_fetch_assets get_edited_slide_html
    (generate_presentation_structure 0)
    get_slide_content_from_type_and_outline process_slide_and_fetch_assets
    to_presentation_structure reqs db.

Definition requests : list Request :=
  [Create 1%N 1 "New" 99%N; Delete 1%N 0; Edit 1%N 0 "shorter" 98%N;
   EditHtml 11%N "bold" None 97%N; Create 1%N 9 "Lost" 96%N;
   Create 2%N 0 "Salut" 95%N].

Definition banner : ImagePrompt.t :=
  ImagePrompt.mk "a red barn" None (Some "deck-1").

End Example.

(** * Properties *)

(** ** Sorting *)

Section Sorting.
Context {A : Type} (leb : A -> A -> bool).

Lemma insert_by_perm (x : A) (l : list A) :
  Permutation (insert_by leb x l) (x :: l).
Proof.
  induction l as [|y l IH]; simpl.
  - apply Permutation_refl.
  - destruct (leb x y).
    + apply Permutation_refl.
    + eapply perm_trans; [apply perm_skip, IH | apply perm_swap].
Qed.

Lemma order_by_perm (l : list A) : Permutation (order_by leb l) l.
Proof.
  induction l as [|x l IH]; simpl.
  - constructor.
  - eapply perm_trans; [apply insert_by_perm | now apply perm_skip].
Qed.

Lemma order_by_length (l : list A) :
  List.length (order_by leb l) = List.length l.
Proof. apply Permutation_length, order_by_perm. Qed.

Lemma order_by_In (x : A) (l : list A) : In x (order_by leb l) <-> In x l.
Proof.
  split; apply Permutation_in;
    [apply order_by_perm | apply Permutation_sym, order_by_perm].
Qed.

Hypothesis leb_total : forall a b, leb a b = false -> leb b a = true.
Hypothesis leb_trans :
  forall a b c, leb a b = true -> leb b c = true -> leb a c = true.

Lemma insert_by_sorted (x : A) (l : list A) :
  StronglySorted (fun a b => leb a b = true) l ->
  StronglySorted (fun a b => leb a b = true) (insert_by leb x l).
Proof.
  induction 1 as [|y l Hs IH Hy]; simpl.
  - repeat constructor.
  - destruct (leb x y) eqn:E.
    + constructor; [now constructor|].
      constructor; [exact E|].
      rewrite Forall_forall in *. intros z Hz. eauto.
    + constructor; [exact IH|].
      rewrite Forall_forall in *. intros z Hz.
      apply (Permutation_in _ (insert_by_perm x l)) in Hz.
      destruct Hz as [<-|Hz]; auto.
Qed.

Lemma order_by_sorted (l : list A) :
  StronglySorted (fun a b => leb a b = true) (order_by leb l).
Proof.
  induction l as [|x l IH]; simpl.
  - constructor.
  - now apply insert_by_sorted.
Qed.
End Sorting.

(** A list sorted for a key and a permutation of it that is strictly sorted
    for this key are the same list. *)
Lemma sorted_perm_unique {A : Type} (key : A -> Z) (l1 l2 : list A) :
  StronglySorted (fun a b => key a <= key b) l1 ->
  StronglySorted (fun a b => key a < key b) l2 ->
  Permutation l1 l2 -> l1 = l2.
Proof.
  intros H1. revert l2.
  induction H1 as [|a l1 Hs IH Ha]; intros l2 H2 Hp.
  - apply Permutation_nil in Hp. now subst.
  - destruct H2 as [|b l2 Hs2 Hb].
    + apply Permutation_sym, Permutation_nil in Hp. discriminate.
    + assert (a = b) as ->.
      { assert (Hin1 : In b (a :: l1))
          by (eapply Permutation_in; [apply Permutation_sym, Hp | now left]).
        assert (Hin2 : In a (b :: l2))
          by (eapply Permutation_in; [apply Hp | now left]).
        destruct Hin1 as [->|Hin1]; [reflexivity|].
        destruct Hin2 as [->|Hin2]; [reflexivity|].
        rewrite Forall_forall in Ha, Hb.
        specialize (Ha _ Hin1). specialize (Hb _ Hin2). lia. }
      f_equal. apply IH; [exact Hs2|]. eapply Permutation_cons_inv, Hp.
Qed.

Lemma StronglySorted_weaken {A : Type} (R S : A -> A -> Prop) (l : list A) :
  (forall a b, R a b -> S a b) -> StronglySorted R l -> StronglySorted S l.
Proof.
  intros HRS. induction 1 as [|a l Hs IH Ha]; constructor; auto.
  rewrite Forall_forall in *. auto.
Qed.

Lemma index_asc_sorted (l : list SlideModel.t) :
  StronglySorted (fun a b => SlideModel.index a <= SlideModel.index b)
                 (order_by index_asc l).
Proof.
  eapply StronglySorted_weaken.
  2: { apply order_by_sorted; unfold index_asc; intros;
       rewrite ?Z.leb_le, ?Z.leb_gt in *; lia. }
  unfold index_asc. intros a b H. now apply Z.leb_le.
Qed.

Lemma index_desc_sorted (l : list SlideModel.t) :
  StronglySorted (fun a b => - SlideModel.index a <= - SlideModel.index b)
                 (order_by index_desc l).
Proof.
  eapply StronglySorted_weaken.
  2: { apply order_by_sorted; unfold index_desc; intros;
       rewrite ?Z.leb_le, ?Z.leb_gt in *; lia. }
  unfold index_desc. intros a b H. apply Z.leb_le in H. lia.
Qed.

(** ** Ranges *)

Lemma range_from_length (lo : Z) (n : nat) : List.length (range_from lo n) = n.
Proof. revert lo. induction n; intros; simpl; auto. Qed.

Lemma range_from_In (lo : Z) (n : nat) (k : Z) :
  In k (range_from lo n) <-> lo <= k < lo + Z.of_nat n.
Proof.
  revert lo. induction n as [|n IH]; intros lo; simpl.
  - lia.
  - rewrite IH. lia.
Qed.

Lemma range_from_app (lo : Z) (a b : nat) :
  range_from lo (a + b) = range_from lo a ++ range_from (lo + Z.of_nat a) b.
Proof.
  revert lo. induction a as [|a IH]; intros lo.
  - simpl. now rewrite Z.add_0_r.
  - cbn [Nat.add range_from app]. rewrite IH. do 3 f_equal. lia.
Qed.

Lemma range_from_shift (d lo : Z) (n : nat) :
  map (fun k => k + d) (range_from lo n) = range_from (lo + d) n.
Proof.
  revert lo. induction n as [|n IH]; intros lo; simpl.
  - reflexivity.
  - rewrite IH. do 2 f_equal. lia.
Qed.

Lemma range_from_sorted (lo : Z) (n : nat) :
  StronglySorted (fun a b : Z => a < b) (range_from lo n).
Proof.
  revert lo. induction n as [|n IH]; intros lo; simpl; constructor.
  - apply IH.
  - rewrite Forall_forall. intros k Hk. apply range_from_In in Hk. lia.
Qed.

(** The indices [0 .. n-1] with those from [i] on moved up by one, and [i]
    itself, are the indices [0 .. n]. *)
Lemma range_insert_perm (i : Z) (n : nat) :
  0 <= i <= Z.of_nat n ->
  Permutation
    (map (fun k => if i <=? k then k + 1 else k) (py_range n) ++ [i])
    (py_range (S n)).
Proof.
  intros Hi. unfold py_range.
  replace n with (Z.to_nat i + (n - Z.to_nat i))%nat at 1 by lia.
  replace (S n) with (Z.to_nat i + S (n - Z.to_nat i))%nat by lia.
  rewrite !range_from_app, map_app. cbn [range_from].
  rewrite Z2Nat.id by lia. rewrite Z.add_0_l.
  rewrite (map_ext_in _ (fun k => k)).
  2: { intros k Hk. apply range_from_In in Hk.
       destruct (Z.leb_spec i k); lia. }
  rewrite (map_ext_in _ (fun k => k + 1) (range_from i _)).
  2: { intros k Hk. apply range_from_In in Hk.
       destruct (Z.leb_spec i k); lia. }
  rewrite map_id, range_from_shift, <- app_assoc.
  apply Permutation_app_head.
  apply Permutation_sym, Permutation_cons_append.
Qed.

(** The indices [0 .. n] without [i], with those above [i] moved down by
    one, are the indices [0 .. n-1]. *)
Lemma range_delete_perm (i : Z) (n : nat) (l : list Z) :
  0 <= i <= Z.of_nat n ->
  Permutation (i :: l) (py_range (S n)) ->
  Permutation (map (fun k => if i <? k then k - 1 else k) l) (py_range n).
Proof.
  intros Hi Hp. unfold py_range in *.
  assert (Hl : Permutation l
            (range_from 0 (Z.to_nat i) ++ range_from (i + 1) (n - Z.to_nat i))).
  { apply Permutation_cons_inv with (a := i).
    eapply perm_trans; [exact Hp|].
    replace (S n) with (Z.to_nat i + S (n - Z.to_nat i))%nat by lia.
    rewrite range_from_app. cbn [range_from].
    rewrite Z2Nat.id by lia. rewrite Z.add_0_l.
    apply Permutation_sym, Permutation_middle. }
  eapply perm_trans; [apply Permutation_map, Hl|].
  rewrite map_app.
  rewrite (map_ext_in _ (fun k => k)).
  2: { intros k Hk. apply range_from_In in Hk.
       destruct (Z.ltb_spec i k); lia. }
  rewrite (map_ext_in _ (fun k => k + -1) (range_from (i + 1) _)).
  2: { intros k Hk. apply range_from_In in Hk.
       destruct (Z.ltb_spec i k); lia. }
  rewrite map_id, range_from_shift.
  replace n with (Z.to_nat i + (n - Z.to_nat i))%nat at 2 by lia.
  rewrite range_from_app, Z2Nat.id by lia.
  replace (i + 1 + -1) with (0 + i) by lia. apply Permutation_refl.
Qed.

(** A sorted list of integers that is a permutation of [0 .. n-1] is
    [0 .. n-1]. *)
Lemma sorted_range (l : list Z) (n : nat) :
  StronglySorted Z.le l -> Permutation l (py_range n) -> l = py_range n.
Proof.
  intros Hs Hp.
  apply (sorted_perm_unique (fun k => k)); auto.
  apply range_from_sorted.
Qed.

(** ** Primary keys and the reindexing loop *)

Lemma uuid_eqb_eq (a b : UUID) : uuid_eqb a b = true <-> a = b.
Proof. apply N.eqb_eq. Qed.

Lemma uuid_eqb_neq (a b : UUID) : uuid_eqb a b = false <-> a <> b.
Proof. apply N.eqb_neq. Qed.

Lemma uuid_eqb_refl (a : UUID) : uuid_eqb a a = true.
Proof. apply N.eqb_refl. Qed.

Lemma primary_key_inj (rows : list SlideModel.t) (r s : SlideModel.t) :
  primary_key rows -> In r rows -> In s rows ->
  SlideModel.id r = SlideModel.id s -> r = s.
Proof.
  unfold primary_key. induction rows as [|a rows IH]; simpl; [tauto|].
  intros Hnd Hr Hs E. apply NoDup_cons_iff in Hnd as [Hna Hnd].
  destruct Hr as [->|Hr], Hs as [->|Hs]; auto.
  - exfalso. apply Hna. rewrite E. now apply in_map.
  - exfalso. apply Hna. rewrite <- E. now apply in_map.
Qed.

Lemma NoDup_map_filter {A B : Type} (f : A -> B) (q : A -> bool) (l : list A) :
  NoDup (map f l) -> NoDup (map f (filter q l)).
Proof.
  induction l as [|a l IH]; simpl; intros H; [constructor|].
  apply NoDup_cons_iff in H as [Hn H].
  destruct (q a); simpl; auto.
  constructor; auto.
  intros Hin. apply Hn. apply in_map_iff in Hin as (x & <- & Hx).
  apply in_map. apply filter_In in Hx. tauto.
Qed.

Lemma reindex_map (g : SlideModel.t -> Z) (l rows : list SlideModel.t) :
  reindex g l rows = map (reindex_row g l) rows.
Proof.
  revert rows. induction l as [|a l IH]; intros rows; simpl.
  - now rewrite map_id.
  - unfold reindex in *. simpl. rewrite IH, map_map. reflexivity.
Qed.

Lemma reindex_row_other (g : SlideModel.t -> Z) (l : list SlideModel.t)
  (r : SlideModel.t) :
  (forall s, In s l -> SlideModel.id s <> SlideModel.id r) ->
  reindex_row g l r = r.
Proof.
  revert r. induction l as [|a l IH]; intros r H; simpl; [reflexivity|].
  destruct (uuid_eqb (SlideModel.id r) (SlideModel.id a)) eqn:E.
  - apply uuid_eqb_eq in E. exfalso. apply (H a); simpl; auto.
  - apply IH. intros s Hs. apply H. now right.
Qed.

Lemma reindex_row_hit (g : SlideModel.t -> Z) (l : list SlideModel.t)
  (r s : SlideModel.t) :
  NoDup (map SlideModel.id l) -> In s l ->
  SlideModel.id s = SlideModel.id r ->
  reindex_row g l r = SlideModel.set_index r (g s).
Proof.
  revert r. induction l as [|a l IH]; intros r Hnd Hs E; simpl in *; [tauto|].
  apply NoDup_cons_iff in Hnd as [Hna Hnd].
  destruct (uuid_eqb (SlideModel.id r) (SlideModel.id a)) eqn:Ea.
  - apply uuid_eqb_eq in Ea.
    assert (s = a) as ->.
    { destruct Hs as [->|Hs]; [reflexivity|].
      exfalso. apply Hna. rewrite <- Ea, <- E. now apply in_map. }
    apply reindex_row_other. intros t Ht Et. simpl in Et.
    apply Hna. rewrite <- Ea, <- Et. now apply in_map.
  - apply uuid_eqb_neq in Ea.
    destruct Hs as [->|Hs]; [congruence|]. now apply IH.
Qed.

(** With a primary key, the loop over the rows selected by [q] rewrites
    exactly those rows. *)
Lemma reindex_spec (g : SlideModel.t -> Z) (q : SlideModel.t -> bool)
  (l rows : list SlideModel.t) :
  primary_key rows -> Permutation l (filter q rows) ->
  reindex g l rows
  = map (fun r => if q r then SlideModel.set_index r (g r) else r) rows.
Proof.
  intros Hpk Hp. rewrite reindex_map. apply map_ext_in. intros r Hr.
  assert (Hl : forall s, In s l <-> In s rows /\ q s = true).
  { intros s. rewrite <- filter_In. split; apply Permutation_in; auto.
    now apply Permutation_sym. }
  destruct (q r) eqn:Eq.
  - apply reindex_row_hit; auto.
    + eapply Permutation_NoDup.
      * apply Permutation_map, Permutation_sym, Hp.
      * now apply NoDup_map_filter.
    + apply Hl. auto.
  - apply reindex_row_other. intros s Hs E. apply Hl in Hs as [Hs Hq].
    assert (s = r) by (eapply primary_key_inj; eauto). congruence.
Qed.

(** ** Sessions *)

Lemma on_slides_id (db : DB) : on_slides (fun rows => rows) db = db.
Proof. now destruct db. Qed.

Lemma for_each_write_index (g : SlideModel.t -> Z) (l : list SlideModel.t)
  (sess : Session) :
  for_each l (fun s => write_index s (g s)) sess
  = (mkSession (committed sess)
               (on_slides (reindex g l) (pending sess))
               (unit_of_work sess
                ++ map (fun s => WSetIndex (SlideModel.id s) (g s)) l)
               (sent sess),
     Return tt).
Proof.
  revert sess. induction l as [|a l IH]; intros sess.
  - destruct sess as [c p j st]. destruct p. simpl. unfold ret.
    now rewrite app_nil_r.
  - cbn [for_each]. unfold bind at 1. unfold write_index at 1.
    unfold with_pending at 1. rewrite IH.
    cbn [committed pending unit_of_work sent apply_write].
    destruct sess as [c p j st]. destruct p. cbn.
    now rewrite <- app_assoc.
Qed.

(** ** Lists *)

Lemma filter_perm {A : Type} (f : A -> bool) (l l' : list A) :
  Permutation l l' -> Permutation (filter f l) (filter f l').
Proof.
  induction 1 as [|x l l' _ IH|x y l|l l' l'' _ IH1 _ IH2]; simpl.
  - constructor.
  - destruct (f x); auto.
  - destruct (f x), (f y); auto using perm_swap.
  - eapply perm_trans; eauto.
Qed.

Lemma filter_map_comm {A : Type} (f : A -> bool) (h : A -> A) (l : list A) :
  (forall a, f (h a) = f a) -> filter f (map h l) = map h (filter f l).
Proof.
  intros Hf. induction l as [|a l IH]; simpl; [reflexivity|].
  rewrite Hf. destruct (f a); simpl; now rewrite IH.
Qed.

Lemma filter_comm {A : Type} (f g : A -> bool) (l : list A) :
  filter f (filter g l) = filter g (filter f l).
Proof.
  induction l as [|a l IH]; simpl; [reflexivity|].
  destruct (f a) eqn:Ef, (g a) eqn:Eg; simpl; rewrite ?Ef, ?Eg, IH; reflexivity.
Qed.

Lemma sorted_map {A : Type} (key : A -> Z) (l : list A) :
  StronglySorted (fun a b => key a <= key b) l ->
  StronglySorted Z.le (map key l).
Proof.
  induction 1 as [|a l Hs IH Ha]; simpl; constructor; auto.
  rewrite Forall_forall in *. intros k Hk.
  apply in_map_iff in Hk as (b & <- & Hb). auto.
Qed.

(** Deleting by primary key removes exactly the row that has the key. *)
Lemma delete_by_key_perm (rows : list SlideModel.t) (d : SlideModel.t) :
  primary_key rows -> In d rows ->
  Permutation rows
    (d :: filter (fun r => negb (uuid_eqb (SlideModel.id r) (SlideModel.id d)))
                 rows).
Proof.
  unfold primary_key. induction rows as [|a rows IH]; simpl; [tauto|].
  intros Hnd Hin. apply NoDup_cons_iff in Hnd as [Hna Hnd].
  destruct Hin as [->|Hin].
  - rewrite uuid_eqb_refl. simpl. apply perm_skip.
    rewrite forallb_filter_id; [apply Permutation_refl|].
    apply forallb_forall. intros r Hr. apply negb_true_iff, uuid_eqb_neq.
    intros E. apply Hna. rewrite <- E. now apply in_map.
  - destruct (uuid_eqb (SlideModel.id a) (SlideModel.id d)) eqn:E.
    + apply uuid_eqb_eq in E. exfalso. apply Hna. rewrite E. now apply in_map.
    + simpl. eapply perm_trans; [apply perm_skip, IH; auto|apply perm_swap].
Qed.

(** Deleting by a key no row has changes nothing. *)
Lemma delete_by_key_absent (rows : list SlideModel.t) (k : UUID) :
  ~ In k (map SlideModel.id rows) ->
  filter (fun r => negb (uuid_eqb (SlideModel.id r) k)) rows = rows.
Proof.
  intros Hk. apply forallb_filter_id, forallb_forall.
  intros r Hr. apply negb_true_iff, uuid_eqb_neq.
  intros E. apply Hk. rewrite <- E. now apply in_map.
Qed.

(** The live slides carry the indices [0 .. count-1] exactly when the
    indices of the unordered selection are a permutation of that range. *)
Lemma contiguous_perm (pid : UUID) (rows : list SlideModel.t) :
  contiguous pid rows <->
  Permutation (map SlideModel.index (filter (of_presentation pid) rows))
              (py_range (List.length (filter (of_presentation pid) rows))).
Proof.
  unfold contiguous, list_ordered. rewrite order_by_length.
  split; intros H.
  - rewrite <- H. apply Permutation_map, Permutation_sym, order_by_perm.
  - apply sorted_range.
    + apply sorted_map, index_asc_sorted.
    + eapply perm_trans; [apply Permutation_map, order_by_perm | exact H].
Qed.

(** ** The two reindexing loops on a table with a primary key *)

Lemma insert_loop_rows (pid : UUID) (i : Z) (rows : list SlideModel.t) :
  primary_key rows ->
  reindex (fun s => SlideModel.index s + 1)
    (order_by index_desc
       (filter (fun s => of_presentation pid s && (i <=? SlideModel.index s))
               rows)) rows
  = map (shift_up pid i) rows.
Proof.
  intros Hpk. erewrite reindex_spec; [reflexivity | exact Hpk |].
  apply order_by_perm.
Qed.

Lemma delete_loop_rows (pid : UUID) (i : Z) (rows : list SlideModel.t) :
  primary_key rows ->
  reindex (fun s => SlideModel.index s - 1)
    (order_by index_asc
       (filter (fun s => of_presentation pid s && (i <? SlideModel.index s))
               rows)) rows
  = map (shift_down pid i) rows.
Proof.
  intros Hpk. erewrite reindex_spec; [reflexivity | exact Hpk |].
  apply order_by_perm.
Qed.

Lemma shift_up_presentation (pid : UUID) (i : Z) (q : UUID) (r : SlideModel.t) :
  of_presentation q (shift_up pid i r) = of_presentation q r.
Proof. unfold shift_up. now destruct (_ && _). Qed.

Lemma shift_down_presentation (pid : UUID) (i : Z) (q : UUID)
  (r : SlideModel.t) :
  of_presentation q (shift_down pid i r) = of_presentation q r.
Proof. unfold shift_down. now destruct (_ && _). Qed.

Lemma shift_up_id (pid : UUID) (i : Z) (rows : list SlideModel.t) :
  map SlideModel.id (map (shift_up pid i) rows) = map SlideModel.id rows.
Proof.
  rewrite map_map. apply map_ext. intros r. unfold shift_up.
  now destruct (_ && _).
Qed.

Lemma shift_down_up (pid : UUID) (i : Z) (r : SlideModel.t) :
  shift_down pid i (shift_up pid i r) = r.
Proof.
  unfold shift_up.
  destruct (of_presentation pid r && (i <=? SlideModel.index r)) eqn:E;
    unfold shift_down, of_presentation in *;
    destruct r as [id p lg l k n c h]; cbn in *.
  - apply andb_true_iff in E as [-> E]. apply Z.leb_le in E. cbn.
    destruct (Z.ltb_spec i (k + 1)); [|lia].
    unfold SlideModel.set_index. cbn. f_equal. lia.
  - destruct (uuid_eqb p pid); [|reflexivity]. cbn in *.
    apply Z.leb_gt in E. destruct (Z.ltb_spec i k); [lia|reflexivity].
Qed.

Lemma live_indices_shift_up (pid : UUID) (i : Z) (rows : list SlideModel.t) :
  map SlideModel.index (filter (of_presentation pid) (map (shift_up pid i) rows))
  = map (fun k => if i <=? k then k + 1 else k)
        (map SlideModel.index (filter (of_presentation pid) rows)).
Proof.
  rewrite filter_map_comm by apply shift_up_presentation.
  rewrite !map_map. apply map_ext_in. intros r Hr.
  apply filter_In in Hr as [_ Hr]. unfold shift_up. rewrite Hr. simpl.
  now destruct (i <=? SlideModel.index r).
Qed.

Lemma live_indices_shift_down (pid : UUID) (i : Z) (rows : list SlideModel.t) :
  map SlideModel.index
      (filter (of_presentation pid) (map (shift_down pid i) rows))
  = map (fun k => if i <? k then k - 1 else k)
        (map SlideModel.index (filter (of_presentation pid) rows)).
Proof.
  rewrite filter_map_comm by apply shift_down_presentation.
  rewrite !map_map. apply map_ext_in. intros r Hr.
  apply filter_In in Hr as [_ Hr]. unfold shift_down. rewrite Hr. simpl.
  now destruct (i <? SlideModel.index r).
Qed.

(** The slide the delete handler picks, and the live slides without it. *)
Lemma delete_target (pid : UUID) (i : Z) (rows : list SlideModel.t)
  (d : SlideModel.t) (rest : list SlideModel.t) :
  primary_key rows ->
  filter (fun s => of_presentation pid s && (SlideModel.index s =? i)) rows
  = d :: rest ->
  SlideModel.index d = i
  /\ of_presentation pid d = true
  /\ In d rows
  /\ Permutation (filter (of_presentation pid) rows)
       (d :: filter (of_presentation pid)
               (filter (fun r => negb (uuid_eqb (SlideModel.id r)
                                                (SlideModel.id d))) rows)).
Proof.
  intros Hpk Hd.
  assert (Hin : In d (filter (fun s => of_presentation pid s
                                && (SlideModel.index s =? i)) rows))
    by (rewrite Hd; now left).
  apply filter_In in Hin as [Hin Hq].
  apply andb_true_iff in Hq as [HP Hi]. apply Z.eqb_eq in Hi.
  repeat split; auto.
  rewrite filter_comm. apply delete_by_key_perm.
  - now apply NoDup_map_filter.
  - apply filter_In. auto.
Qed.

(** Runs a handler one step further in the hypothesis [H]: evaluates the
    monad, replaces the reindexing loop by [reindex], and splits on the
    scrutinee in head position. *)
Ltac run_handler H :=
  repeat (
    cbv beta iota delta [bind ret raise await select_slides select_slides_ordered
      get_presentation get_slide add_slide add_all_assets add_presentation
      delete_slide_row update_slide commit with_pending execute apply_write
      bind_parameter open_session pending committed unit_of_work sent] in H;
    try rewrite for_each_write_index in H;
    lazymatch type of H with
    | (match ?x with _ => _ end) _ = _ => destruct x eqn:?
    | match ?x with _ => _ end = _ => destruct x eqn:?
    end;
    try discriminate H).

Section HandlerFacts.

Variable get_slide_layout_from_prompt :
  string -> PresentationLayoutModel.t -> SlideModel.t ->
  Result SlideLayoutModel.t.
Variable get_edited_slide_content :
  string -> SlideModel.t -> string -> SlideLayoutModel.t -> Result Content.
Variable process_old_and_new_slides_and_fetch_assets :
  Content -> Content -> Result (list ImageAsset.t * Content).
Variable get_edited_slide_html : string -> string -> Result string.
Variable generate_presentation_structure :
  PresentationOutlineModel.t -> PresentationLayoutModel.t ->
  option string -> bool -> Result PresentationStructureModel.t.
Variable get_slide_content_from_type_and_outline :
  SlideLayoutModel.t -> SlideOutlineModel.t -> string -> option string ->
  option string -> option string -> Result Content.
Variable process_slide_and_fetch_assets :
  SlideModel.t -> Result (list ImageAsset.t * Content).
Variable to_presentation_structure :
  PresentationLayoutModel.t -> PresentationStructureModel.t.

Local Abbreviation create := (create_slide generate_presentation_structure
  get_slide_content_from_type_and_outline process_slide_and_fetch_assets
  to_presentation_structure).

Lemma create_slide_inv (db : DB) (pid : UUID) (i : Z) (content : string)
  (fresh : UUID) (s' : Session) (r : PresentationWithSlides.t) :
  create pid i content fresh (open_session db) = (s', Return r) ->
  exists p new assets,
    presentation_row pid db = Some p
    /\ 0 <= i <= len (list_ordered pid (slide_rows db))
    /\ SlideModel.id new = fresh
    /\ SlideModel.presentation new = pid
    /\ SlideModel.index new = i
    /\ let l := order_by index_desc
                  (filter (fun s => of_presentation pid s
                                    && (i <=? SlideModel.index s))
                          (slide_rows db)) in
       let g := fun s => SlideModel.index s + 1 in
       let p' := PresentationModel.set_n_slides p
                   (Some (n_slides_or (PresentationModel.n_slides p)
                            (len (list_ordered pid (slide_rows db))) + 1)) in
       let db' := mkDB
         (map (fun q => if uuid_eqb (PresentationModel.id q)
                                    (PresentationModel.id p)
                        then p' else q) (presentations db))
         (reindex g l (slide_rows db) ++ [new])
         (image_assets db ++ assets) in
       s' = mkSession db' db' []
              (flush (map (fun s => WSetIndex (SlideModel.id s) (g s)) l
                      ++ [WInsertSlide new] ++ map WInsertAsset assets
                      ++ [WUpdatePresentation p']))
       /\ r = PresentationWithSlides.mk p'
                (list_ordered pid (slide_rows db')).
Proof.
  unfold create_slide. intros H.
  run_handler H.
  assert (s = open_session db) as ->
    by (destruct (PresentationLayoutModel.ordered _) in Heqp;
        now injection Heqp as <- _).
  injection H as <- <-.
  apply orb_false_elim in Heqb as [Hlo Hhi].
  apply Z.ltb_ge in Hlo, Hhi.
  exists t. eexists. exists (fst a2).
  split; [exact Heqo|]. split; [exact (conj Hlo Hhi)|].
  cbv zeta. (repeat split); cycle 3.
  - unfold on_slides.
    cbn [presentations slide_rows image_assets PresentationModel.id
         PresentationModel.set_n_slides app].
    fold (list_ordered pid (slide_rows db)).
    rewrite <- !app_assoc. reflexivity.
  - unfold on_slides.
    cbn [presentations slide_rows image_assets PresentationModel.id
         PresentationModel.set_n_slides app].
    fold (list_ordered pid (slide_rows db)). reflexivity.
  - reflexivity.
  - reflexivity.
Qed.


Lemma delete_slide_inv (db : DB) (pid : UUID) (i : Z)
  (s' : Session) (r : PresentationWithSlides.t) :
  delete_slide pid i (open_session db) = (s', Return r) ->
  exists p d rest n,
    presentation_row pid db = Some p
    /\ 0 <= i < len (list_ordered pid (slide_rows db))
    /\ filter (fun s => of_presentation pid s && (SlideModel.index s =? i))
              (slide_rows db) = d :: rest
    /\ PresentationModel.n_slides p = Some n
    /\ let rows1 := filter (fun r => negb (uuid_eqb (SlideModel.id r)
                                                    (SlideModel.id d)))
                           (slide_rows db) in
       let l := order_by index_asc
                  (filter (fun s => of_presentation pid s
                                    && (i <? SlideModel.index s)) rows1) in
       let g := fun s => SlideModel.index s - 1 in
       let p' := PresentationModel.set_n_slides p (Some (Z.max 0 (n - 1))) in
       let db' := mkDB
         (map (fun q => if uuid_eqb (PresentationModel.id q)
                                    (PresentationModel.id p)
                        then p' else q) (presentations db))
         (reindex g l rows1)
         (image_assets db) in
       s' = mkSession db' db' []
              ([WDeleteSlide (SlideModel.id d)]
               ++ flush (map (fun s => WSetIndex (SlideModel.id s) (g s)) l
                         ++ [WUpdatePresentation p']))
       /\ r = PresentationWithSlides.mk p'
                (list_ordered pid (slide_rows db')).
Proof.
  unfold delete_slide. intros H.
  run_handler H.
  injection H as <- <-.
  apply orb_false_elim in Heqb as [Hlo Hhi].
  apply Z.ltb_ge in Hlo. apply Z.leb_gt in Hhi.
  exists t, t0, l, z.
  split; [exact Heqo|]. split; [exact (conj Hlo Hhi)|].
  split; [first [assumption | reflexivity]|].
  split; [first [assumption | reflexivity]|].
  cbv zeta. unfold on_slides.
  cbn [presentations slide_rows image_assets PresentationModel.id
       PresentationModel.set_n_slides app].
  split; reflexivity.
Qed.

(** *** Insert and delete keep the indices contiguous *)

Lemma live_count (pid : UUID) (rows : list SlideModel.t) :
  len (list_ordered pid rows)
  = Z.of_nat (List.length (filter (of_presentation pid) rows)).
Proof. unfold len, list_ordered. now rewrite order_by_length. Qed.

Lemma create_slide_rows (db : DB) (pid : UUID) (i : Z) (content : string)
  (fresh : UUID) (s' : Session) (r : PresentationWithSlides.t) :
  primary_key (slide_rows db) ->
  create pid i content fresh (open_session db) = (s', Return r) ->
  exists new,
    SlideModel.id new = fresh
    /\ SlideModel.presentation new = pid
    /\ SlideModel.index new = i
    /\ 0 <= i <= len (list_ordered pid (slide_rows db))
    /\ slide_rows (committed s')
       = map (shift_up pid i) (slide_rows db) ++ [new]
    /\ PresentationWithSlides.slides r
       = list_ordered pid (slide_rows (committed s')).
Proof.
  intros Hpk H.
  apply create_slide_inv in H
    as (p & new & assets & Hp & Hi & Hid & Hpres & Hidx & Hs & Hr).
  exists new. subst s' r. cbn [committed slide_rows PresentationWithSlides.slides].
  rewrite insert_loop_rows by exact Hpk. auto 10.
Qed.

Lemma delete_slide_rows (db : DB) (pid : UUID) (i : Z)
  (s' : Session) (r : PresentationWithSlides.t) :
  primary_key (slide_rows db) ->
  delete_slide pid i (open_session db) = (s', Return r) ->
  exists d rest,
    filter (fun s => of_presentation pid s && (SlideModel.index s =? i))
           (slide_rows db) = d :: rest
    /\ 0 <= i < len (list_ordered pid (slide_rows db))
    /\ slide_rows (committed s')
       = map (shift_down pid i)
           (filter (fun r => negb (uuid_eqb (SlideModel.id r)
                                            (SlideModel.id d)))
                   (slide_rows db))
    /\ PresentationWithSlides.slides r
       = list_ordered pid (slide_rows (committed s')).
Proof.
  intros Hpk H.
  apply delete_slide_inv in H
    as (p & d & rest & n & Hp & Hi & Hd & Hn & Hs & Hr).
  exists d, rest. subst s' r.
  cbn [committed slide_rows PresentationWithSlides.slides].
  rewrite delete_loop_rows by (now apply NoDup_map_filter). auto 10.
Qed.

Lemma contiguous_after_insert (pid : UUID) (i : Z) (new : SlideModel.t)
  (rows : list SlideModel.t) :
  contiguous pid rows ->
  SlideModel.presentation new = pid -> SlideModel.index new = i ->
  0 <= i <= len (list_ordered pid rows) ->
  contiguous pid (map (shift_up pid i) rows ++ [new]).
Proof.
  intros Hc Hpres Hidx Hi. rewrite live_count in Hi.
  apply contiguous_perm in Hc. apply contiguous_perm.
  assert (Hnew : of_presentation pid new = true)
    by (unfold of_presentation; rewrite Hpres; apply uuid_eqb_refl).
  rewrite filter_app. cbn [filter]. rewrite Hnew.
  rewrite map_app, length_app, live_indices_shift_up.
  rewrite filter_map_comm by apply shift_up_presentation.
  rewrite length_map. cbn [map List.length]. rewrite Hidx, Nat.add_1_r.
  eapply perm_trans; [|apply range_insert_perm; exact Hi].
  apply Permutation_app_tail, Permutation_map, Hc.
Qed.

Lemma contiguous_after_delete (pid : UUID) (i : Z) (d : SlideModel.t)
  (rest rows : list SlideModel.t) :
  primary_key rows -> contiguous pid rows ->
  filter (fun s => of_presentation pid s && (SlideModel.index s =? i)) rows
  = d :: rest ->
  0 <= i < len (list_ordered pid rows) ->
  contiguous pid
    (map (shift_down pid i)
       (filter (fun r => negb (uuid_eqb (SlideModel.id r) (SlideModel.id d)))
               rows)).
Proof.
  intros Hpk Hc Hd Hi. rewrite live_count in Hi.
  apply contiguous_perm in Hc. apply contiguous_perm.
  destruct (delete_target pid i rows d rest Hpk Hd) as (Hidx & HP & Hin & Hperm).
  rewrite live_indices_shift_down.
  rewrite filter_map_comm by apply shift_down_presentation.
  rewrite length_map.
  pose proof (Permutation_length Hperm) as Hlen. cbn [List.length] in Hlen.
  rewrite Hlen in Hc, Hi.
  apply range_delete_perm; [lia|].
  eapply perm_trans; [|exact Hc].
  rewrite <- Hidx. change (SlideModel.index d :: map SlideModel.index ?l)
    with (map SlideModel.index (d :: l)).
  apply Permutation_map, Permutation_sym, Hperm.
Qed.

(** C1.  On a slide table with a primary key, if the live slides of a
    presentation carry the indices [0 .. count-1] (the empty collection
    included), then after a committed insert-at-index and after a
    committed delete-at-index the live slides of the committed table
    again carry the indices [0 .. count'-1], without gap or duplicate. *)
Theorem contiguity_preserved (db : DB) (pid : UUID) :
  primary_key (slide_rows db) ->
  contiguous pid (slide_rows db) ->
  (forall i content fresh s' r,
      create pid i content fresh (open_session db) = (s', Return r) ->
      contiguous pid (slide_rows (committed s')))
  /\ (forall i s' r,
      delete_slide pid i (open_session db) = (s', Return r) ->
      contiguous pid (slide_rows (committed s'))).
Proof.
  intros Hpk Hc. split.
  - intros i content fresh s' r H.
    apply create_slide_rows in H
      as (new & _ & Hpres & Hidx & Hi & -> & _); [|exact Hpk].
    now apply contiguous_after_insert.
  - intros i s' r H.
    apply delete_slide_rows in H as (d & rest & Hd & Hi & -> & _);
      [|exact Hpk].
    now apply contiguous_after_delete with (rest := rest).
Qed.

(** *** Rejected indices *)

(** C2.  For a presentation with [count] live slides, insert-at-index
    with [index < 0] or [index > count] and delete-at-index with
    [index < 0] or [index >= count] raise the 400 error
    "Slide index out of range"; the session is left as it was opened:
    the committed and the pending store are the store before the call
    (every slide row, the counter [n_slides]) and nothing was written. *)
Theorem index_out_of_range_rejected (db : DB) (pid : UUID)
  (p : PresentationModel.t) (i : Z) :
  presentation_row pid db = Some p ->
  (i < 0 \/ len (list_ordered pid (slide_rows db)) < i ->
   forall content fresh,
     create pid i content fresh (open_session db)
     = (open_session db,
        Raise (HTTPException 400 "Slide index out of range")))
  /\ (i < 0 \/ len (list_ordered pid (slide_rows db)) <= i ->
      delete_slide pid i (open_session db)
      = (open_session db,
         Raise (HTTPException 400 "Slide index out of range"))).
Proof.
  intros Hp. unfold presentation_row in Hp. split; intros Hi.
  - intros content fresh. unfold create_slide.
    cbv beta iota delta [bind ret raise await select_slides_ordered
      get_presentation open_session pending].
    rewrite Hp. cbv beta iota.
    fold (list_ordered pid (slide_rows db)).
    replace ((i <? 0) || (len (list_ordered pid (slide_rows db)) <? i))
      with true; [reflexivity|].
    symmetry. apply orb_true_iff. rewrite !Z.ltb_lt. exact Hi.
  - unfold delete_slide.
    cbv beta iota delta [bind ret raise await select_slides_ordered
      get_presentation open_session pending].
    rewrite Hp. cbv beta iota.
    fold (list_ordered pid (slide_rows db)).
    replace ((i <? 0) || (len (list_ordered pid (slide_rows db)) <=? i))
      with true; [reflexivity|].
    symmetry. apply orb_true_iff. rewrite Z.ltb_lt, Z.leb_le. exact Hi.
Qed.

(** *** The counter [n_slides] *)

Lemma presentation_row_updated (pid : UUID) (p p' : PresentationModel.t)
  (ps : list PresentationModel.t) (rows : list SlideModel.t)
  (assets : list ImageAsset.t) :
  presentation_row pid (mkDB ps rows assets) = Some p ->
  PresentationModel.id p' = PresentationModel.id p ->
  forall rows' assets',
  presentation_row pid
    (mkDB (map (fun q => if uuid_eqb (PresentationModel.id q)
                                     (PresentationModel.id p)
                         then p' else q) ps) rows' assets')
  = Some p'.
Proof.
  unfold presentation_row. cbn [presentations]. intros Hp Hid rows' assets'.
  pose proof (find_some _ _ Hp) as [_ Hpid]. apply uuid_eqb_eq in Hpid.
  subst pid.
  induction ps as [|a ps IH]; cbn in *; [discriminate|].
  destruct (uuid_eqb (PresentationModel.id a) (PresentationModel.id p))
    eqn:Ea.
  - injection Hp as ->. now rewrite Hid, uuid_eqb_refl.
  - rewrite Ea. auto.
Qed.

(** C6.  On a slide table with a primary key, if [n_slides] of a
    presentation is the number of its live slides, then after a committed
    insert-at-index and after a committed delete-at-index the committed
    presentation row carries in [n_slides] the number of rows of the
    ordered listing of the committed table; the returned presentation
    carries the number of returned slides. *)
Theorem counter_consistent (db : DB) (pid : UUID) (p : PresentationModel.t) :
  primary_key (slide_rows db) ->
  presentation_row pid db = Some p ->
  PresentationModel.n_slides p
  = Some (len (list_ordered pid (slide_rows db))) ->
  (forall i content fresh s' r,
      create pid i content fresh (open_session db) = (s', Return r) ->
      exists p',
        presentation_row pid (committed s') = Some p'
        /\ PresentationModel.n_slides p'
           = Some (len (list_ordered pid (slide_rows (committed s'))))
        /\ PresentationWithSlides.presentation r = p'
        /\ PresentationModel.n_slides p'
           = Some (len (PresentationWithSlides.slides r))
        /\ PresentationModel.n_slides p'
           = Some (len (list_ordered pid (slide_rows db)) + 1))
  /\ (forall i s' r,
      delete_slide pid i (open_session db) = (s', Return r) ->
      exists p',
        presentation_row pid (committed s') = Some p'
        /\ PresentationModel.n_slides p'
           = Some (len (list_ordered pid (slide_rows (committed s'))))
        /\ PresentationWithSlides.presentation r = p'
        /\ PresentationModel.n_slides p'
           = Some (len (PresentationWithSlides.slides r))
        /\ PresentationModel.n_slides p'
           = Some (Z.max 0 (len (list_ordered pid (slide_rows db)) - 1))).
Proof.
  intros Hpk Hp Hn. split.
  - intros i content fresh s' r H.
    apply create_slide_inv in H
      as (p0 & new & assets & Hp0 & Hi & Hid & Hpres & Hidx & Hs & Hr).
    rewrite Hp in Hp0. injection Hp0 as <-.
    cbv zeta in Hs, Hr. rewrite insert_loop_rows in Hs, Hr by exact Hpk.
    eexists. subst s' r.
    cbn [committed slide_rows PresentationWithSlides.slides
         PresentationWithSlides.presentation].
    split; [|split; [|split; [reflexivity|split]]].
    + destruct db. eapply presentation_row_updated; [exact Hp|reflexivity].
    + cbn [PresentationModel.n_slides PresentationModel.set_n_slides].
      rewrite Hn. f_equal. rewrite !live_count, filter_app.
      rewrite filter_map_comm by apply shift_up_presentation.
      rewrite length_app, length_map. cbn [filter].
      replace (of_presentation pid new) with true
        by (unfold of_presentation; rewrite Hpres;
            symmetry; apply uuid_eqb_refl).
      cbn [List.length n_slides_or].
      destruct (Z.eqb_spec
        (Z.of_nat (List.length (filter (of_presentation pid) (slide_rows db))))
        0); lia.
    + cbn [PresentationModel.n_slides PresentationModel.set_n_slides].
      rewrite Hn. f_equal. rewrite !live_count, filter_app.
      rewrite filter_map_comm by apply shift_up_presentation.
      rewrite length_app, length_map. cbn [filter].
      replace (of_presentation pid new) with true
        by (unfold of_presentation; rewrite Hpres;
            symmetry; apply uuid_eqb_refl).
      cbn [List.length n_slides_or].
      destruct (Z.eqb_spec
        (Z.of_nat (List.length (filter (of_presentation pid) (slide_rows db))))
        0); lia.
    + cbn [PresentationModel.n_slides PresentationModel.set_n_slides].
      rewrite Hn. f_equal. cbn [n_slides_or].
      destruct (Z.eqb_spec (len (list_ordered pid (slide_rows db))) 0); lia.
  - intros i s' r H.
    apply delete_slide_inv in H
      as (p0 & d & rest & n & Hp0 & Hi & Hd & Hn0 & Hs & Hr).
    rewrite Hp in Hp0. injection Hp0 as <-.
    rewrite Hn in Hn0. injection Hn0 as <-.
    cbv zeta in Hs, Hr.
    rewrite delete_loop_rows in Hs, Hr by (now apply NoDup_map_filter).
    destruct (delete_target pid i _ d rest Hpk Hd) as (_ & _ & _ & Hperm).
    apply Permutation_length in Hperm. cbn [List.length] in Hperm.
    eexists. subst s' r.
    cbn [committed slide_rows PresentationWithSlides.slides
         PresentationWithSlides.presentation].
    split; [|split; [|split; [reflexivity|split]]].
    + destruct db. eapply presentation_row_updated; [exact Hp|reflexivity].
    + cbn [PresentationModel.n_slides PresentationModel.set_n_slides].
      f_equal. rewrite !live_count in *.
      rewrite filter_map_comm by apply shift_down_presentation.
      rewrite length_map. lia.
    + cbn [PresentationModel.n_slides PresentationModel.set_n_slides].
      f_equal. rewrite !live_count in *.
      rewrite filter_map_comm by apply shift_down_presentation.
      rewrite length_map. lia.
    + reflexivity.
Qed.

(** *** Insert, then delete at the same index *)

Ltac eval_handler :=
  cbv beta iota delta [bind ret raise await select_slides
    select_slides_ordered get_presentation get_slide add_slide
    add_all_assets add_presentation delete_slide_row update_slide commit
    with_pending execute apply_write bind_parameter open_session pending
    committed unit_of_work sent].

Lemma delete_slide_run (db : DB) (pid : UUID) (i n : Z)
  (p : PresentationModel.t) (d : SlideModel.t) (rest : list SlideModel.t) :
  presentation_row pid db = Some p ->
  PresentationModel.n_slides p = Some n ->
  0 <= i < len (list_ordered pid (slide_rows db)) ->
  filter (fun s => of_presentation pid s && (SlideModel.index s =? i))
         (slide_rows db) = d :: rest ->
  exists s' r, delete_slide pid i (open_session db) = (s', Return r).
Proof.
  intros Hp Hn Hi Hd. unfold presentation_row in Hp.
  unfold delete_slide. eval_handler. rewrite Hp. eval_handler.
  fold (list_ordered pid (slide_rows db)).
  replace ((i <? 0) || (len (list_ordered pid (slide_rows db)) <=? i))
    with false.
  2: { symmetry. apply orb_false_iff. rewrite Z.ltb_ge, Z.leb_gt. lia. }
  eval_handler. rewrite Hd. eval_handler.
  rewrite for_each_write_index. eval_handler. rewrite Hn. eval_handler.
  eexists _, _. reflexivity.
Qed.

Lemma shift_up_not_at (pid : UUID) (i : Z) (rows : list SlideModel.t) :
  filter (fun s => of_presentation pid s && (SlideModel.index s =? i))
         (map (shift_up pid i) rows) = [].
Proof.
  induction rows as [|r rows IH]; cbn [map filter]; [reflexivity|].
  rewrite IH, shift_up_presentation. unfold shift_up.
  destruct (of_presentation pid r); cbn [andb]; [|reflexivity].
  destruct (Z.leb_spec i (SlideModel.index r)); cbn.
  - destruct (Z.eqb_spec (SlideModel.index r + 1) i); [lia|reflexivity].
  - destruct (Z.eqb_spec (SlideModel.index r) i); [lia|reflexivity].
Qed.

(** C3.  On a slide table with a primary key, a successful insert at
    index [i] of a slide with a fresh identity followed by delete at
    index [i]: the delete succeeds and the committed slide table is the
    table before the insert, so every earlier slide is at its original
    index with its identity and content, and the inserted row is gone;
    the returned listing is the ordered listing before the insert. *)
Theorem insert_then_delete_restores (db : DB) (pid : UUID) (i : Z)
  (content : string) (fresh : UUID) (s1 : Session)
  (r1 : PresentationWithSlides.t) :
  primary_key (slide_rows db) ->
  ~ In fresh (map SlideModel.id (slide_rows db)) ->
  create pid i content fresh (open_session db) = (s1, Return r1) ->
  exists s2 r2,
    delete_slide pid i (open_session (committed s1)) = (s2, Return r2)
    /\ slide_rows (committed s2) = slide_rows db
    /\ PresentationWithSlides.slides r2
       = list_ordered pid (slide_rows db)
    /\ ~ In fresh (map SlideModel.id (slide_rows (committed s2))).
Proof.
  intros Hpk Hfresh H.
  pose proof (create_slide_rows _ _ _ _ _ _ _ Hpk H)
    as (new & Hid & Hpres & Hidx & Hi & Hrows & _).
  apply create_slide_inv in H
    as (p & new' & assets & Hp & _ & _ & _ & _ & Hs & _).
  cbv zeta in Hs.
  assert (Hnew : of_presentation pid new = true)
    by (unfold of_presentation; rewrite Hpres; apply uuid_eqb_refl).
  assert (Hd : filter (fun s => of_presentation pid s
                                && (SlideModel.index s =? i))
                      (slide_rows (committed s1)) = [new]).
  { rewrite Hrows, filter_app, shift_up_not_at. cbn [filter app].
    now rewrite Hnew, Hidx, Z.eqb_refl. }
  assert (Hpk1 : primary_key (slide_rows (committed s1))).
  { unfold primary_key. rewrite Hrows, map_app, shift_up_id.
    cbn [map]. rewrite Hid.
    apply (Permutation_NoDup (Permutation_cons_append _ _)).
    now constructor. }
  assert (Hcount : 0 <= i < len (list_ordered pid (slide_rows (committed s1)))).
  { rewrite live_count in *. rewrite Hrows, filter_app.
    rewrite filter_map_comm by apply shift_up_presentation.
    rewrite length_app, length_map. cbn [filter]. rewrite Hnew.
    cbn [List.length]. lia. }
  assert (Hp1 : exists p1 n1,
             presentation_row pid (committed s1) = Some p1
             /\ PresentationModel.n_slides p1 = Some n1).
  { rewrite Hs. cbn [committed]. eexists _, _. split.
    - destruct db. eapply presentation_row_updated; [exact Hp|reflexivity].
    - reflexivity. }
  destruct Hp1 as (p1 & n1 & Hp1 & Hn1).
  destruct (delete_slide_run _ _ _ _ _ _ _ Hp1 Hn1 Hcount Hd)
    as (s2 & r2 & Hrun).
  exists s2, r2. split; [exact Hrun|].
  apply delete_slide_rows in Hrun as (d & rest & Hd' & _ & Hrows2 & Hr2);
    [|exact Hpk1].
  rewrite Hd in Hd'. injection Hd' as <- <-.
  assert (Hback : slide_rows (committed s2) = slide_rows db).
  { rewrite Hrows2, Hrows, filter_app, Hid.
    rewrite delete_by_key_absent by (now rewrite shift_up_id).
    cbn [filter]. rewrite Hid, uuid_eqb_refl. cbn [negb].
    rewrite app_nil_r, map_map.
    rewrite (map_ext _ (fun r => r)) by apply shift_down_up.
    apply map_id. }
  rewrite Hr2, Hback. auto.
Qed.

(** *** Insert at index 1 of three slides *)

Lemma filter_andb {A : Type} (f g : A -> bool) (l : list A) :
  filter (fun a => f a && g a) l = filter g (filter f l).
Proof.
  induction l as [|a l IH]; cbn [filter]; [reflexivity|].
  destruct (f a); cbn [andb filter]; now rewrite IH.
Qed.

(** *** Edits *)

Local Abbreviation edit := (edit_slide get_slide_layout_from_prompt
  get_edited_slide_content process_old_and_new_slides_and_fetch_assets).

Local Abbreviation edit_html := (edit_slide_html get_edited_slide_html).





(** C10.  For an existing slide whose stored [html_content] is absent or
    empty, the HTML edit called without the [html] argument raises the 400
    error "No HTML to edit" before any write: the session is left as it was
    opened, so the committed and the pending store are the store before
    the call (the identity, [html_content] and every other field of the
    slide) and nothing was written. *)
Theorem edit_html_nothing_to_edit (db : DB) (id : UUID) (prompt : string)
  (fresh : UUID) (slide : SlideModel.t) :
  find (fun r => uuid_eqb (SlideModel.id r) id) (slide_rows db) = Some slide ->
  truthy (SlideModel.html_content slide) = false ->
  edit_html id prompt None fresh (open_session db)
  = (open_session db, Raise (HTTPException 400 "No HTML to edit")).
Proof.
  intros Hfind Hempty. unfold edit_slide_html.
  cbv beta iota delta [bind ret raise get_slide open_session pending].
  rewrite Hfind. cbv beta iota.
  unfold str_or. cbn [truthy]. rewrite Hempty. reflexivity.
Qed.

(** *** Failures of the collaborators *)

Lemma firstn_1_shape {A : Type} (l t : list A) (a : A) :
  firstn 1 l = a :: t -> firstn 1 l = [a].
Proof.
  destruct l as [|x l]; cbn; [discriminate|].
  intros H. now injection H as ->.
Qed.

(** Settles the session after the layout structure was obtained. *)
Ltac settle_structure :=
  subst;
  repeat match goal with
  | Hq : (if ?c then _ else _) _ = (_, _) |- _ =>
    destruct c eqn:?; injection Hq as <- Hq; try discriminate Hq
  end;
  subst.

(** C9.  Every handler either raises with the committed store as it was
    before the call, so that no slide row, no index rewrite, no counter
    change and no asset record is persisted, or returns, and then every
    collaborator step it made returned: for insert, the structure was
    obtained with a first layout index, the content was generated for the
    chosen layout and the assets of the new slide were fetched; for the
    edits, the layout, the edited content or HTML and the assets.  Delete
    calls no collaborator. *)
Theorem collaborator_failure_aborts (db : DB) :
  (forall pid i content fresh s' out,
      create pid i content fresh (open_session db) = (s', out) ->
      (exists e, out = Raise e /\ committed s' = db)
      \/ (exists r p st k layout c processed,
            out = Return r
            /\ presentation_row pid db = Some p
            /\ (if PresentationLayoutModel.ordered
                     (PresentationModel.get_layout p)
                then Return (to_presentation_structure
                               (PresentationModel.get_layout p))
                else generate_presentation_structure
                       (PresentationOutlineModel.mk
                          [SlideOutlineModel.mk content])
                       (PresentationModel.get_layout p)
                       (PresentationModel.instructions p) true)
               = Return st
            /\ firstn 1 (PresentationStructureModel.slides st) = [k]
            /\ py_getitem
                 (PresentationLayoutModel.slides
                    (PresentationModel.get_layout p))
                 (if len (PresentationLayoutModel.slides
                            (PresentationModel.get_layout p)) <=? k
                  then 0 else k)
               = Return layout
            /\ get_slide_content_from_type_and_outline layout
                 (SlideOutlineModel.mk content)
                 (PresentationModel.language p) (PresentationModel.tone p)
                 (PresentationModel.verbosity p)
                 (PresentationModel.instructions p)
               = Return c
            /\ process_slide_and_fetch_assets
                 (SlideModel.mk fresh pid
                    (PresentationLayoutModel.name
                       (PresentationModel.get_layout p))
                    (SlideLayoutModel.id layout) i
                    (dict_get c "__speaker_note__" (JStr "")) c None)
               = Return processed))
  /\ (forall pid idx prompt fresh s' out,
      edit pid idx prompt fresh (open_session db) = (s', out) ->
      (exists e, out = Raise e /\ committed s' = db)
      \/ (exists r p slide rest layout c processed,
            out = Return r
            /\ presentation_row pid db = Some p
            /\ filter (fun s => of_presentation pid s
                                && (SlideModel.index s =? idx))
                      (slide_rows db) = slide :: rest
            /\ get_slide_layout_from_prompt prompt
                 (PresentationModel.get_layout p) slide = Return layout
            /\ get_edited_slide_content prompt slide
                 (PresentationModel.language p) layout = Return c
            /\ process_old_and_new_slides_and_fetch_assets
                 (SlideModel.content slide) c = Return processed))
  /\ (forall id prompt html fresh s' out,
      edit_html id prompt html fresh (open_session db) = (s', out) ->
      (exists e, out = Raise e /\ committed s' = db)
      \/ (exists r slide h edited,
            out = Return r
            /\ find (fun r => uuid_eqb (SlideModel.id r) id) (slide_rows db)
               = Some slide
            /\ str_or html (SlideModel.html_content slide) = Some h
            /\ get_edited_slide_html prompt h = Return edited))
  /\ (forall pid i s' e,
      delete_slide pid i (open_session db) = (s', Raise e) ->
      committed s' = db).
Proof.
  repeat split.
  - intros pid i content fresh s' [r|e] H; unfold create_slide in H.
    + right. run_handler H. settle_structure.
      all: do 7 eexists; unfold presentation_row.
      all: split; [reflexivity|].
      all: split; [eassumption|].
      all: split;
        [match goal with
         | Hb : PresentationLayoutModel.ordered _ = _ |- _ => rewrite Hb
         end; first [reflexivity | eassumption]|].
      all: split; [eapply firstn_1_shape; eassumption|].
      all: split; [eassumption|].
      all: split; eassumption.
    + left. run_handler H.
      all: settle_structure.
      all: injection H as <- <-; eexists; split; reflexivity.
  - intros pid idx prompt fresh s' [r|e] H; unfold edit_slide in H.
    + right. run_handler H.
      do 7 eexists. unfold presentation_row. split; [reflexivity|].
      split; [eassumption|].
      split; [reflexivity|].
      split; [eassumption|]. split; eassumption.
    + left. run_handler H.
      all: injection H as <- <-; eexists; split; reflexivity.
  - intros id prompt html fresh s' [r|e] H;
      unfold edit_slide_html in H.
    + right. run_handler H.
      destruct (str_or html (SlideModel.html_content t)) as [h|] eqn:Hh;
        [|discriminate].
      exists r, t, h, a. auto.
    + left. run_handler H.
      all: injection H as <- <-; eexists; split; reflexivity.
  - intros pid i s' e H. unfold delete_slide in H. run_handler H.
    all: now injection H as <- _.
Qed.



End HandlerFacts.

(** ** The layout index suggested by the structure collaborator *)

(** C7.  On the sample store, whose layout list has three layouts, insert
    with a structure collaborator that suggests the layout index 7 falls
    back to the layout at index 0; with the suggestion -4 the guard does not
    fire, indexing the layout list raises [IndexError] and nothing is
    committed; with the suggestion -1 the guard does not fire either and the
    new slide gets the last layout, not the one at index 0. *)
Theorem negative_layout_index_not_clamped :
  option_map SlideModel.layout
    (find (fun r => uuid_eqb (SlideModel.id r) 99%N)
       (slide_rows (committed
          (fst (Example.create 7 1%N 3 "New" 99%N
                  (open_session Example.db))))))
  = Some "title"
  /\ Example.create (-4) 1%N 3 "New" 99%N (open_session Example.db)
     = (open_session Example.db, Raise IndexError)
  /\ option_map SlideModel.layout
       (find (fun r => uuid_eqb (SlideModel.id r) 99%N)
          (slide_rows (committed
             (fst (Example.create (-1) 1%N 3 "New" 99%N
                     (open_session Example.db))))))
     = Some "image".
Proof. repeat split; vm_compute; reflexivity. Qed.

(** ** Object storage *)

Section ObjectStorageFacts.

Variable upload_file :
  S3Client -> string -> string -> string ->
  option (list (string * string)) -> Result unit.
Variable download_file : S3Client -> string -> string -> string -> Result unit.
Variable makedirs : string -> Result unit.
Variable guess_type : string -> option string.
Variable environ : Environ.

Local Abbreviation upload := (_upload_file_to_s3_sync upload_file guess_type
  environ).
Local Abbreviation download := (_download_file_from_s3_sync download_file
  makedirs environ).





End ObjectStorageFacts.

(** ** The theorems on the sample store *)

Lemma run_returns {A : Type} (x : Session * Result A) (a : A) :
  snd x = Return a -> x = (fst x, Return a).
Proof. destruct x as [s r]. cbn. now intros ->. Qed.

Lemma sample_primary_key : primary_key (slide_rows Example.db).
Proof.
  unfold primary_key. cbn.
  repeat (constructor; [cbn; intuition discriminate|]). constructor.
Defined.

Lemma contiguity_preserved_witness :
  contiguous 1%N (slide_rows Example.db)
  /\ contiguous 1%N
       (slide_rows (committed
          (fst (Example.create 0 1%N 1 "New" 99%N (open_session Example.db)))))
  /\ contiguous 1%N
       (slide_rows (committed
          (fst (delete_slide 1%N 1 (open_session Example.db)))))
  /\ contiguous 1%N
       (slide_rows (committed
          (fst (Example.create 0 1%N 0 "First" 99%N
                  (open_session Example.empty_db))))).
Proof.
  assert (Hc : contiguous 1%N (slide_rows Example.db)) by reflexivity.
  destruct (contiguity_preserved (Example.generate_presentation_structure 0)
              Example.get_slide_content_from_type_and_outline
              Example.process_slide_and_fetch_assets
              Example.to_presentation_structure
              Example.db 1%N sample_primary_key Hc) as [Hi Hd].
  destruct (contiguity_preserved (Example.generate_presentation_structure 0)
              Example.get_slide_content_from_type_and_outline
              Example.process_slide_and_fetch_assets
              Example.to_presentation_structure
              Example.empty_db 1%N (NoDup_nil _) eq_refl) as [He _].
  split; [exact Hc|]. split; [|split].
  - eapply (Hi 1 "New" 99%N), run_returns. reflexivity.
  - eapply (Hd 1), run_returns. reflexivity.
  - eapply (He 0 "First" 99%N), run_returns. reflexivity.
Defined.

Lemma index_out_of_range_rejected_witness :
  Example.create 0 1%N 4 "New" 99%N (open_session Example.db)
  = (open_session Example.db,
     Raise (HTTPException 400 "Slide index out of range"))
  /\ delete_slide 1%N 3 (open_session Example.db)
     = (open_session Example.db,
        Raise (HTTPException 400 "Slide index out of range")).
Proof.
  destruct (index_out_of_range_rejected
              (Example.generate_presentation_structure 0)
              Example.get_slide_content_from_type_and_outline
              Example.process_slide_and_fetch_assets
              Example.to_presentation_structure
              Example.db 1%N Example.deck) with (i := 4) as [Hi _];
    [reflexivity|].
  destruct (index_out_of_range_rejected
              (Example.generate_presentation_structure 0)
              Example.get_slide_content_from_type_and_outline
              Example.process_slide_and_fetch_assets
              Example.to_presentation_structure
              Example.db 1%N Example.deck) with (i := 3) as [_ Hd];
    [reflexivity|].
  split.
  - apply Hi. right. vm_compute. reflexivity.
  - apply Hd. right. vm_compute. discriminate.
Defined.

Lemma sample_fresh : ~ In 99%N (map SlideModel.id (slide_rows Example.db)).
Proof. cbn. intuition discriminate. Defined.

Lemma insert_then_delete_restores_witness :
  exists s2 r2,
    delete_slide 1%N 1
      (open_session (committed
         (fst (Example.create 0 1%N 1 "New" 99%N (open_session Example.db)))))
    = (s2, Return r2)
    /\ slide_rows (committed s2) = slide_rows Example.db
    /\ PresentationWithSlides.slides r2
       = list_ordered 1%N (slide_rows Example.db)
    /\ ~ In 99%N (map SlideModel.id (slide_rows (committed s2))).
Proof.
  eapply (insert_then_delete_restores
            (Example.generate_presentation_structure 0)
            Example.get_slide_content_from_type_and_outline
            Example.process_slide_and_fetch_assets
            Example.to_presentation_structure
            Example.db 1%N 1 "New" 99%N).
  - exact sample_primary_key.
  - exact sample_fresh.
  - apply run_returns. reflexivity.
Defined.



(** C5.  The insert at index 1 into the presentation of the sample store,
    whose slides 10, 11, 12 are at the indices 0, 1, 2: the committed listing
    is slide 10 at 0, the new slide at 1, slide 11 at 2 and slide 12 at 3,
    identities unchanged.  The loop of the handler goes over the slides in
    descending index order (12, then 11), but the database receives the
    index rewrites at the commit in the order of the primary key: slide 11
    to 2 before slide 12 to 3, the reverse of the descending index order;
    after the first of them the slides 11 and 12 of the presentation are
    both at index 2. *)
Theorem index_rewrites_sent_by_primary_key :
  let s' := fst (Example.create 0 1%N 1 "New" 99%N
                   (open_session Example.db)) in
  map (fun s => (SlideModel.id s, SlideModel.index s))
      (list_ordered 1%N (slide_rows (committed s')))
  = [(10%N, 0); (99%N, 1); (11%N, 2); (12%N, 3)]
  /\ map (fun s => (SlideModel.id s, SlideModel.index s))
         (order_by index_desc
            (filter (fun s => of_presentation 1%N s
                              && (1 <=? SlideModel.index s))
                    (slide_rows Example.db)))
     = [(12%N, 2); (11%N, 1)]
  /\ filter is_update_slide (sent s') = [WSetIndex 11%N 2; WSetIndex 12%N 3]
  /\ exists before after,
       sent s' = before ++ WSetIndex 11%N 2 :: after
       /\ filter is_update_slide before = []
       /\ map (fun s => (SlideModel.id s, SlideModel.index s))
              (filter (of_presentation 1%N)
                 (slide_rows (replay (before ++ [WSetIndex 11%N 2])
                                Example.db)))
          = [(11%N, 2); (12%N, 2); (10%N, 0)].
Proof.
  cbv zeta. split; [reflexivity|]. split; [reflexivity|].
  split; [reflexivity|].
  eexists [_], _. split; [reflexivity|]. split; reflexivity.
Qed.

Lemma counter_consistent_witness :
  (exists p',
      presentation_row 1%N
        (committed (fst (Example.create 0 1%N 1 "New" 99%N
                           (open_session Example.db)))) = Some p'
      /\ PresentationModel.n_slides p' = Some 4)
  /\ (exists p',
      presentation_row 1%N
        (committed (fst (delete_slide 1%N 1 (open_session Example.db))))
      = Some p'
      /\ PresentationModel.n_slides p' = Some 2).
Proof.
  destruct (counter_consistent
              (Example.generate_presentation_structure 0)
              Example.get_slide_content_from_type_and_outline
              Example.process_slide_and_fetch_assets
              Example.to_presentation_structure
              Example.db 1%N Example.deck
              sample_primary_key eq_refl eq_refl) as [Hi Hd].
  split.
  - destruct (Hi 1 "New" 99%N _ _
                (run_returns (Example.create 0 1%N 1 "New" 99%N
                                (open_session Example.db)) _ eq_refl))
      as (p' & Hp & _ & _ & _ & Hn).
    exists p'. split; [exact Hp|exact Hn].
  - destruct (Hd 1 _ _
                (run_returns (delete_slide 1%N 1 (open_session Example.db))
                   _ eq_refl))
      as (p' & Hp & _ & _ & _ & Hn).
    exists p'. split; [exact Hp|exact Hn].
Defined.

Lemma edit_html_nothing_to_edit_witness :
  Example.edit_html 12%N "bold" None 99%N (open_session Example.db)
  = (open_session Example.db, Raise (HTTPException 400 "No HTML to edit"))
  /\ Example.edit_html 10%N "bold" None 99%N (open_session Example.db)
     = (open_session Example.db, Raise (HTTPException 400 "No HTML to edit")).
Proof.
  split.
  - apply (edit_html_nothing_to_edit Example.get_edited_slide_html
             Example.db 12%N "bold" 99%N Example.s2); reflexivity.
  - apply (edit_html_nothing_to_edit Example.get_edited_slide_html
             Example.db 10%N "bold" 99%N Example.s0); reflexivity.
Defined.

Lemma collaborator_failure_aborts_witness :
  committed (fst (create_slide (Example.generate_presentation_structure 0)
                    Example.get_slide_content_from_type_and_outline
                    Example.failing_assets Example.to_presentation_structure
                    1%N 1 "New" 99%N (open_session Example.db)))
  = Example.db
  /\ committed (fst (delete_slide 1%N 5 (open_session Example.db)))
     = Example.db.
Proof.
  destruct (collaborator_failure_aborts
              Example.get_slide_layout_from_prompt
              Example.get_edited_slide_content
              Example.process_old_and_new_slides_and_fetch_assets
              Example.get_edited_slide_html
              (Example.generate_presentation_structure 0)
              Example.get_slide_content_from_type_and_outline
              Example.failing_assets
              Example.to_presentation_structure
              Example.db) as (Hc & _ & _ & Hd).
  split.
  - destruct (Hc 1%N 1 "New" 99%N _ _ eq_refl)
      as [(e & _ & Hdb)|(r & p & st & k & layout & c & pr & Hr & _)].
    + exact Hdb.
    + discriminate Hr.
  - apply (Hd 1%N 5 _ (HTTPException 400 "Slide index out of range")).
    reflexivity.
Defined.



(** * Further properties of the handlers *)

(** ** Listings with the indices [0 .. n-1] *)

Lemma firstn_range (k : nat) (lo : Z) (n : nat) :
  firstn k (range_from lo n) = range_from lo (Nat.min k n).
Proof.
  revert lo n. induction k as [|k IH]; intros lo [|n]; cbn; auto.
  now rewrite IH.
Qed.

Lemma skipn_range (k : nat) (lo : Z) (n : nat) :
  skipn k (range_from lo n) = range_from (lo + Z.of_nat k) (n - k).
Proof.
  revert lo n. induction k as [|k IH]; intros lo [|n]; cbn [skipn Nat.sub].
  - reflexivity.
  - now rewrite Z.add_0_r.
  - reflexivity.
  - cbn [range_from]. rewrite IH. f_equal. lia.
Qed.

Lemma sorted_unmap {A : Type} (key : A -> Z) (l : list A) :
  StronglySorted Z.lt (map key l) ->
  StronglySorted (fun a b => key a < key b) l.
Proof.
  induction l as [|a l IH]; cbn; intros H; [constructor|].
  apply StronglySorted_inv in H as [Hs Ha].
  constructor; [auto|].
  rewrite Forall_forall in *. intros b Hb. apply Ha. now apply in_map.
Qed.

(** In a listing with the indices [0 .. n-1], the first [k] slides have an
    index below [k] and the others an index from [k] on. *)
Lemma listing_firstn (l : list SlideModel.t) (k : nat) (s : SlideModel.t) :
  map SlideModel.index l = py_range (List.length l) ->
  In s (firstn k l) -> 0 <= SlideModel.index s < Z.of_nat k.
Proof.
  intros Hl Hin. apply (in_map SlideModel.index) in Hin.
  rewrite <- firstn_map, Hl in Hin. unfold py_range in Hin.
  rewrite firstn_range in Hin. apply range_from_In in Hin. lia.
Qed.

Lemma listing_skipn (l : list SlideModel.t) (k : nat) (s : SlideModel.t) :
  map SlideModel.index l = py_range (List.length l) ->
  In s (skipn k l) -> Z.of_nat k <= SlideModel.index s.
Proof.
  intros Hl Hin. apply (in_map SlideModel.index) in Hin.
  rewrite <- skipn_map, Hl in Hin. unfold py_range in Hin.
  rewrite skipn_range in Hin. apply range_from_In in Hin. lia.
Qed.

Lemma list_ordered_In (pid : UUID) (rows : list SlideModel.t)
  (s : SlideModel.t) :
  In s (list_ordered pid rows) <-> In s rows /\ of_presentation pid s = true.
Proof. unfold list_ordered. now rewrite order_by_In, filter_In. Qed.

Lemma list_ordered_perm (pid : UUID) (rows : list SlideModel.t) :
  Permutation (list_ordered pid rows) (filter (of_presentation pid) rows).
Proof. apply order_by_perm. Qed.

Lemma map_id_in {A : Type} (f : A -> A) (l : list A) :
  (forall a, In a l -> f a = a) -> map f l = l.
Proof.
  intros H. rewrite <- (map_id l) at 2. now apply map_ext_in.
Qed.

Lemma filter_none {A : Type} (f : A -> bool) (l : list A) :
  (forall a, In a l -> f a = false) -> filter f l = [].
Proof.
  induction l as [|a l IH]; cbn; intros H; [reflexivity|].
  rewrite (H a) by now left. apply IH. intros b Hb. apply H. now right.
Qed.

Lemma find_nothing {A : Type} (f : A -> bool) (l : list A) :
  (forall a, In a l -> f a = false) -> find f l = None.
Proof.
  induction l as [|a l IH]; cbn; intros H; [reflexivity|].
  rewrite (H a) by now left. apply IH. intros b Hb. apply H. now right.
Qed.

Lemma NoDup_map_in {A B : Type} (f : A -> B) (l : list A) :
  (forall x y, In x l -> In y l -> f x = f y -> x = y) ->
  NoDup l -> NoDup (map f l).
Proof.
  intros Hf Hl. induction Hl as [|a l Ha Hl IH]; cbn; constructor.
  - intros Hin. apply in_map_iff in Hin as (b & Hb & Hbin).
    assert (b = a) by (apply Hf; cbn; auto). now subst.
  - apply IH. intros x y Hx Hy. apply Hf; now right.
Qed.

Lemma sorted_app {A : Type} (R : A -> A -> Prop) (l1 l2 : list A) :
  StronglySorted R l1 -> StronglySorted R l2 ->
  (forall x y, In x l1 -> In y l2 -> R x y) ->
  StronglySorted R (l1 ++ l2).
Proof.
  induction 1 as [|a l1 Hs IH Ha]; cbn; intros H2 Hc; [exact H2|].
  constructor.
  - apply IH; [exact H2|]. intros x y Hx Hy. apply Hc; cbn; auto.
  - rewrite Forall_forall in *. intros y Hy.
    apply in_app_or in Hy as [Hy|Hy]; [auto|]. apply Hc; cbn; auto.
Qed.

Lemma sorted_rev {A : Type} (R : A -> A -> Prop) (l : list A) :
  StronglySorted R l -> StronglySorted (fun a b => R b a) (rev l).
Proof.
  induction 1 as [|a l Hs IH Ha]; cbn; [constructor|].
  apply sorted_app.
  - exact IH.
  - repeat constructor.
  - intros x y Hx Hy. destruct Hy as [<-|[]]. apply in_rev in Hx.
    rewrite Forall_forall in Ha. auto.
Qed.


Section MoreHandlerFacts.

Variable get_slide_layout_from_prompt :
  string -> PresentationLayoutModel.t -> SlideModel.t ->
  Result SlideLayoutModel.t.
Variable get_edited_slide_content :
  string -> SlideModel.t -> string -> SlideLayoutModel.t -> Result Content.
Variable process_old_and_new_slides_and_fetch_assets :
  Content -> Content -> Result (list ImageAsset.t * Content).
Variable get_edited_slide_html : string -> string -> Result string.
Variable generate_presentation_structure :
  PresentationOutlineModel.t -> PresentationLayoutModel.t ->
  option string -> bool -> Result PresentationStructureModel.t.
Variable get_slide_content_from_type_and_outline :
  SlideLayoutModel.t -> SlideOutlineModel.t -> string -> option string ->
  option string -> option string -> Result Content.
Variable process_slide_and_fetch_assets :
  SlideModel.t -> Result (list ImageAsset.t * Content).
Variable to_presentation_structure :
  PresentationLayoutModel.t -> PresentationStructureModel.t.

Local Abbreviation create := (create_slide generate_presentation_structure
  get_slide_content_from_type_and_outline process_slide_and_fetch_assets
  to_presentation_structure).

Local Abbreviation edit := (edit_slide get_slide_layout_from_prompt
  get_edited_slide_content process_old_and_new_slides_and_fetch_assets).

Local Abbreviation edit_html := (edit_slide_html get_edited_slide_html).

(** ** Lookups that find nothing *)

(** X1.  When no presentation row has the given identity, the content
    edit, delete and insert raise the 404 error "Presentation not found"
    and leave the session as it was opened. *)
Theorem presentation_not_found (db : DB) (pid : UUID) :
  presentation_row pid db = None ->
  (forall idx prompt fresh,
      edit pid idx prompt fresh (open_session db)
      = (open_session db, Raise (HTTPException 404 "Presentation not found")))
  /\ (forall i,
      delete_slide pid i (open_session db)
      = (open_session db, Raise (HTTPException 404 "Presentation not found")))
  /\ (forall i content fresh,
      create pid i content fresh (open_session db)
      = (open_session db, Raise (HTTPException 404 "Presentation not found"))).
Proof.
  unfold presentation_row. intros Hp. repeat split; intros;
    unfold edit_slide, delete_slide, create_slide;
    cbv beta iota delta [bind get_presentation open_session pending];
    rewrite Hp; reflexivity.
Qed.

(** X2.  The content edit checks no index range.  For an existing
    presentation, an index that does not fit a signed 64-bit integer makes
    the query for the slide raise [OverflowError]; an index that fits and
    that no slide of the presentation has (a negative index, an index past
    the end) raises the 404 error "Slide not found", not the 400 range
    error.  The HTML edit raises the same 404 error when no slide has the
    given identity.  All three leave the session as it was opened. *)
Theorem slide_not_found (db : DB) :
  (forall pid p idx prompt fresh,
      presentation_row pid db = Some p ->
      (idx < - 2 ^ 63 \/ 2 ^ 63 <= idx ->
       edit pid idx prompt fresh (open_session db)
       = (open_session db, Raise OverflowError))
      /\ (- 2 ^ 63 <= idx < 2 ^ 63 ->
          (forall s, In s (slide_rows db) ->
                     SlideModel.presentation s = pid ->
                     SlideModel.index s <> idx) ->
          edit pid idx prompt fresh (open_session db)
          = (open_session db, Raise (HTTPException 404 "Slide not found"))))
  /\ (forall id prompt html fresh,
      ~ In id (map SlideModel.id (slide_rows db)) ->
      edit_html id prompt html fresh (open_session db)
      = (open_session db, Raise (HTTPException 404 "Slide not found"))).
Proof.
  split.
  - intros pid p idx prompt fresh Hp. unfold presentation_row in Hp.
    unfold edit_slide.
    cbv beta iota delta [bind get_presentation select_slides open_session
                         bind_parameter pending].
    rewrite Hp. cbv beta iota. unfold int_parameter, fits_int64. split.
    + intros Hout.
      destruct (Z.leb_spec (- 2 ^ 63) idx); cbn [andb]; [|reflexivity].
      destruct (Z.ltb_spec idx (2 ^ 63)); [lia|reflexivity].
    + intros Hfit Hnone.
      destruct (Z.leb_spec (- 2 ^ 63) idx); [|lia].
      destruct (Z.ltb_spec idx (2 ^ 63)); [|lia]. cbn [andb].
      rewrite filter_none; [reflexivity|].
      intros s Hs. apply andb_false_iff.
      destruct (of_presentation pid s) eqn:HP; [right|now left].
      apply Z.eqb_neq. apply Hnone; [exact Hs|]. now apply uuid_eqb_eq.
  - intros id prompt html fresh Hid. unfold edit_slide_html.
    cbv beta iota delta [bind get_slide open_session pending].
    rewrite find_nothing; [reflexivity|]. intros s Hs. apply uuid_eqb_neq.
    intros E. apply Hid. rewrite <- E. now apply in_map.
Qed.

(** ** The listing after an insert and after a delete *)

Lemma range_split (i : Z) (n : nat) :
  0 <= i <= Z.of_nat n ->
  py_range n = range_from 0 (Z.to_nat i) ++ range_from i (n - Z.to_nat i).
Proof.
  intros Hi. unfold py_range.
  replace n with (Z.to_nat i + (n - Z.to_nat i))%nat at 1 by lia.
  rewrite range_from_app. do 2 f_equal. lia.
Qed.

(** X3.  On a slide table with a primary key and a contiguous listing [l]
    of the presentation, a successful insert at index [i] returns the first
    [i] slides of [l] as they were, then the new slide, then the remaining
    slides of [l] in their order, each with its index raised by one and
    nothing else changed. *)
Theorem insert_listing (db : DB) (pid : UUID) (i : Z) (content : string)
  (fresh : UUID) (s' : Session) (r : PresentationWithSlides.t) :
  primary_key (slide_rows db) ->
  contiguous pid (slide_rows db) ->
  create pid i content fresh (open_session db) = (s', Return r) ->
  exists new,
    SlideModel.id new = fresh
    /\ SlideModel.presentation new = pid
    /\ SlideModel.index new = i
    /\ PresentationWithSlides.slides r
       = firstn (Z.to_nat i) (list_ordered pid (slide_rows db))
         ++ new
         :: map (fun s => SlideModel.set_index s (SlideModel.index s + 1))
                (skipn (Z.to_nat i) (list_ordered pid (slide_rows db))).
Proof.
  intros Hpk Hc H.
  eapply create_slide_rows in H as (new & Hid & Hpres & Hidx & Hi & Hrows & Hr);
    [|exact Hpk].
  exists new. repeat (split; [assumption|]).
  rewrite Hr, Hrows. clear Hr Hrows s' r.
  set (l := list_ordered pid (slide_rows db)) in *.
  unfold contiguous in Hc. fold l in Hc. unfold len in Hi.
  set (k := Z.to_nat i).
  assert (Hnew : of_presentation pid new = true)
    by (unfold of_presentation; rewrite Hpres; apply uuid_eqb_refl).
  assert (Hlow : map (shift_up pid i) (firstn k l) = firstn k l).
  { apply map_id_in. intros s Hs.
    pose proof (listing_firstn l k s Hc Hs) as Hb. unfold shift_up.
    destruct (Z.leb_spec i (SlideModel.index s)); [lia|].
    now rewrite andb_false_r. }
  assert (Hhigh : map (shift_up pid i) (skipn k l)
                  = map (fun s => SlideModel.set_index s
                                    (SlideModel.index s + 1)) (skipn k l)).
  { apply map_ext_in. intros s Hs.
    pose proof (listing_skipn l k s Hc Hs) as Hb.
    assert (HP : of_presentation pid s = true).
    { apply (list_ordered_In pid (slide_rows db)).
      rewrite <- (firstn_skipn k). apply in_or_app. now right. }
    unfold shift_up. rewrite HP.
    destruct (Z.leb_spec i (SlideModel.index s)); [reflexivity|lia]. }
  apply (sorted_perm_unique SlideModel.index).
  - apply index_asc_sorted.
  - apply sorted_unmap.
    rewrite map_app. cbn [map]. rewrite map_map. cbn [SlideModel.index
      SlideModel.set_index].
    rewrite <- (map_map SlideModel.index (fun z => z + 1)).
    rewrite <- firstn_map, <- skipn_map, Hc, Hidx.
    unfold py_range. rewrite firstn_range, skipn_range, range_from_shift.
    replace (Nat.min k (List.length l)) with k by lia.
    replace (0 + Z.of_nat k) with i by lia.
    change (range_from 0 k ++ i :: range_from (i + 1) (List.length l - k))
      with (range_from 0 k ++ range_from i (S (List.length l - k))).
    pose proof (range_from_sorted 0 (k + S (List.length l - k))) as Hs.
    rewrite range_from_app in Hs. replace (0 + Z.of_nat k) with i in Hs by lia.
    exact Hs.
  - eapply perm_trans; [apply order_by_perm|].
    rewrite filter_app.
    rewrite filter_map_comm by apply shift_up_presentation.
    cbn [filter]. rewrite Hnew.
    eapply perm_trans;
      [apply Permutation_app_tail, Permutation_map, Permutation_sym,
         (list_ordered_perm pid (slide_rows db))|].
    fold l. rewrite <- (firstn_skipn k l) at 1.
    rewrite map_app, Hlow, Hhigh, <- app_assoc.
    apply Permutation_app_head.
    apply Permutation_sym, Permutation_cons_append.
Qed.

Lemma skipn_cons {A : Type} (k : nat) (l : list A) :
  (k < List.length l)%nat ->
  exists a, nth_error l k = Some a /\ skipn k l = a :: skipn (S k) l.
Proof.
  revert l. induction k as [|k IH]; intros [|a l] Hk; cbn in Hk; try lia.
  - exists a. auto.
  - destruct (IH l) as (b & Hb & Hs); [lia|]. exists b. auto.
Qed.

(** The slide the delete handler picks is the one at position [i] of the
    contiguous listing, and the live slides left are the others. *)
Lemma delete_live (pid : UUID) (i : Z) (rows : list SlideModel.t)
  (d : SlideModel.t) (rest : list SlideModel.t) :
  primary_key rows ->
  contiguous pid rows ->
  filter (fun s => of_presentation pid s && (SlideModel.index s =? i)) rows
  = d :: rest ->
  0 <= i < len (list_ordered pid rows) ->
  nth_error (list_ordered pid rows) (Z.to_nat i) = Some d
  /\ skipn (Z.to_nat i) (list_ordered pid rows)
     = d :: skipn (S (Z.to_nat i)) (list_ordered pid rows)
  /\ Permutation
       (filter (of_presentation pid)
          (filter (fun r => negb (uuid_eqb (SlideModel.id r)
                                           (SlideModel.id d))) rows))
       (firstn (Z.to_nat i) (list_ordered pid rows)
        ++ skipn (S (Z.to_nat i)) (list_ordered pid rows)).
Proof.
  intros Hpk Hc Hd Hi.
  destruct (delete_target pid i _ d rest Hpk Hd) as (Hidx & HP & Hin & Hperm).
  set (l := list_ordered pid rows) in *.
  unfold contiguous in Hc. fold l in Hc. unfold len in Hi.
  set (k := Z.to_nat i).
  destruct (skipn_cons k l) as (d' & Hnth & Hskip); [lia|].
  assert (d' = d) as ->.
  { assert (Hdl : In d l) by (apply list_ordered_In; auto).
    rewrite <- (firstn_skipn k l), Hskip in Hdl.
    apply in_app_or in Hdl as [Hdl|[Hdl|Hdl]]; [| exact Hdl |].
    - apply (listing_firstn l k d Hc) in Hdl. lia.
    - apply (listing_skipn l (S k) d Hc) in Hdl. lia. }
  split; [exact Hnth|]. split; [exact Hskip|].
  apply Permutation_cons_inv with (a := d).
  eapply perm_trans; [apply Permutation_sym, Hperm|].
  eapply perm_trans; [apply Permutation_sym, (list_ordered_perm pid rows)|].
  fold l. rewrite <- (firstn_skipn k l) at 1. rewrite Hskip.
  apply Permutation_sym, Permutation_middle.
Qed.

(** X4.  On a slide table with a primary key and a contiguous listing [l]
    of the presentation, a successful delete at index [i] returns the first
    [i] slides of [l] as they were, then the slides after position [i] in
    their order, each with its index lowered by one and nothing else
    changed; the slide that was at position [i] is the row deleted. *)
Theorem delete_listing (db : DB) (pid : UUID) (i : Z) (s' : Session)
  (r : PresentationWithSlides.t) :
  primary_key (slide_rows db) ->
  contiguous pid (slide_rows db) ->
  delete_slide pid i (open_session db) = (s', Return r) ->
  exists d,
    nth_error (list_ordered pid (slide_rows db)) (Z.to_nat i) = Some d
    /\ ~ In (SlideModel.id d) (map SlideModel.id (slide_rows (committed s')))
    /\ PresentationWithSlides.slides r
       = firstn (Z.to_nat i) (list_ordered pid (slide_rows db))
         ++ map (fun s => SlideModel.set_index s (SlideModel.index s - 1))
                (skipn (S (Z.to_nat i)) (list_ordered pid (slide_rows db))).
Proof.
  intros Hpk Hc H.
  eapply delete_slide_rows in H as (d & rest & Hd & Hi & Hrows & Hr);
    [|exact Hpk].
  destruct (delete_live pid i _ d rest Hpk Hc Hd Hi) as (Hnth & _ & Hlive).
  set (l := list_ordered pid (slide_rows db)) in *.
  unfold contiguous in Hc. fold l in Hc. unfold len in Hi.
  set (k := Z.to_nat i) in *.
  exists d. split; [exact Hnth|]. split.
  { rewrite Hrows, map_map. intros Hx. apply in_map_iff in Hx as (x & Hx & Hxin).
    apply filter_In in Hxin as [_ Hne].
    apply negb_true_iff, uuid_eqb_neq in Hne. apply Hne. rewrite <- Hx.
    unfold shift_down. now destruct (_ && _). }
  rewrite Hr, Hrows. clear Hr Hrows s' r.
  assert (Hlow : map (shift_down pid i) (firstn k l) = firstn k l).
  { apply map_id_in. intros s Hs.
    pose proof (listing_firstn l k s Hc Hs) as Hb. unfold shift_down.
    destruct (Z.ltb_spec i (SlideModel.index s)); [lia|].
    now rewrite andb_false_r. }
  assert (Hhigh : map (shift_down pid i) (skipn (S k) l)
                  = map (fun s => SlideModel.set_index s
                                    (SlideModel.index s - 1))
                        (skipn (S k) l)).
  { apply map_ext_in. intros s Hs.
    pose proof (listing_skipn l (S k) s Hc Hs) as Hb.
    assert (HPs : of_presentation pid s = true).
    { apply (list_ordered_In pid (slide_rows db)). fold l.
      rewrite <- (firstn_skipn (S k) l). apply in_or_app. now right. }
    unfold shift_down. rewrite HPs.
    destruct (Z.ltb_spec i (SlideModel.index s)); [reflexivity|lia]. }
  apply (sorted_perm_unique SlideModel.index).
  - apply index_asc_sorted.
  - apply sorted_unmap.
    rewrite map_app, map_map. cbn [SlideModel.index SlideModel.set_index].
    rewrite <- (map_map SlideModel.index (fun z => z + -1)).
    rewrite <- firstn_map, <- skipn_map, Hc.
    unfold py_range. rewrite firstn_range, skipn_range, range_from_shift.
    replace (Nat.min k (List.length l)) with k by lia.
    pose proof (range_from_sorted 0 (k + (List.length l - S k))) as Hs.
    rewrite range_from_app in Hs.
    replace (0 + Z.of_nat (S k) + -1) with (0 + Z.of_nat k) by lia.
    exact Hs.
  - eapply perm_trans; [apply order_by_perm|].
    rewrite filter_map_comm by apply shift_down_presentation.
    eapply perm_trans; [apply Permutation_map, Hlive|].
    rewrite map_app, Hlow, Hhigh. apply Permutation_refl.
Qed.

(** ** What insert and delete leave alone *)

Lemma find_map_same {A : Type} (f : A -> bool) (g : A -> A) (l : list A) :
  (forall a, f (g a) = f a) -> (forall a, f a = true -> g a = a) ->
  find f (map g l) = find f l.
Proof.
  intros Hf Hg. induction l as [|a l IH]; cbn; [reflexivity|].
  rewrite Hf. destruct (f a) eqn:E; [now rewrite Hg|exact IH].
Qed.

Lemma other_presentation_row (pid q : UUID) (p p' : PresentationModel.t)
  (db : DB) (rows : list SlideModel.t) (assets : list ImageAsset.t) :
  presentation_row pid db = Some p ->
  PresentationModel.id p' = PresentationModel.id p ->
  q <> pid ->
  presentation_row q
    (mkDB (map (fun x => if uuid_eqb (PresentationModel.id x)
                                     (PresentationModel.id p)
                         then p' else x) (presentations db)) rows assets)
  = presentation_row q db.
Proof.
  unfold presentation_row. cbn [presentations]. intros Hp Hid Hq.
  apply find_some in Hp as [_ Hpid]. apply uuid_eqb_eq in Hpid.
  apply find_map_same; intros a.
  - destruct (uuid_eqb (PresentationModel.id a) (PresentationModel.id p))
      eqn:E; [|reflexivity].
    apply uuid_eqb_eq in E.
    transitivity false; [|symmetry]; apply uuid_eqb_neq; congruence.
  - intros Ha. apply uuid_eqb_eq in Ha.
    destruct (uuid_eqb (PresentationModel.id a) (PresentationModel.id p))
      eqn:E; [|reflexivity].
    apply uuid_eqb_eq in E. congruence.
Qed.

Lemma other_presentation_rows (pid q : UUID) (rows : list SlideModel.t)
  (h : SlideModel.t -> SlideModel.t) :
  q <> pid ->
  (forall s, of_presentation q (h s) = of_presentation q s) ->
  (forall s, of_presentation pid s = false -> h s = s) ->
  filter (of_presentation q) (map h rows) = filter (of_presentation q) rows.
Proof.
  intros Hq HP Hh. rewrite filter_map_comm by exact HP.
  apply map_id_in. intros s Hs. apply filter_In in Hs as [_ Hs].
  apply Hh. apply uuid_eqb_eq in Hs. apply uuid_eqb_neq. congruence.
Qed.

Lemma create_slide_frame (db : DB) (pid q : UUID) (i : Z) (content : string)
  (fresh : UUID) (s' : Session) (r : PresentationWithSlides.t) :
  primary_key (slide_rows db) ->
  q <> pid ->
  create pid i content fresh (open_session db) = (s', Return r) ->
  presentation_row q (committed s') = presentation_row q db
  /\ filter (of_presentation q) (slide_rows (committed s'))
     = filter (of_presentation q) (slide_rows db).
Proof.
  intros Hpk Hq H.
  eapply create_slide_inv in H
    as (p & new & assets & Hp & Hi & Hid & Hpres & Hidx & Hs & _).
  cbv zeta in Hs. rewrite insert_loop_rows in Hs by exact Hpk.
  subst s'. cbn [committed slide_rows]. split.
  - now apply (other_presentation_row pid).
  - rewrite filter_app. cbn [filter].
    replace (of_presentation q new) with false.
    2: { symmetry. apply uuid_eqb_neq. congruence. }
    rewrite app_nil_r.
    apply (other_presentation_rows pid); auto.
    + intros s. apply shift_up_presentation.
    + intros s Hs. unfold shift_up. now rewrite Hs.
Qed.

Lemma delete_slide_frame (db : DB) (pid q : UUID) (i : Z) (s' : Session)
  (r : PresentationWithSlides.t) :
  primary_key (slide_rows db) ->
  q <> pid ->
  delete_slide pid i (open_session db) = (s', Return r) ->
  presentation_row q (committed s') = presentation_row q db
  /\ filter (of_presentation q) (slide_rows (committed s'))
     = filter (of_presentation q) (slide_rows db)
  /\ image_assets (committed s') = image_assets db.
Proof.
  intros Hpk Hq H.
  eapply delete_slide_inv in H
    as (p & d & rest & n & Hp & Hi & Hd & Hn & Hs & _).
  cbv zeta in Hs.
  rewrite delete_loop_rows in Hs by (now apply NoDup_map_filter).
  destruct (delete_target pid i _ d rest Hpk Hd) as (_ & HP & Hin & _).
  subst s'. cbn [committed slide_rows image_assets]. split; [|split].
  - now apply (other_presentation_row pid).
  - rewrite (other_presentation_rows pid q); auto.
    + rewrite filter_comm. apply forallb_filter_id, forallb_forall.
      intros s Hs. apply filter_In in Hs as [Hs HQ].
      apply negb_true_iff, uuid_eqb_neq. intros E.
      assert (s = d) by (eapply primary_key_inj; eauto). subst s.
      apply uuid_eqb_eq in HP, HQ. congruence.
    + intros s. apply shift_down_presentation.
    + intros s Hs. unfold shift_down. now rewrite Hs.
  - reflexivity.
Qed.

(** X5.  On a slide table with a primary key, a committed insert or delete
    in one presentation leaves every other presentation as it was: the same
    presentation row and the same ordered listing, slide for slide.  A
    delete also leaves the asset table as it was. *)
Theorem other_presentations_untouched (db : DB) (pid q : UUID) :
  primary_key (slide_rows db) ->
  q <> pid ->
  (forall i content fresh s' r,
      create pid i content fresh (open_session db) = (s', Return r) ->
      presentation_row q (committed s') = presentation_row q db
      /\ list_ordered q (slide_rows (committed s'))
         = list_ordered q (slide_rows db))
  /\ (forall i s' r,
      delete_slide pid i (open_session db) = (s', Return r) ->
      presentation_row q (committed s') = presentation_row q db
      /\ list_ordered q (slide_rows (committed s'))
         = list_ordered q (slide_rows db)
      /\ image_assets (committed s') = image_assets db).
Proof.
  intros Hpk Hq. split.
  - intros i content fresh s' r H.
    destruct (create_slide_frame _ _ _ _ _ _ _ _ Hpk Hq H) as [Hp Hrows].
    split; [exact Hp|]. unfold list_ordered. now rewrite Hrows.
  - intros i s' r H.
    destruct (delete_slide_frame _ _ _ _ _ _ Hpk Hq H) as (Hp & Hrows & Ha).
    split; [exact Hp|]. split; [|exact Ha].
    unfold list_ordered. now rewrite Hrows.
Qed.

(** ** The edits, read backwards from a returned slide *)

(** The table after the row with the key [old_id] was replaced. *)
Lemma edit_slide_inv (db : DB) (pid : UUID) (idx : Z) (prompt : string)
  (fresh : UUID) (s' : Session) (r : SlideModel.t) :
  edit pid idx prompt fresh (open_session db) = (s', Return r) ->
  exists p old rest layout c processed,
    presentation_row pid db = Some p
    /\ filter (fun s => of_presentation pid s && (SlideModel.index s =? idx))
              (slide_rows db) = old :: rest
    /\ get_slide_layout_from_prompt prompt (PresentationModel.get_layout p) old
       = Return layout
    /\ get_edited_slide_content prompt old (PresentationModel.language p)
         layout = Return c
    /\ process_old_and_new_slides_and_fetch_assets (SlideModel.content old) c
       = Return processed
    /\ r = SlideModel.mk fresh (SlideModel.presentation old)
             (SlideModel.layout_group old) (SlideLayoutModel.id layout)
             (SlideModel.index old)
             (dict_get (snd processed) "__speaker_note__" (JStr ""))
             (snd processed) (SlideModel.html_content old)
    /\ committed s'
       = mkDB (presentations db)
              (map (fun x => if uuid_eqb (SlideModel.id x) (SlideModel.id old)
                             then r else x) (slide_rows db))
              (image_assets db ++ fst processed)
    /\ sent s'
       = flush (WUpdateSlide (SlideModel.id old) r
                :: map WInsertAsset (fst processed)).
Proof.
  unfold edit_slide. intros H. run_handler H. injection H as <- <-.
  do 6 eexists. unfold presentation_row.
  split; [eassumption|]. split; [reflexivity|].
  split; [eassumption|]. split; [eassumption|]. split; [eassumption|].
  repeat split.
Qed.

Lemma edit_slide_html_inv (db : DB) (id : UUID) (prompt : string)
  (html : option string) (fresh : UUID) (s' : Session) (r : SlideModel.t) :
  edit_html id prompt html fresh (open_session db) = (s', Return r) ->
  exists old h edited,
    find (fun x => uuid_eqb (SlideModel.id x) id) (slide_rows db) = Some old
    /\ str_or html (SlideModel.html_content old) = Some h
    /\ h <> ""
    /\ get_edited_slide_html prompt h = Return edited
    /\ r = SlideModel.mk fresh (SlideModel.presentation old)
             (SlideModel.layout_group old) (SlideModel.layout old)
             (SlideModel.index old) (SlideModel.speaker_note old)
             (SlideModel.content old) (Some edited)
    /\ committed s'
       = mkDB (presentations db)
              (map (fun x => if uuid_eqb (SlideModel.id x) (SlideModel.id old)
                             then r else x) (slide_rows db))
              (image_assets db)
    /\ sent s' = flush [WUpdateSlide (SlideModel.id old) r].
Proof.
  unfold edit_slide_html. intros H. run_handler H. injection H as <- <-.
  match goal with
  | Ht : negb (truthy ?o) = false |- _ =>
    destruct o as [h|] eqn:Hh; [|discriminate Ht];
    apply negb_false_iff in Ht; cbn in Ht;
    apply negb_true_iff, String.eqb_neq in Ht
  end.
  do 3 eexists.
  split; [first [eassumption | reflexivity]|].
  split; [eassumption|]. split; [eassumption|].
  split; [eassumption|]. destruct db. repeat split.
Qed.

(** ** The primary key and the shape of the collection under an edit *)

Lemma filter_map_comm_in {A : Type} (f : A -> bool) (h : A -> A)
  (l : list A) :
  (forall a, In a l -> f (h a) = f a) ->
  filter f (map h l) = map h (filter f l).
Proof.
  induction l as [|a l IH]; cbn; intros Hf; [reflexivity|].
  rewrite Hf by now left.
  destruct (f a); cbn; rewrite IH; auto.
Qed.

Lemma insert_by_map {A : Type} (leb : A -> A -> bool) (h : A -> A) (x : A)
  (l : list A) :
  (forall b, In b l -> leb (h x) (h b) = leb x b) ->
  insert_by leb (h x) (map h l) = map h (insert_by leb x l).
Proof.
  induction l as [|b l IH]; cbn; intros Hh; [reflexivity|].
  rewrite Hh by now left.
  destruct (leb x b); cbn; [reflexivity|]. rewrite IH; auto.
Qed.

Lemma order_by_map {A : Type} (leb : A -> A -> bool) (h : A -> A)
  (l : list A) :
  (forall a b, In a l -> In b l -> leb (h a) (h b) = leb a b) ->
  order_by leb (map h l) = map h (order_by leb l).
Proof.
  induction l as [|a l IH]; cbn; intros Hh; [reflexivity|].
  rewrite IH by (intros; apply Hh; now right).
  apply insert_by_map. intros b Hb. apply order_by_In in Hb.
  apply Hh; cbn; auto.
Qed.

(** Replacing the row of a key by a row with the same index and
    presentation. *)
Section Replace.

Variables (old new : SlideModel.t) (rows : list SlideModel.t).
Hypothesis Hpk : primary_key rows.
Hypothesis Hold : In old rows.
Hypothesis Hindex : SlideModel.index new = SlideModel.index old.
Hypothesis Hpres : SlideModel.presentation new = SlideModel.presentation old.

Local Abbreviation rep :=
  (fun x => if uuid_eqb (SlideModel.id x) (SlideModel.id old) then new else x).

Lemma rep_index (x : SlideModel.t) :
  In x rows -> SlideModel.index (rep x) = SlideModel.index x.
Proof.
  intros Hx. cbn beta.
  destruct (uuid_eqb (SlideModel.id x) (SlideModel.id old)) eqn:E;
    [|reflexivity].
  apply uuid_eqb_eq in E.
  assert (x = old) by (eapply primary_key_inj; eauto). now subst.
Qed.

Lemma rep_presentation (x : SlideModel.t) :
  In x rows -> SlideModel.presentation (rep x) = SlideModel.presentation x.
Proof.
  intros Hx. cbn beta.
  destruct (uuid_eqb (SlideModel.id x) (SlideModel.id old)) eqn:E;
    [|reflexivity].
  apply uuid_eqb_eq in E.
  assert (x = old) by (eapply primary_key_inj; eauto). now subst.
Qed.

Lemma rep_listing (q : UUID) :
  list_ordered q (map rep rows) = map rep (list_ordered q rows).
Proof.
  unfold list_ordered.
  rewrite filter_map_comm_in.
  2: { intros x Hx. unfold of_presentation. now rewrite rep_presentation. }
  apply order_by_map. intros a b Ha Hb.
  apply filter_In in Ha as [Ha _]. apply filter_In in Hb as [Hb _].
  unfold index_asc. now rewrite !rep_index.
Qed.

Lemma rep_indices (q : UUID) :
  map SlideModel.index (list_ordered q (map rep rows))
  = map SlideModel.index (list_ordered q rows).
Proof.
  rewrite rep_listing, map_map. apply map_ext_in. intros x Hx.
  apply rep_index. now apply list_ordered_In in Hx.
Qed.

Lemma rep_contiguous (q : UUID) :
  contiguous q rows -> contiguous q (map rep rows).
Proof.
  unfold contiguous. rewrite rep_indices. intros ->.
  now rewrite rep_listing, length_map.
Qed.

Lemma rep_primary_key :
  ~ In (SlideModel.id new) (map SlideModel.id rows) ->
  primary_key (map rep rows).
Proof.
  intros Hfresh. unfold primary_key. rewrite map_map.
  apply NoDup_map_in; [|eapply NoDup_map_inv, Hpk].
  intros x y Hx Hy. cbn beta.
  destruct (uuid_eqb (SlideModel.id x) (SlideModel.id old)) eqn:Ex,
           (uuid_eqb (SlideModel.id y) (SlideModel.id old)) eqn:Ey;
    intros E.
  - apply uuid_eqb_eq in Ex, Ey. eapply primary_key_inj; eauto. congruence.
  - exfalso. apply Hfresh. rewrite E. now apply in_map.
  - exfalso. apply Hfresh. rewrite <- E. now apply in_map.
  - eapply primary_key_inj; eauto.
Qed.

End Replace.

Lemma edited_row_found (pid : UUID) (idx : Z) (rows : list SlideModel.t)
  (old : SlideModel.t) (rest : list SlideModel.t) :
  filter (fun s => of_presentation pid s && (SlideModel.index s =? idx)) rows
  = old :: rest ->
  In old rows /\ SlideModel.presentation old = pid
  /\ SlideModel.index old = idx.
Proof.
  intros H.
  assert (Hin : In old (old :: rest)) by now left.
  rewrite <- H in Hin. apply filter_In in Hin as [Hin Hq].
  apply andb_true_iff in Hq as [HP Hi].
  apply uuid_eqb_eq in HP. apply Z.eqb_eq in Hi. auto.
Qed.

Lemma create_slide_primary_key (db : DB) (pid : UUID) (i : Z)
  (content : string) (fresh : UUID) (s' : Session)
  (r : PresentationWithSlides.t) :
  primary_key (slide_rows db) ->
  ~ In fresh (map SlideModel.id (slide_rows db)) ->
  create pid i content fresh (open_session db) = (s', Return r) ->
  primary_key (slide_rows (committed s'))
  /\ incl (map SlideModel.id (slide_rows (committed s')))
          (fresh :: map SlideModel.id (slide_rows db)).
Proof.
  intros Hpk Hfresh H.
  eapply create_slide_rows in H as (new & Hid & _ & _ & _ & -> & _);
    [|exact Hpk].
  unfold primary_key. rewrite map_app, shift_up_id. cbn [map].
  rewrite Hid. split.
  - apply (Permutation_NoDup (Permutation_cons_append _ _)).
    now constructor.
  - intros x Hx. apply in_app_or in Hx as [Hx|[<-|[]]]; cbn; auto.
Qed.

Lemma delete_slide_primary_key (db : DB) (pid : UUID) (i : Z) (s' : Session)
  (r : PresentationWithSlides.t) :
  primary_key (slide_rows db) ->
  delete_slide pid i (open_session db) = (s', Return r) ->
  primary_key (slide_rows (committed s'))
  /\ incl (map SlideModel.id (slide_rows (committed s')))
          (map SlideModel.id (slide_rows db)).
Proof.
  intros Hpk H.
  eapply delete_slide_rows in H as (d & rest & _ & _ & -> & _);
    [|exact Hpk].
  assert (E : map SlideModel.id
                (map (shift_down pid i)
                   (filter (fun r0 => negb (uuid_eqb (SlideModel.id r0)
                                                     (SlideModel.id d)))
                           (slide_rows db)))
              = map SlideModel.id
                  (filter (fun r0 => negb (uuid_eqb (SlideModel.id r0)
                                                    (SlideModel.id d)))
                          (slide_rows db))).
  { rewrite map_map. apply map_ext. intros x. unfold shift_down.
    now destruct (_ && _). }
  unfold primary_key. rewrite E. split.
  - apply NoDup_map_filter, Hpk.
  - intros x Hx. apply in_map_iff in Hx as (y & <- & Hy).
    apply filter_In in Hy as [Hy _]. now apply in_map.
Qed.

Lemma replaced_ids (old new : SlideModel.t) (rows : list SlideModel.t) :
  incl (map SlideModel.id
          (map (fun x => if uuid_eqb (SlideModel.id x) (SlideModel.id old)
                         then new else x) rows))
       (SlideModel.id new :: map SlideModel.id rows).
Proof.
  intros k Hk. apply in_map_iff in Hk as (y & <- & Hy).
  apply in_map_iff in Hy as (x & <- & Hx).
  destruct (uuid_eqb _ _); cbn; [auto|]. right. now apply in_map.
Qed.

Lemma edit_slide_primary_key (db : DB) (pid : UUID) (idx : Z)
  (prompt : string) (fresh : UUID) (s' : Session) (r : SlideModel.t) :
  primary_key (slide_rows db) ->
  ~ In fresh (map SlideModel.id (slide_rows db)) ->
  edit pid idx prompt fresh (open_session db) = (s', Return r) ->
  primary_key (slide_rows (committed s'))
  /\ incl (map SlideModel.id (slide_rows (committed s')))
          (fresh :: map SlideModel.id (slide_rows db)).
Proof.
  intros Hpk Hfresh H.
  apply edit_slide_inv in H
    as (p & old & rest & layout & c & pr & _ & Hsel & _ & _ & _ & Hr & Hs & _).
  apply edited_row_found in Hsel as (Hin & _ & _).
  assert (Hid : SlideModel.id r = fresh) by now rewrite Hr.
  rewrite Hs. cbn [slide_rows]. split.
  - apply rep_primary_key; auto; now rewrite Hr.
  - rewrite <- Hid. apply replaced_ids.
Qed.

Lemma edit_slide_html_primary_key (db : DB) (id : UUID) (prompt : string)
  (html : option string) (fresh : UUID) (s' : Session) (r : SlideModel.t) :
  primary_key (slide_rows db) ->
  ~ In fresh (map SlideModel.id (slide_rows db)) ->
  edit_html id prompt html fresh (open_session db) = (s', Return r) ->
  primary_key (slide_rows (committed s'))
  /\ incl (map SlideModel.id (slide_rows (committed s')))
          (fresh :: map SlideModel.id (slide_rows db)).
Proof.
  intros Hpk Hfresh H.
  apply edit_slide_html_inv in H
    as (old & h & edited & Hfind & _ & _ & _ & Hr & Hs & _).
  apply find_some in Hfind as [Hin _].
  assert (Hid : SlideModel.id r = fresh) by now rewrite Hr.
  rewrite Hs. cbn [slide_rows]. split.
  - apply rep_primary_key; auto; now rewrite Hr.
  - rewrite <- Hid. apply replaced_ids.
Qed.

(** X6.  The handlers keep [id] a primary key of the slide table: a
    committed insert or edit whose new identity no row has, and any
    committed delete, leave a table in which no two rows share an
    identity. *)
Theorem primary_key_preserved (db : DB) :
  primary_key (slide_rows db) ->
  (forall pid i content fresh s' r,
      ~ In fresh (map SlideModel.id (slide_rows db)) ->
      create pid i content fresh (open_session db) = (s', Return r) ->
      primary_key (slide_rows (committed s')))
  /\ (forall pid i s' r,
      delete_slide pid i (open_session db) = (s', Return r) ->
      primary_key (slide_rows (committed s')))
  /\ (forall pid idx prompt fresh s' r,
      ~ In fresh (map SlideModel.id (slide_rows db)) ->
      edit pid idx prompt fresh (open_session db) = (s', Return r) ->
      primary_key (slide_rows (committed s')))
  /\ (forall id prompt html fresh s' r,
      ~ In fresh (map SlideModel.id (slide_rows db)) ->
      edit_html id prompt html fresh (open_session db) = (s', Return r) ->
      primary_key (slide_rows (committed s'))).
Proof.
  intros Hpk. repeat split.
  - intros pid i content fresh s' r Hfresh H.
    eapply create_slide_primary_key; eauto.
  - intros pid i s' r H. eapply delete_slide_primary_key; eauto.
  - intros pid idx prompt fresh s' r Hfresh H.
    eapply edit_slide_primary_key; eauto.
  - intros id prompt html fresh s' r Hfresh H.
    eapply edit_slide_html_primary_key; eauto.
Qed.

Lemma edit_slide_shape (db : DB) (pid : UUID) (idx : Z) (prompt : string)
  (fresh : UUID) (s' : Session) (r : SlideModel.t) :
  primary_key (slide_rows db) ->
  edit pid idx prompt fresh (open_session db) = (s', Return r) ->
  exists old,
    In old (slide_rows db)
    /\ presentations (committed s') = presentations db
    /\ (forall q,
        list_ordered q (slide_rows (committed s'))
        = map (fun x => if uuid_eqb (SlideModel.id x) (SlideModel.id old)
                        then r else x)
              (list_ordered q (slide_rows db)))
    /\ (forall q, contiguous q (slide_rows db) ->
                  contiguous q (slide_rows (committed s'))).
Proof.
  intros Hpk H.
  apply edit_slide_inv in H
    as (p & old & rest & layout & c & pr & _ & Hsel & _ & _ & _ & Hr & Hs & _).
  apply edited_row_found in Hsel as (Hin & _ & _).
  exists old. rewrite Hs. cbn [slide_rows presentations].
  assert (Hi : SlideModel.index r = SlideModel.index old) by now rewrite Hr.
  assert (HP : SlideModel.presentation r = SlideModel.presentation old)
    by now rewrite Hr.
  repeat split; auto.
  - intros q. now apply rep_listing.
  - intros q. now apply rep_contiguous.
Qed.

Lemma edit_slide_html_shape (db : DB) (id : UUID) (prompt : string)
  (html : option string) (fresh : UUID) (s' : Session) (r : SlideModel.t) :
  primary_key (slide_rows db) ->
  edit_html id prompt html fresh (open_session db) = (s', Return r) ->
  exists old,
    In old (slide_rows db)
    /\ presentations (committed s') = presentations db
    /\ (forall q,
        list_ordered q (slide_rows (committed s'))
        = map (fun x => if uuid_eqb (SlideModel.id x) (SlideModel.id old)
                        then r else x)
              (list_ordered q (slide_rows db)))
    /\ (forall q, contiguous q (slide_rows db) ->
                  contiguous q (slide_rows (committed s'))).
Proof.
  intros Hpk H.
  apply edit_slide_html_inv in H
    as (old & h & edited & Hfind & _ & _ & _ & Hr & Hs & _).
  apply find_some in Hfind as [Hin _].
  exists old. rewrite Hs. cbn [slide_rows presentations].
  assert (Hi : SlideModel.index r = SlideModel.index old) by now rewrite Hr.
  assert (HP : SlideModel.presentation r = SlideModel.presentation old)
    by now rewrite Hr.
  repeat split; auto.
  - intros q. now apply rep_listing.
  - intros q. now apply rep_contiguous.
Qed.

(** X7.  On a slide table with a primary key a committed edit of either
    kind replaces one row and keeps the shape of every collection: the
    presentation rows (and so every counter [n_slides]) are as before, the
    ordered listing of every presentation is the former listing with the
    edited row replaced in place, and a contiguous presentation stays
    contiguous. *)
Theorem edit_keeps_collection (db : DB) :
  primary_key (slide_rows db) ->
  (forall pid idx prompt fresh s' r,
      edit pid idx prompt fresh (open_session db) = (s', Return r) ->
      exists old,
        In old (slide_rows db)
        /\ presentations (committed s') = presentations db
        /\ (forall q,
            list_ordered q (slide_rows (committed s'))
            = map (fun x => if uuid_eqb (SlideModel.id x) (SlideModel.id old)
                            then r else x)
                  (list_ordered q (slide_rows db)))
        /\ (forall q, contiguous q (slide_rows db) ->
                      contiguous q (slide_rows (committed s'))))
  /\ (forall id prompt html fresh s' r,
      edit_html id prompt html fresh (open_session db) = (s', Return r) ->
      exists old,
        In old (slide_rows db)
        /\ presentations (committed s') = presentations db
        /\ (forall q,
            list_ordered q (slide_rows (committed s'))
            = map (fun x => if uuid_eqb (SlideModel.id x) (SlideModel.id old)
                            then r else x)
                  (list_ordered q (slide_rows db)))
        /\ (forall q, contiguous q (slide_rows db) ->
                      contiguous q (slide_rows (committed s')))).
Proof.
  intros Hpk. split.
  - intros pid idx prompt fresh s' r H. now apply (edit_slide_shape _ pid idx prompt fresh).
  - intros id prompt html fresh s' r H.
    now apply (edit_slide_html_shape _ id prompt html fresh).
Qed.

(** ** A handler that raises has committed nothing *)

Ltac settle_layout_structure :=
  subst;
  repeat match goal with
  | Hq : (if ?c then _ else _) _ = (_, _) |- _ =>
    destruct c eqn:?; injection Hq as <- Hq; try discriminate Hq
  end;
  subst.

Lemma create_slide_raise (db : DB) (pid : UUID) (i : Z) (content : string)
  (fresh : UUID) (s' : Session) (e : Exn) :
  create pid i content fresh (open_session db) = (s', Raise e) ->
  committed s' = db.
Proof.
  unfold create_slide. intros H. run_handler H.
  all: settle_layout_structure.
  all: now injection H as <- _.
Qed.

Lemma delete_slide_raise (db : DB) (pid : UUID) (i : Z) (s' : Session)
  (e : Exn) :
  delete_slide pid i (open_session db) = (s', Raise e) -> committed s' = db.
Proof.
  unfold delete_slide. intros H. run_handler H.
  all: now injection H as <- _.
Qed.

Lemma edit_slide_raise (db : DB) (pid : UUID) (idx : Z) (prompt : string)
  (fresh : UUID) (s' : Session) (e : Exn) :
  edit pid idx prompt fresh (open_session db) = (s', Raise e) ->
  committed s' = db.
Proof.
  unfold edit_slide. intros H. run_handler H.
  all: now injection H as <- _.
Qed.

Lemma edit_slide_html_raise (db : DB) (id : UUID) (prompt : string)
  (html : option string) (fresh : UUID) (s' : Session) (e : Exn) :
  edit_html id prompt html fresh (open_session db) = (s', Raise e) ->
  committed s' = db.
Proof.
  unfold edit_slide_html. intros H. run_handler H.
  all: now injection H as <- _.
Qed.

(** ** The row an insert adds *)

Lemma py_getitem_In {A : Type} (l : list A) (i : Z) (a : A) :
  py_getitem l i = Return a -> In a l.
Proof.
  unfold py_getitem. destruct (_ || _); [discriminate|].
  destruct (nth_error l _) eqn:E; [|discriminate].
  intros H. injection H as <-. eapply nth_error_In, E.
Qed.

Lemma py_getitem_nonneg {A : Type} (l : list A) (i : Z) (a : A) :
  0 <= i -> py_getitem l i = Return a -> nth_error l (Z.to_nat i) = Some a.
Proof.
  unfold py_getitem. intros Hi.
  destruct (Z.ltb_spec i 0) as [Hneg|_]; [lia|].
  destruct (_ || _); [discriminate|].
  destruct (nth_error l _) eqn:E; [|discriminate].
  intros Hr. now injection Hr as <-.
Qed.

Lemma create_slide_new_row (db : DB) (pid : UUID) (i : Z) (content : string)
  (fresh : UUID) (s' : Session) (r : PresentationWithSlides.t) :
  create pid i content fresh (open_session db) = (s', Return r) ->
  exists p st k layout c processed,
    presentation_row pid db = Some p
    /\ (if PresentationLayoutModel.ordered (PresentationModel.get_layout p)
        then Return (to_presentation_structure (PresentationModel.get_layout p))
        else generate_presentation_structure
               (PresentationOutlineModel.mk [SlideOutlineModel.mk content])
               (PresentationModel.get_layout p)
               (PresentationModel.instructions p) true)
       = Return st
    /\ firstn 1 (PresentationStructureModel.slides st) = [k]
    /\ py_getitem
         (PresentationLayoutModel.slides (PresentationModel.get_layout p))
         (if len (PresentationLayoutModel.slides
                    (PresentationModel.get_layout p)) <=? k
          then 0 else k)
       = Return layout
    /\ get_slide_content_from_type_and_outline layout
         (SlideOutlineModel.mk content)
         (PresentationModel.language p) (PresentationModel.tone p)
         (PresentationModel.verbosity p) (PresentationModel.instructions p)
       = Return c
    /\ process_slide_and_fetch_assets
         (SlideModel.mk fresh pid
            (PresentationLayoutModel.name (PresentationModel.get_layout p))
            (SlideLayoutModel.id layout) i
            (dict_get c "__speaker_note__" (JStr "")) c None)
       = Return processed
    /\ slide_rows (committed s')
       = reindex (fun s => SlideModel.index s + 1)
           (order_by index_desc
              (filter (fun s => of_presentation pid s
                                && (i <=? SlideModel.index s))
                      (slide_rows db)))
           (slide_rows db)
         ++ [SlideModel.mk fresh pid
               (PresentationLayoutModel.name (PresentationModel.get_layout p))
               (SlideLayoutModel.id layout) i
               (dict_get c "__speaker_note__" (JStr "")) (snd processed)
               None]
    /\ image_assets (committed s') = image_assets db ++ fst processed.
Proof.
  unfold create_slide. intros H. run_handler H. settle_layout_structure.
  all: injection H as <- <-.
  all: do 6 eexists; unfold presentation_row.
  all: split; [eassumption|].
  all: split;
    [match goal with
     | Hb : PresentationLayoutModel.ordered _ = _ |- _ => rewrite Hb
     end; first [reflexivity | eassumption]|].
  all: split; [eapply firstn_1_shape; eassumption|].
  all: split; [eassumption|].
  all: split; [eassumption|].
  all: split; [eassumption|].
  all: split; reflexivity.
Qed.

(** ** What the edits and the insert write into the row *)

(** X8.  A committed content edit returns the slide with the content the
    asset collaborator left, with [speaker_note] equal to the
    [__speaker_note__] entry of that content (the empty string when the
    entry is missing), with the layout the layout collaborator chose, and
    with its layout group and HTML as before; the asset table grows by
    exactly the assets the asset collaborator returned. *)
Theorem edit_slide_result (db : DB) (pid : UUID) (idx : Z) (prompt : string)
  (fresh : UUID) (s' : Session) (r : SlideModel.t) :
  edit pid idx prompt fresh (open_session db) = (s', Return r) ->
  exists p old layout c processed,
    presentation_row pid db = Some p
    /\ In old (slide_rows db)
    /\ get_slide_layout_from_prompt prompt (PresentationModel.get_layout p) old
       = Return layout
    /\ get_edited_slide_content prompt old (PresentationModel.language p)
         layout = Return c
    /\ process_old_and_new_slides_and_fetch_assets (SlideModel.content old) c
       = Return processed
    /\ SlideModel.content r = snd processed
    /\ SlideModel.speaker_note r
       = dict_get (SlideModel.content r) "__speaker_note__" (JStr "")
    /\ SlideModel.layout r = SlideLayoutModel.id layout
    /\ SlideModel.layout_group r = SlideModel.layout_group old
    /\ SlideModel.html_content r = SlideModel.html_content old
    /\ image_assets (committed s') = image_assets db ++ fst processed.
Proof.
  intros H.
  apply edit_slide_inv in H
    as (p & old & rest & layout & c & pr & Hp & Hsel & Hl & Hc & Hpr & Hr
        & Hs & _).
  apply edited_row_found in Hsel as (Hin & _ & _).
  exists p, old, layout, c, pr. rewrite Hs, Hr. cbn. auto 12.
Qed.

(** X9.  A committed HTML edit sends the supplied [html] to the HTML
    collaborator when it is a non-empty string, and the stored
    [html_content] otherwise (no [html], or the empty string), which is then
    non-empty; the returned slide carries the collaborator's answer as
    [html_content] and its content, speaker note, layout and layout group as
    before; presentations and assets are as before. *)
Theorem edit_slide_html_result (db : DB) (id : UUID) (prompt : string)
  (html : option string) (fresh : UUID) (s' : Session) (r : SlideModel.t) :
  edit_html id prompt html fresh (open_session db) = (s', Return r) ->
  exists old h edited,
    In old (slide_rows db)
    /\ SlideModel.id old = id
    /\ (if truthy html then html = Some h
        else SlideModel.html_content old = Some h)
    /\ h <> ""
    /\ get_edited_slide_html prompt h = Return edited
    /\ SlideModel.html_content r = Some edited
    /\ SlideModel.content r = SlideModel.content old
    /\ SlideModel.speaker_note r = SlideModel.speaker_note old
    /\ SlideModel.layout r = SlideModel.layout old
    /\ SlideModel.layout_group r = SlideModel.layout_group old
    /\ presentations (committed s') = presentations db
    /\ image_assets (committed s') = image_assets db.
Proof.
  intros H.
  apply edit_slide_html_inv in H
    as (old & h & edited & Hfind & Hh & Hne & Hed & Hr & Hs & _).
  apply find_some in Hfind as [Hin Hid]. apply uuid_eqb_eq in Hid.
  exists old, h, edited. rewrite Hs, Hr. cbn.
  unfold str_or in Hh. destruct (truthy html); auto 12.
Qed.

(** X10.  A committed insert adds a row whose layout is the identity of a
    layout of the presentation's layout list and whose layout group is the
    name of that list: the layout at position 0 when the suggested index is
    [len] or more, the layout at the suggested position when it is in
    [0 .. len-1].  The row has no HTML, the content the asset collaborator
    left, and as speaker note the [__speaker_note__] entry of the generated
    content (the empty string when missing). *)
Theorem create_slide_row (db : DB) (pid : UUID) (i : Z) (content : string)
  (fresh : UUID) (s' : Session) (r : PresentationWithSlides.t) :
  create pid i content fresh (open_session db) = (s', Return r) ->
  exists p st k layout c processed new,
    presentation_row pid db = Some p
    /\ (if PresentationLayoutModel.ordered (PresentationModel.get_layout p)
        then Return (to_presentation_structure (PresentationModel.get_layout p))
        else generate_presentation_structure
               (PresentationOutlineModel.mk [SlideOutlineModel.mk content])
               (PresentationModel.get_layout p)
               (PresentationModel.instructions p) true)
       = Return st
    /\ firstn 1 (PresentationStructureModel.slides st) = [k]
    /\ In layout (PresentationLayoutModel.slides
                    (PresentationModel.get_layout p))
    /\ (len (PresentationLayoutModel.slides (PresentationModel.get_layout p))
        <= k ->
        nth_error (PresentationLayoutModel.slides
                     (PresentationModel.get_layout p)) 0 = Some layout)
    /\ (0 <= k < len (PresentationLayoutModel.slides
                        (PresentationModel.get_layout p)) ->
        nth_error (PresentationLayoutModel.slides
                     (PresentationModel.get_layout p)) (Z.to_nat k)
        = Some layout)
    /\ get_slide_content_from_type_and_outline layout
         (SlideOutlineModel.mk content)
         (PresentationModel.language p) (PresentationModel.tone p)
         (PresentationModel.verbosity p) (PresentationModel.instructions p)
       = Return c
    /\ In new (slide_rows (committed s'))
    /\ SlideModel.id new = fresh
    /\ SlideModel.layout new = SlideLayoutModel.id layout
    /\ SlideModel.layout_group new
       = PresentationLayoutModel.name (PresentationModel.get_layout p)
    /\ SlideModel.speaker_note new
       = dict_get c "__speaker_note__" (JStr "")
    /\ SlideModel.content new = snd processed
    /\ SlideModel.html_content new = None
    /\ image_assets (committed s') = image_assets db ++ fst processed.
Proof.
  intros H.
  apply create_slide_new_row in H
    as (p & st & k & layout & c & pr & Hp & Hst & Hk & Hl & Hc & Hpr & Hrows
        & Has).
  exists p, st, k, layout, c, pr. eexists.
  split; [exact Hp|]. split; [exact Hst|]. split; [exact Hk|].
  split; [eapply py_getitem_In, Hl|].
  split.
  { intros Hbig. apply Z.leb_le in Hbig. rewrite Hbig in Hl.
    now apply py_getitem_nonneg in Hl. }
  split.
  { intros Hin. destruct (Z.leb_spec
      (len (PresentationLayoutModel.slides (PresentationModel.get_layout p)))
      k); [lia|].
    apply py_getitem_nonneg in Hl; [exact Hl|lia]. }
  split; [exact Hc|].
  split; [rewrite Hrows; apply in_or_app; right; now left|].
  cbn. auto 10.
Qed.

(** X11.  For a presentation whose layout list is empty, insert never
    commits: whatever the collaborators return it raises, and the committed
    store is the store before the call. *)
Theorem create_slide_without_layouts (db : DB) (pid : UUID)
  (p : PresentationModel.t) (i : Z) (content : string) (fresh : UUID) :
  presentation_row pid db = Some p ->
  PresentationLayoutModel.slides (PresentationModel.get_layout p) = [] ->
  exists e,
    snd (create pid i content fresh (open_session db)) = Raise e
    /\ committed (fst (create pid i content fresh (open_session db))) = db.
Proof.
  intros Hp Hempty.
  destruct (create pid i content fresh (open_session db)) as [s' [r|e]] eqn:H.
  - exfalso.
    apply create_slide_new_row in H
      as (p0 & st & k & layout & c & pr & Hp0 & _ & _ & Hl & _).
    rewrite Hp in Hp0. injection Hp0 as <-.
    apply py_getitem_In in Hl. now rewrite Hempty in Hl.
  - exists e. split; [reflexivity|]. cbn. now apply create_slide_raise in H.
Qed.

(** X12.  The counter arithmetic, whatever the counter was: a committed
    insert stores [count + 1] when [n_slides] was [None] or 0 (with [count]
    the number of live slides before) and [n_slides + 1] otherwise; a
    committed delete stores [max(0, n_slides - 1)], never a negative
    number; with [n_slides] equal to [None] delete raises and commits
    nothing. *)
Theorem counter_updates (db : DB) (pid : UUID) (p : PresentationModel.t) :
  presentation_row pid db = Some p ->
  (forall i content fresh s' r,
      create pid i content fresh (open_session db) = (s', Return r) ->
      let count := len (list_ordered pid (slide_rows db)) in
      let n' := PresentationModel.n_slides
                  (PresentationWithSlides.presentation r) in
      presentation_row pid (committed s')
      = Some (PresentationWithSlides.presentation r)
      /\ (PresentationModel.n_slides p = None
          \/ PresentationModel.n_slides p = Some 0 -> n' = Some (count + 1))
      /\ (forall n, PresentationModel.n_slides p = Some n -> n <> 0 ->
                    n' = Some (n + 1)))
  /\ (forall i s' r,
      delete_slide pid i (open_session db) = (s', Return r) ->
      exists n,
        PresentationModel.n_slides p = Some n
        /\ presentation_row pid (committed s')
           = Some (PresentationWithSlides.presentation r)
        /\ PresentationModel.n_slides (PresentationWithSlides.presentation r)
           = Some (Z.max 0 (n - 1))
        /\ 0 <= Z.max 0 (n - 1))
  /\ (PresentationModel.n_slides p = None ->
      forall i s' out,
        delete_slide pid i (open_session db) = (s', out) ->
        (exists e, out = Raise e) /\ committed s' = db).
Proof.
  intros Hp. split; [|split].
  - intros i content fresh s' r H.
    eapply create_slide_inv in H
      as (p0 & new & assets & Hp0 & _ & _ & _ & _ & Hs & Hr).
    rewrite Hp in Hp0. injection Hp0 as <-. cbv zeta in Hs, Hr |- *.
    subst s' r. cbn [committed PresentationWithSlides.presentation
                     PresentationModel.n_slides PresentationModel.set_n_slides].
    split; [|split].
    + destruct db. eapply presentation_row_updated; [exact Hp|reflexivity].
    + intros [->| ->]; reflexivity.
    + intros n -> Hn. cbn. destruct (Z.eqb_spec n 0); [lia|reflexivity].
  - intros i s' r H.
    eapply delete_slide_inv in H
      as (p0 & d & rest & n & Hp0 & _ & _ & Hn & Hs & Hr).
    rewrite Hp in Hp0. injection Hp0 as <-. cbv zeta in Hs, Hr.
    exists n. subst s' r. cbn [committed PresentationWithSlides.presentation
                     PresentationModel.n_slides PresentationModel.set_n_slides].
    split; [exact Hn|]. split; [|split; [reflexivity|lia]].
    destruct db. eapply presentation_row_updated; [exact Hp|reflexivity].
  - intros Hnone i s' [r|e] H.
    + eapply delete_slide_inv in H
        as (p0 & d & rest & n & Hp0 & _ & _ & Hn & _).
      rewrite Hp in Hp0. injection Hp0 as <-. congruence.
    + split; [eauto|]. now apply delete_slide_raise in H.
Qed.

(** ** The order of the index writes *)

Lemma listing_skipn_sorted (l : list SlideModel.t) (k : nat) :
  map SlideModel.index l = py_range (List.length l) ->
  StronglySorted (fun a b => SlideModel.index a < SlideModel.index b)
                 (skipn k l).
Proof.
  intros Hl. apply sorted_unmap. rewrite <- skipn_map, Hl.
  unfold py_range. rewrite skipn_range. apply range_from_sorted.
Qed.

Lemma listing_filter_from (l : list SlideModel.t) (i : Z) :
  map SlideModel.index l = py_range (List.length l) ->
  0 <= i ->
  filter (fun s => i <=? SlideModel.index s) l = skipn (Z.to_nat i) l.
Proof.
  intros Hl Hi. rewrite <- (firstn_skipn (Z.to_nat i) l) at 1.
  rewrite filter_app, filter_none, forallb_filter_id; [reflexivity| |].
  - apply forallb_forall. intros s Hs.
    apply (listing_skipn l _ s Hl) in Hs. apply Z.leb_le. lia.
  - intros s Hs. apply (listing_firstn l _ s Hl) in Hs. apply Z.leb_gt. lia.
Qed.

Lemma listing_filter_after (l : list SlideModel.t) (i : Z) :
  map SlideModel.index l = py_range (List.length l) ->
  0 <= i ->
  filter (fun s => i <? SlideModel.index s)
         (firstn (Z.to_nat i) l ++ skipn (S (Z.to_nat i)) l)
  = skipn (S (Z.to_nat i)) l.
Proof.
  intros Hl Hi.
  rewrite filter_app, filter_none, forallb_filter_id; [reflexivity| |].
  - apply forallb_forall. intros s Hs.
    apply (listing_skipn l _ s Hl) in Hs. apply Z.ltb_lt. lia.
  - intros s Hs. apply (listing_firstn l _ s Hl) in Hs. apply Z.ltb_ge. lia.
Qed.

(** The slides the insert loop runs over: those from position [i] on, the
    last one first. *)
Lemma insert_loop_list (pid : UUID) (i : Z) (rows : list SlideModel.t) :
  contiguous pid rows -> 0 <= i ->
  order_by index_desc
    (filter (fun s => of_presentation pid s && (i <=? SlideModel.index s))
            rows)
  = rev (skipn (Z.to_nat i) (list_ordered pid rows)).
Proof.
  intros Hc Hi. unfold contiguous in Hc.
  apply (sorted_perm_unique (fun s => - SlideModel.index s)).
  - apply index_desc_sorted.
  - eapply StronglySorted_weaken;
      [|apply sorted_rev, (listing_skipn_sorted _ _ Hc)].
    cbn beta. intros a b Hab. lia.
  - eapply perm_trans; [apply order_by_perm|].
    rewrite filter_andb.
    eapply perm_trans;
      [apply filter_perm, Permutation_sym, (list_ordered_perm pid rows)|].
    rewrite listing_filter_from by assumption. apply Permutation_rev.
Qed.

(** The slides the delete loop runs over: those after position [i], in
    their order. *)
Lemma delete_loop_list (pid : UUID) (i : Z) (rows : list SlideModel.t)
  (d : SlideModel.t) (rest : list SlideModel.t) :
  primary_key rows -> contiguous pid rows ->
  filter (fun s => of_presentation pid s && (SlideModel.index s =? i)) rows
  = d :: rest ->
  0 <= i < len (list_ordered pid rows) ->
  order_by index_asc
    (filter (fun s => of_presentation pid s && (i <? SlideModel.index s))
       (filter (fun r => negb (uuid_eqb (SlideModel.id r) (SlideModel.id d)))
               rows))
  = skipn (S (Z.to_nat i)) (list_ordered pid rows).
Proof.
  intros Hpk Hc Hd Hi.
  destruct (delete_live pid i rows d rest Hpk Hc Hd Hi) as (_ & _ & Hlive).
  unfold contiguous in Hc.
  apply (sorted_perm_unique SlideModel.index).
  - apply index_asc_sorted.
  - apply (listing_skipn_sorted _ _ Hc).
  - eapply perm_trans; [apply order_by_perm|].
    rewrite filter_andb.
    eapply perm_trans; [apply filter_perm, Hlive|].
    rewrite listing_filter_after by (assumption || lia).
    apply Permutation_refl.
Qed.

(** *** What the database receives *)

Lemma filter_all {A : Type} (f : A -> bool) (l : list A) :
  (forall a, In a l -> f a = true) -> filter f l = l.
Proof.
  induction l as [|a l IH]; cbn; intros Hf; [reflexivity|].
  rewrite Hf by now left. f_equal. apply IH. auto.
Qed.

Lemma order_by_image {A B : Type} (lebA : A -> A -> bool)
  (lebB : B -> B -> bool) (h : A -> B) (l : list A) :
  (forall a b, lebB (h a) (h b) = lebA a b) ->
  order_by lebB (map h l) = map h (order_by lebA l).
Proof.
  intros Hh. induction l as [|a l IH]; cbn; [reflexivity|].
  rewrite IH. generalize (order_by lebA l). intros m.
  induction m as [|b m IHm]; cbn; [reflexivity|].
  rewrite Hh. destruct (lebA a b); cbn; [reflexivity|]. now rewrite IHm.
Qed.

(** Among the statements of a flush, the UPDATEs of slide rows are the
    changed slide rows of the unit of work sorted by primary key. *)
Lemma flush_slide_updates (u : list Write) :
  filter is_update_slide (flush u)
  = order_by key_asc (filter is_update_slide u).
Proof.
  unfold flush. rewrite !filter_app.
  rewrite (filter_none is_update_slide (filter is_insert_asset u))
    by (intros w Hw; apply filter_In in Hw as [_ Hw]; now destruct w).
  rewrite (filter_none is_update_slide
             (order_by key_asc (filter is_update_presentation u))).
  2: { intros w Hw. apply order_by_In, filter_In in Hw as [_ Hw].
       now destruct w. }
  rewrite (filter_all is_update_slide
             (order_by key_asc (filter is_update_slide u))).
  2: { intros w Hw. now apply order_by_In, filter_In in Hw as [_ Hw]. }
  rewrite (filter_none is_update_slide (filter is_insert_slide u))
    by (intros w Hw; apply filter_In in Hw as [_ Hw]; now destruct w).
  rewrite (filter_none is_update_slide (filter is_delete_slide u))
    by (intros w Hw; apply filter_In in Hw as [_ Hw]; now destruct w).
  cbn [app]. now rewrite app_nil_r.
Qed.

(** The index rewrites of a loop over [l], once flushed: those of the
    slides of [l] sorted by identity. *)
Lemma flush_index_rewrites (g : SlideModel.t -> Z) (l : list SlideModel.t)
  (others : list Write) :
  (forall w, In w others -> is_update_slide w = false) ->
  filter is_update_slide
    (flush (map (fun s => WSetIndex (SlideModel.id s) (g s)) l ++ others))
  = map (fun s => WSetIndex (SlideModel.id s) (g s))
        (order_by (fun a b => N.leb (SlideModel.id a) (SlideModel.id b)) l).
Proof.
  intros Ho. rewrite flush_slide_updates, filter_app.
  rewrite (filter_none _ others) by exact Ho. rewrite app_nil_r.
  rewrite filter_all by (intros w Hw; now apply in_map_iff in Hw as (s & <- & _)).
  apply order_by_image. reflexivity.
Qed.

Lemma id_leb_total (a b : SlideModel.t) :
  N.leb (SlideModel.id a) (SlideModel.id b) = false ->
  N.leb (SlideModel.id b) (SlideModel.id a) = true.
Proof. rewrite N.leb_gt, N.leb_le. lia. Qed.

Lemma id_leb_trans (a b c : SlideModel.t) :
  N.leb (SlideModel.id a) (SlideModel.id b) = true ->
  N.leb (SlideModel.id b) (SlideModel.id c) = true ->
  N.leb (SlideModel.id a) (SlideModel.id c) = true.
Proof. rewrite !N.leb_le. lia. Qed.

(** Rows with distinct identities, sorted by identity, are strictly
    sorted. *)
Lemma sorted_by_id_strict (l : list SlideModel.t) :
  NoDup (map SlideModel.id l) ->
  StronglySorted (fun a b => (SlideModel.id a < SlideModel.id b)%N)
    (order_by (fun a b => N.leb (SlideModel.id a) (SlideModel.id b)) l).
Proof.
  intros Hnd.
  assert (Hnd' : NoDup (map SlideModel.id
    (order_by (fun a b => N.leb (SlideModel.id a) (SlideModel.id b)) l))).
  { eapply Permutation_NoDup; [|exact Hnd].
    apply Permutation_map, Permutation_sym, order_by_perm. }
  pose proof (order_by_sorted _ id_leb_total id_leb_trans l) as Hs.
  revert Hs Hnd'.
  generalize (order_by (fun a b => N.leb (SlideModel.id a) (SlideModel.id b)) l).
  intros m Hs. induction Hs as [|a m Hs IH Ha]; cbn; intros Hnd';
    [constructor|].
  apply NoDup_cons_iff in Hnd' as [Hna Hnd']. constructor; [auto|].
  rewrite Forall_forall in *. intros b Hb.
  specialize (Ha b Hb). apply N.leb_le in Ha.
  assert (SlideModel.id a <> SlideModel.id b)
    by (intros E; apply Hna; rewrite E; now apply in_map).
  lia.
Qed.

Lemma listing_ids_distinct (pid : UUID) (rows : list SlideModel.t) (k : nat) :
  primary_key rows ->
  NoDup (map SlideModel.id (skipn k (list_ordered pid rows))).
Proof.
  intros Hpk.
  assert (H : NoDup (map SlideModel.id (list_ordered pid rows))).
  { eapply Permutation_NoDup;
      [apply Permutation_map, Permutation_sym, order_by_perm|].
    now apply NoDup_map_filter. }
  rewrite <- (firstn_skipn k (list_ordered pid rows)), map_app in H.
  now apply NoDup_app_remove_l in H.
Qed.

(** X13.  The loops register the index rewrites in index order, but the
    database receives them at the commit in another order.  On a slide table
    with a primary key and a contiguous listing [l] of the presentation, the
    slide UPDATEs the database receives for a committed insert at [i] are
    the index of each slide of [l] from position [i] on raised by one, and
    for a committed delete at [i], after the DELETE of the slide at position
    [i], the index of each later slide of [l] lowered by one: in both cases
    in strictly ascending order of the identities of the slides, whatever
    their indices are. *)
Theorem reindex_write_order (db : DB) (pid : UUID) (i : Z) :
  primary_key (slide_rows db) ->
  contiguous pid (slide_rows db) ->
  (forall content fresh s' r,
      create pid i content fresh (open_session db) = (s', Return r) ->
      exists moved,
        filter is_update_slide (sent s')
        = map (fun s => WSetIndex (SlideModel.id s) (SlideModel.index s + 1))
              moved
        /\ Permutation moved
             (skipn (Z.to_nat i) (list_ordered pid (slide_rows db)))
        /\ StronglySorted
             (fun a b => (SlideModel.id a < SlideModel.id b)%N) moved)
  /\ (forall s' r,
      delete_slide pid i (open_session db) = (s', Return r) ->
      exists d later moved,
        nth_error (list_ordered pid (slide_rows db)) (Z.to_nat i) = Some d
        /\ sent s' = WDeleteSlide (SlideModel.id d) :: later
        /\ filter is_update_slide later
           = map (fun s => WSetIndex (SlideModel.id s)
                             (SlideModel.index s - 1)) moved
        /\ Permutation moved
             (skipn (S (Z.to_nat i)) (list_ordered pid (slide_rows db)))
        /\ StronglySorted
             (fun a b => (SlideModel.id a < SlideModel.id b)%N) moved).
Proof.
  intros Hpk Hc. split.
  - intros content fresh s' r H.
    eapply create_slide_inv in H
      as (p & new & assets & _ & Hi & _ & _ & _ & Hs & _).
    cbv zeta in Hs. rewrite insert_loop_list in Hs by (assumption || lia).
    subst s'. cbn [sent]. eexists. split; [|split].
    + apply flush_index_rewrites. intros w Hw.
      apply in_app_or in Hw as [[<-|[]]|Hw]; [reflexivity|].
      apply in_app_or in Hw as [Hw|[<-|[]]]; [|reflexivity].
      now apply in_map_iff in Hw as (x & <- & _).
    + eapply perm_trans; [apply order_by_perm|].
      apply Permutation_sym, Permutation_rev.
    + apply sorted_by_id_strict.
      eapply Permutation_NoDup;
        [apply Permutation_map, Permutation_rev|].
      now apply listing_ids_distinct.
  - intros s' r H.
    eapply delete_slide_inv in H
      as (p & d & rest & n & _ & Hi & Hd & _ & Hs & _).
    cbv zeta in Hs.
    rewrite (delete_loop_list pid i _ d rest) in Hs by assumption.
    destruct (delete_live pid i _ d rest Hpk Hc Hd Hi) as (Hnth & _).
    subst s'. cbn [sent app]. exists d. eexists. eexists.
    split; [exact Hnth|]. split; [reflexivity|]. split; [|split].
    + apply flush_index_rewrites. intros w [<-|[]]. reflexivity.
    + apply order_by_perm.
    + apply sorted_by_id_strict. now apply listing_ids_distinct.
Qed.

(** *** The statements sent give the committed store *)

Lemma replay_app (ws1 ws2 : list Write) (db : DB) :
  replay (ws1 ++ ws2) db = replay ws2 (replay ws1 db).
Proof. apply fold_left_app. Qed.

Lemma replay_index_rewrites (g : SlideModel.t -> Z) (l : list SlideModel.t)
  (db : DB) :
  replay (map (fun s => WSetIndex (SlideModel.id s) (g s)) l) db
  = on_slides (reindex g l) db.
Proof.
  revert db. induction l as [|a l IH]; intros db; cbn.
  - now destruct db.
  - unfold replay in IH. rewrite IH. now destruct db.
Qed.

Lemma replay_insert_assets (assets : list ImageAsset.t) (db : DB) :
  replay (map WInsertAsset assets) db
  = mkDB (presentations db) (slide_rows db) (image_assets db ++ assets).
Proof.
  revert db. induction assets as [|a assets IH]; intros db; cbn.
  - rewrite app_nil_r. now destruct db.
  - unfold replay in IH. rewrite IH. cbn. now rewrite <- app_assoc.
Qed.

Lemma filter_image {A B : Type} (f : B -> bool) (h : A -> B) (b : bool)
  (l : list A) :
  (forall a, f (h a) = b) ->
  filter f (map h l) = if b then map h l else [].
Proof.
  intros Hf. induction l as [|a l IH]; cbn; [now destruct b|].
  rewrite Hf, IH. now destruct b.
Qed.

(** The flush of what an insert registered. *)
Lemma flush_insert (g : SlideModel.t -> Z) (l : list SlideModel.t)
  (new : SlideModel.t) (assets : list ImageAsset.t)
  (p : PresentationModel.t) :
  flush (map (fun s => WSetIndex (SlideModel.id s) (g s)) l
         ++ [WInsertSlide new] ++ map WInsertAsset assets
         ++ [WUpdatePresentation p])
  = map WInsertAsset assets
    ++ [WUpdatePresentation p]
    ++ map (fun s => WSetIndex (SlideModel.id s) (g s))
           (order_by (fun a b => N.leb (SlideModel.id a) (SlideModel.id b)) l)
    ++ [WInsertSlide new].
Proof.
  unfold flush. rewrite !filter_app.
  set (h := fun s => WSetIndex (SlideModel.id s) (g s)).
  rewrite (filter_image is_update_presentation h false) by reflexivity.
  rewrite (filter_image is_update_slide h true) by reflexivity.
  rewrite (filter_image is_insert_slide h false) by reflexivity.
  rewrite (filter_image is_insert_asset h false) by reflexivity.
  rewrite (filter_image is_delete_slide h false) by reflexivity.
  rewrite (filter_image is_update_presentation WInsertAsset false)
    by reflexivity.
  rewrite (filter_image is_update_slide WInsertAsset false) by reflexivity.
  rewrite (filter_image is_insert_slide WInsertAsset false) by reflexivity.
  rewrite (filter_image is_insert_asset WInsertAsset true) by reflexivity.
  rewrite (filter_image is_delete_slide WInsertAsset false) by reflexivity.
  cbn [filter is_update_presentation is_update_slide is_insert_slide
       is_insert_asset is_delete_slide app order_by insert_by].
  rewrite !app_nil_r.
  rewrite (order_by_image
             (fun a b => N.leb (SlideModel.id a) (SlideModel.id b)))
    by reflexivity.
  reflexivity.
Qed.

(** The flush of what a delete registered. *)
Lemma flush_delete (g : SlideModel.t -> Z) (l : list SlideModel.t)
  (p : PresentationModel.t) :
  flush (map (fun s => WSetIndex (SlideModel.id s) (g s)) l
         ++ [WUpdatePresentation p])
  = [WUpdatePresentation p]
    ++ map (fun s => WSetIndex (SlideModel.id s) (g s))
           (order_by (fun a b => N.leb (SlideModel.id a) (SlideModel.id b)) l).
Proof.
  unfold flush. rewrite !filter_app.
  set (h := fun s => WSetIndex (SlideModel.id s) (g s)).
  rewrite (filter_image is_update_presentation h false) by reflexivity.
  rewrite (filter_image is_update_slide h true) by reflexivity.
  rewrite (filter_image is_insert_slide h false) by reflexivity.
  rewrite (filter_image is_insert_asset h false) by reflexivity.
  rewrite (filter_image is_delete_slide h false) by reflexivity.
  cbn [filter is_update_presentation is_update_slide is_insert_slide
       is_insert_asset is_delete_slide app order_by insert_by].
  rewrite !app_nil_r.
  rewrite (order_by_image
             (fun a b => N.leb (SlideModel.id a) (SlideModel.id b)))
    by reflexivity.
  reflexivity.
Qed.

(** The flush of what an edit registered. *)
Lemma flush_edit (old_id : UUID) (row : SlideModel.t)
  (assets : list ImageAsset.t) :
  flush (WUpdateSlide old_id row :: map WInsertAsset assets)
  = map WInsertAsset assets ++ [WUpdateSlide old_id row].
Proof.
  unfold flush. cbn [filter is_update_presentation is_update_slide
    is_insert_slide is_insert_asset is_delete_slide].
  rewrite (filter_image is_update_presentation WInsertAsset false)
    by reflexivity.
  rewrite (filter_image is_update_slide WInsertAsset false) by reflexivity.
  rewrite (filter_image is_insert_slide WInsertAsset false) by reflexivity.
  rewrite (filter_image is_insert_asset WInsertAsset true) by reflexivity.
  rewrite (filter_image is_delete_slide WInsertAsset false) by reflexivity.
  reflexivity.
Qed.

(** On a table with a primary key, the rewrites of a set of rows give the
    same table in any order. *)
Lemma reindex_any_order (g : SlideModel.t -> Z) (q : SlideModel.t -> bool)
  (l l' rows : list SlideModel.t) :
  primary_key rows ->
  Permutation l (filter q rows) -> Permutation l' l ->
  reindex g l' rows = reindex g l rows.
Proof.
  intros Hpk Hl Hl'.
  rewrite (reindex_spec g q l rows Hpk Hl).
  apply reindex_spec; [exact Hpk|]. eapply perm_trans; eassumption.
Qed.

(** X14.  The reordering of the flush does not change the outcome.  For a
    committed insert or delete on a slide table with a primary key, and for
    a committed edit of either kind on any table, the statements the
    database received, applied to the store before the call in the order it
    received them, give the committed store, which is the store as the
    handler saw it at the commit; nothing is left in the unit of work. *)
Theorem database_agrees_with_session (db : DB) :
  (primary_key (slide_rows db) ->
   (forall pid i content fresh s' r,
       create pid i content fresh (open_session db) = (s', Return r) ->
       replay (sent s') db = committed s' /\ unit_of_work s' = [])
   /\ (forall pid i s' r,
       delete_slide pid i (open_session db) = (s', Return r) ->
       replay (sent s') db = committed s' /\ unit_of_work s' = []))
  /\ (forall pid idx prompt fresh s' r,
      edit pid idx prompt fresh (open_session db) = (s', Return r) ->
      replay (sent s') db = committed s' /\ unit_of_work s' = [])
  /\ (forall id prompt html fresh s' r,
      edit_html id prompt html fresh (open_session db) = (s', Return r) ->
      replay (sent s') db = committed s' /\ unit_of_work s' = []).
Proof.
  split; [intros Hpk; split|split].
  - intros pid i content fresh s' r H.
    eapply create_slide_inv in H
      as (p & new & assets & _ & _ & _ & _ & _ & Hs & _).
    cbv zeta in Hs. subst s'. cbn [sent committed unit_of_work].
    split; [|reflexivity].
    rewrite flush_insert, !replay_app, replay_index_rewrites,
      replay_insert_assets.
    cbn [replay fold_left apply_write]. unfold on_slides.
    cbn [presentations slide_rows image_assets PresentationModel.id
         PresentationModel.set_n_slides].
    do 2 f_equal.
    apply (reindex_any_order _
             (fun s => of_presentation pid s && (i <=? SlideModel.index s)));
      [exact Hpk | apply order_by_perm | apply order_by_perm].
  - intros pid i s' r H.
    eapply delete_slide_inv in H
      as (p & d & rest & n & _ & _ & _ & _ & Hs & _).
    cbv zeta in Hs. subst s'. cbn [sent committed unit_of_work].
    split; [|reflexivity].
    rewrite flush_delete, !replay_app, replay_index_rewrites.
    cbn [replay fold_left apply_write on_slides presentations slide_rows
         image_assets].
    unfold on_slides.
    cbn [presentations slide_rows image_assets PresentationModel.id
         PresentationModel.set_n_slides].
    f_equal.
    apply (reindex_any_order _
             (fun s => of_presentation pid s && (i <? SlideModel.index s)));
      [now apply NoDup_map_filter | apply order_by_perm | apply order_by_perm].
  - intros pid idx prompt fresh s' r H.
    assert (Hu : unit_of_work s' = [])
      by (unfold edit_slide in H; run_handler H; now injection H as <- _).
    apply edit_slide_inv in H
      as (p & old & rest & layout & c & processed & _ & _ & _ & _ & _ & _
          & Hc & Hs).
    rewrite Hs, Hc, flush_edit. split; [|exact Hu].
    rewrite replay_app, replay_insert_assets. reflexivity.
  - intros id prompt html fresh s' r H.
    assert (Hu : unit_of_work s' = [])
      by (unfold edit_slide_html in H; run_handler H;
          now injection H as <- _).
    apply edit_slide_html_inv in H
      as (old & h & edited & _ & _ & _ & _ & _ & Hc & Hs).
    rewrite Hs, Hc. split; [|exact Hu].
    rewrite (flush_edit _ _ []). cbn. now destruct db.
Qed.

(** ** Requests served one after the other *)

Lemma create_slide_counter (db : DB) (pid : UUID) (i : Z) (content : string)
  (fresh : UUID) (s' : Session) (r : PresentationWithSlides.t) :
  primary_key (slide_rows db) ->
  (forall p, presentation_row pid db = Some p ->
             PresentationModel.n_slides p
             = Some (len (list_ordered pid (slide_rows db)))) ->
  create pid i content fresh (open_session db) = (s', Return r) ->
  forall p', presentation_row pid (committed s') = Some p' ->
             PresentationModel.n_slides p'
             = Some (len (list_ordered pid (slide_rows (committed s')))).
Proof.
  intros Hpk Hn H p' Hp'.
  eapply create_slide_inv in H
    as (p & new & assets & Hp & Hi & Hid & Hpres & Hidx & Hs & _).
  cbv zeta in Hs. rewrite insert_loop_rows in Hs by exact Hpk.
  subst s'. cbn [committed slide_rows] in *.
  destruct db as [ps rows assets0].
  erewrite presentation_row_updated in Hp'; [|exact Hp|reflexivity].
  injection Hp' as <-.
  cbn [PresentationModel.n_slides PresentationModel.set_n_slides slide_rows]
    in *.
  rewrite (Hn p Hp). f_equal. rewrite !live_count, filter_app.
  rewrite filter_map_comm by apply shift_up_presentation.
  rewrite length_app, length_map. cbn [filter].
  replace (of_presentation pid new) with true
    by (unfold of_presentation; rewrite Hpres; symmetry; apply uuid_eqb_refl).
  cbn [List.length n_slides_or].
  destruct (Z.eqb_spec
    (Z.of_nat (List.length (filter (of_presentation pid) rows))) 0); lia.
Qed.

Lemma delete_slide_counter (db : DB) (pid : UUID) (i : Z) (s' : Session)
  (r : PresentationWithSlides.t) :
  primary_key (slide_rows db) ->
  (forall p, presentation_row pid db = Some p ->
             PresentationModel.n_slides p
             = Some (len (list_ordered pid (slide_rows db)))) ->
  delete_slide pid i (open_session db) = (s', Return r) ->
  forall p', presentation_row pid (committed s') = Some p' ->
             PresentationModel.n_slides p'
             = Some (len (list_ordered pid (slide_rows (committed s')))).
Proof.
  intros Hpk Hn H p' Hp'.
  eapply delete_slide_inv in H
    as (p & d & rest & n & Hp & Hi & Hd & Hn0 & Hs & _).
  cbv zeta in Hs.
  rewrite delete_loop_rows in Hs by (now apply NoDup_map_filter).
  destruct (delete_target pid i _ d rest Hpk Hd) as (_ & _ & _ & Hperm).
  apply Permutation_length in Hperm. cbn [List.length] in Hperm.
  rewrite (Hn p Hp) in Hn0. injection Hn0 as <-.
  subst s'. cbn [committed slide_rows] in *.
  destruct db as [ps rows assets0].
  erewrite presentation_row_updated in Hp'; [|exact Hp|reflexivity].
  injection Hp' as <-.
  cbn [PresentationModel.n_slides PresentationModel.set_n_slides slide_rows]
    in *.
  f_equal. rewrite !live_count in *.
  rewrite filter_map_comm by apply shift_down_presentation.
  rewrite length_map. lia.
Qed.

Lemma consistent_frame (pid : UUID) (db db' : DB) :
  consistent pid db ->
  primary_key (slide_rows db') ->
  presentation_row pid db' = presentation_row pid db ->
  filter (of_presentation pid) (slide_rows db')
  = filter (of_presentation pid) (slide_rows db) ->
  consistent pid db'.
Proof.
  intros (_ & Hc & Hn) Hpk Hp Hrows.
  assert (Hl : list_ordered pid (slide_rows db')
               = list_ordered pid (slide_rows db))
    by (unfold list_ordered; now rewrite Hrows).
  split; [exact Hpk|]. split.
  - unfold contiguous. now rewrite Hl.
  - intros p. rewrite Hp, Hl. apply Hn.
Qed.

Lemma consistent_replaced (pid : UUID) (db db' : DB) (old r : SlideModel.t) :
  consistent pid db ->
  primary_key (slide_rows db') ->
  presentations db' = presentations db ->
  (forall q,
      list_ordered q (slide_rows db')
      = map (fun x => if uuid_eqb (SlideModel.id x) (SlideModel.id old)
                      then r else x)
            (list_ordered q (slide_rows db))) ->
  (forall q, contiguous q (slide_rows db) -> contiguous q (slide_rows db')) ->
  consistent pid db'.
Proof.
  intros (_ & Hc & Hn) Hpk Hp Hl Hcont.
  split; [exact Hpk|]. split; [auto|].
  intros p. unfold presentation_row. rewrite Hp. intros Hfind.
  unfold len. rewrite Hl, length_map. now apply Hn.
Qed.

Section Serve.

Local Abbreviation serve1 := (serve get_slide_layout_from_prompt
  get_edited_slide_content process_old_and_new_slides_and_fetch_assets
  get_edited_slide_html generate_presentation_structure
  get_slide_content_from_type_and_outline process_slide_and_fetch_assets
  to_presentation_structure).

Lemma serve_consistent (pid : UUID) (req : Request) (db : DB) :
  consistent pid db ->
  (forall f, In f (fresh_of req) ->
             ~ In f (map SlideModel.id (slide_rows db))) ->
  consistent pid (serve1 req db)
  /\ incl (map SlideModel.id (slide_rows (serve1 req db)))
          (fresh_of req ++ map SlideModel.id (slide_rows db)).
Proof.
  intros Hcons Hfresh. pose proof Hcons as (Hpk & Hc & Hn).
  destruct req as [q idx prompt fresh|id prompt html fresh|q i
                  |q i content fresh]; cbn [serve fresh_of app] in *.
  - destruct (edit q idx prompt fresh (open_session db)) as [s' [r|e]] eqn:H;
      cbn [fst].
    + destruct (edit_slide_primary_key _ _ _ _ _ _ _ Hpk
                  (Hfresh fresh (or_introl eq_refl)) H) as [Hpk' Hincl].
      split; [|exact Hincl].
      destruct (edit_slide_shape _ _ _ _ _ _ _ Hpk H)
        as (old & _ & Hp & Hl & Hcont).
      now apply (consistent_replaced pid db _ old r).
    + apply edit_slide_raise in H. rewrite H. split; [exact Hcons|].
      apply incl_tl, incl_refl.
  - destruct (edit_html id prompt html fresh (open_session db))
      as [s' [r|e]] eqn:H; cbn [fst].
    + destruct (edit_slide_html_primary_key _ _ _ _ _ _ _ Hpk
                  (Hfresh fresh (or_introl eq_refl)) H) as [Hpk' Hincl].
      split; [|exact Hincl].
      destruct (edit_slide_html_shape _ _ _ _ _ _ _ Hpk H)
        as (old & _ & Hp & Hl & Hcont).
      now apply (consistent_replaced pid db _ old r).
    + apply edit_slide_html_raise in H. rewrite H. split; [exact Hcons|].
      apply incl_tl, incl_refl.
  - destruct (delete_slide q i (open_session db)) as [s' [r|e]] eqn:H;
      cbn [fst].
    + destruct (delete_slide_primary_key _ _ _ _ _ Hpk H) as [Hpk' Hincl].
      split; [|exact Hincl].
      destruct (N.eq_dec pid q) as [<-|Hq].
      * split; [exact Hpk'|]. split.
        -- pose proof H as H'.
           eapply delete_slide_rows in H' as (d & rest & Hd & Hi & -> & _);
             [|exact Hpk].
           now apply contiguous_after_delete with (rest := rest).
        -- now apply (delete_slide_counter db pid i s' r).
      * destruct (delete_slide_frame _ _ pid _ _ _ Hpk Hq H)
          as (Hp & Hrows & _).
        now apply (consistent_frame pid db).
    + apply delete_slide_raise in H. rewrite H. split; [exact Hcons|].
      apply incl_refl.
  - destruct (create q i content fresh (open_session db))
      as [s' [r|e]] eqn:H; cbn [fst].
    + destruct (create_slide_primary_key _ _ _ _ _ _ _ Hpk
                  (Hfresh fresh (or_introl eq_refl)) H) as [Hpk' Hincl].
      split; [|exact Hincl].
      destruct (N.eq_dec pid q) as [<-|Hq].
      * split; [exact Hpk'|]. split.
        -- pose proof H as H'.
           eapply create_slide_rows in H'
             as (new & _ & Hpres & Hidx & Hi & -> & _); [|exact Hpk].
           now apply contiguous_after_insert.
        -- now apply (create_slide_counter db pid i content fresh s' r).
      * destruct (create_slide_frame _ _ pid _ _ _ _ _ Hpk Hq H)
          as (Hp & Hrows).
        now apply (consistent_frame pid db).
    + apply create_slide_raise in H. rewrite H. split; [exact Hcons|].
      apply incl_tl, incl_refl.
Qed.

(** X15.  Requests served one after the other, each given by [uuid.uuid4()]
    an identity that no slide row has and no other request is given: if
    the slide table has a primary key, the live slides of a presentation
    are contiguous and its counter is their number, then the same holds
    after any sequence of edits, HTML edits, deletes and inserts on any
    presentations, whether each of them commits or raises. *)
Theorem serve_all_consistent (pid : UUID) (reqs : list Request) (db : DB) :
  consistent pid db ->
  NoDup (flat_map fresh_of reqs) ->
  (forall f, In f (flat_map fresh_of reqs) ->
             ~ In f (map SlideModel.id (slide_rows db))) ->
  consistent pid
    (serve_all get_slide_layout_from_prompt get_edited_slide_content
       process_old_and_new_slides_and_fetch_assets get_edited_slide_html
       generate_presentation_structure
       get_slide_content_from_type_and_outline process_slide_and_fetch_assets
       to_presentation_structure reqs db).
Proof.
  unfold serve_all. revert db.
  induction reqs as [|req reqs IH]; intros db Hcons Hnd Hfresh;
    cbn [fold_left flat_map] in *; [exact Hcons|].
  apply NoDup_app_remove_l in Hnd as Hnd'.
  destruct (serve_consistent pid req db Hcons) as [Hcons' Hincl].
  { intros f Hf. apply Hfresh, in_or_app. now left. }
  apply IH; [exact Hcons'|exact Hnd'|].
  intros f Hf Hin. apply Hincl in Hin. apply in_app_or in Hin as [Hin|Hin].
  - revert f Hf Hin. clear -Hnd.
    induction (fresh_of req) as [|a l IHl]; cbn in *; [tauto|].
    apply NoDup_cons_iff in Hnd as [Ha Hnd].
    intros f Hf [->|Hin]; [apply Ha, in_or_app; now right|eauto].
  - apply (Hfresh f); [apply in_or_app; now right|exact Hin].
Qed.

End Serve.

End MoreHandlerFacts.

(** * Further properties of the object storage *)

Lemma split_no_slash (s : string) :
  has_slash s = false -> split_last_slash s = None.
Proof.
  induction s as [|c s IH]; cbn; [reflexivity|].
  intros H. apply orb_false_iff in H as [Hc Hs].
  now rewrite (IH Hs), Hc.
Qed.

Lemma split_tail_no_slash (s h t : string) :
  split_last_slash s = Some (h, t) -> has_slash t = false.
Proof.
  revert h t. induction s as [|c s IH]; cbn; [discriminate|].
  intros h t. destruct (split_last_slash s) as [[h' t']|] eqn:E.
  - intros H. injection H as <- <-. eapply IH. reflexivity.
  - destruct (is_slash c); [|discriminate].
    intros H. injection H as <- <-.
    clear IH. revert E. induction s as [|c' s IH]; cbn; [reflexivity|].
    destruct (split_last_slash s) as [[h' t']|]; [discriminate|].
    destruct (is_slash c'); [discriminate|]. intros _. now apply IH.
Qed.

Lemma basename_no_slash (path : string) : has_slash (basename path) = false.
Proof.
  unfold basename. destruct (split_last_slash path) as [[h t]|] eqn:E.
  - eapply split_tail_no_slash, E.
  - clear -E. induction path as [|c s IH]; cbn in *; [reflexivity|].
    destruct (split_last_slash s) as [[h' t']|]; [discriminate|].
    destruct (is_slash c); [discriminate|]. now apply IH.
Qed.

Lemma split_after_slash (s f : string) :
  has_slash f = false ->
  split_last_slash (s ++ String "/" f) = Some ((s ++ "/")%string, f).
Proof.
  intros Hf. induction s as [|c s IH]; cbn.
  - now rewrite (split_no_slash f Hf).
  - now rewrite IH.
Qed.

Lemma basename_after_slash (s f : string) :
  has_slash f = false -> basename (s ++ String "/" f) = f.
Proof. intros Hf. unfold basename. now rewrite split_after_slash. Qed.

Lemma basename_plain (f : string) : has_slash f = false -> basename f = f.
Proof. intros Hf. unfold basename. now rewrite split_no_slash. Qed.

Lemma append_assoc (a b c : string) :
  ((a ++ b) ++ c = a ++ (b ++ c))%string.
Proof. induction a as [|x a IH]; cbn; [reflexivity|now rewrite IH]. Qed.

Lemma append_nil_r (a : string) : (a ++ "")%string = a.
Proof. induction a as [|x a IH]; cbn; [reflexivity|now rewrite IH]. Qed.

Lemma length_append (a b : string) :
  String.length (a ++ b) = (String.length a + String.length b)%nat.
Proof. induction a as [|x a IH]; cbn; [reflexivity|now rewrite IH]. Qed.

Lemma concat_last (sep : string) (parts : list string) (f : string) :
  parts <> [] ->
  String.concat sep (parts ++ [f])
  = (String.concat sep parts ++ sep ++ f)%string.
Proof.
  induction parts as [|a parts IH]; [congruence|]. intros _.
  destruct parts as [|b parts].
  - reflexivity.
  - change (String.concat sep ((a :: b :: parts) ++ [f]))
      with (a ++ sep ++ String.concat sep ((b :: parts) ++ [f]))%string.
    rewrite IH by discriminate.
    change (String.concat sep (a :: b :: parts))
      with (a ++ sep ++ String.concat sep (b :: parts))%string.
    now rewrite !append_assoc.
Qed.

Lemma object_key_shape (environ : Environ) (local_path : string)
  (postfix : option string) :
  object_key environ local_path postfix = basename local_path
  \/ exists dir, object_key environ local_path postfix
                 = (dir ++ String "/" (basename local_path))%string.
Proof.
  unfold object_key. cbv zeta.
  match goal with
  | |- context [String.concat "/" (?l ++ [_])] => destruct l as [|a l'] eqn:E
  end.
  - left. reflexivity.
  - right. rewrite concat_last by discriminate. eauto.
Qed.

Section MoreObjectStorageFacts.

Variable upload_file :
  S3Client -> string -> string -> string ->
  option (list (string * string)) -> Result unit.
Variable download_file : S3Client -> string -> string -> string -> Result unit.
Variable makedirs : string -> Result unit.
Variable guess_type : string -> option string.

Local Abbreviation upload := (_upload_file_to_s3_sync upload_file guess_type).
Local Abbreviation download := (_download_file_from_s3_sync download_file
  makedirs).

Lemma upload_returns_key (environ : Environ) (st : option S3Client)
  (local_path : string) (postfix : option string) (key : string) :
  snd (upload environ st local_path postfix) = Return (Some key) ->
  key = object_key environ local_path postfix.
Proof.
  unfold _upload_file_to_s3_sync.
  destruct (get_s3_client environ st) as [st' [c|]];
    [|discriminate].
  destruct (get_object_storage_bucket_name_env environ) as [b|];
    [|discriminate].
  destruct (negb (truthy (Some b))); [discriminate|].
  destruct (upload_file c local_path b _ _); cbn; [|discriminate].
  intros H. now injection H as <-.
Qed.

(** X16.  The key a successful upload returns names the uploaded file: its
    last path component is the file name of the local path, whatever the
    prefix and the postfix are; with neither a prefix in the environment nor
    a postfix the key is the file name alone. *)
Theorem upload_key_names_file (environ : Environ) (st : option S3Client)
  (local_path : string) (postfix : option string) (key : string) :
  snd (upload environ st local_path postfix) = Return (Some key) ->
  basename key = basename local_path
  /\ (truthy (get_object_storage_prefix_env environ) = false ->
      truthy postfix = false -> key = basename local_path).
Proof.
  intros H. apply upload_returns_key in H. subst key. split.
  - destruct (object_key_shape environ local_path postfix) as [->|[dir ->]].
    + apply basename_plain, basename_no_slash.
    + apply basename_after_slash, basename_no_slash.
  - intros Hpre Hpost. unfold object_key, str_or. rewrite Hpre. cbn.
    destruct postfix as [p|]; [|reflexivity]. now rewrite Hpost.
Qed.

(** X17.  The client handle is built once: after a call under an
    environment with an endpoint and credentials the module holds the
    client built from it, and a later upload under any environment naming a
    bucket uses that client, without reading endpoint or credentials again;
    under an environment without them nothing is kept, so the next call
    reads the environment anew. *)
Theorem s3_client_cached (environ environ' : Environ) (local_path : string)
  (postfix : option string) :
  (forall c,
      _build_s3_client environ = Some c ->
      fst (upload environ None local_path postfix) = Some c
      /\ fst (download environ None local_path local_path) = Some c
      /\ get_s3_client environ' (Some c) = (Some c, Some c)
      /\ forall bucket local_path' postfix',
           get_object_storage_bucket_name_env environ' = Some bucket ->
           bucket <> "" ->
           upload_file c local_path' bucket
             (object_key environ' local_path' postfix')
             (extra_args guess_type local_path') = Return tt ->
           upload environ' (Some c) local_path' postfix'
           = (Some c, Return (Some (object_key environ' local_path' postfix'))))
  /\ (_build_s3_client environ = None ->
      upload environ None local_path postfix = (None, Return None)
      /\ download environ None local_path local_path = (None, Return None)).
Proof.
  split.
  - intros c Hc. unfold _upload_file_to_s3_sync, _download_file_from_s3_sync,
      get_s3_client. rewrite Hc.
    split.
    { destruct (get_object_storage_bucket_name_env environ) as [b|];
        [|reflexivity].
      destruct (negb (truthy (Some b))); [reflexivity|].
      now destruct (upload_file c local_path b _ _). }
    split.
    { destruct (get_object_storage_bucket_name_env environ) as [b|];
        [|reflexivity].
      destruct (negb (truthy (Some b))); [reflexivity|].
      destruct (makedirs _); [|reflexivity].
      now destruct (download_file c b _ _). }
    split; [reflexivity|].
    intros bucket local_path' postfix' Hb Hne Hup. rewrite Hb.
    replace (negb (truthy (Some bucket))) with false.
    2: { symmetry. apply negb_false_iff. cbn. apply negb_true_iff.
         now apply String.eqb_neq. }
    now rewrite Hup.
  - intros Hnone. unfold _upload_file_to_s3_sync, _download_file_from_s3_sync,
      get_s3_client. rewrite Hnone. split; reflexivity.
Qed.

(** X18.  A client is built exactly when the endpoint, the access key and
    the secret key are set and non-empty; it carries them, the region of
    the environment or ["us-east-1"] when that is unset or empty, and the
    path addressing style. *)
Theorem build_s3_client_fields (environ : Environ) :
  (truthy (get_object_storage_endpoint_env environ)
   && truthy (get_object_storage_access_key_id_env environ)
   && truthy (get_object_storage_secret_access_key_env environ) = true
   <-> exists c, _build_s3_client environ = Some c)
  /\ (forall c,
      _build_s3_client environ = Some c ->
      endpoint_url c = get_object_storage_endpoint_env environ
      /\ aws_access_key_id c = get_object_storage_access_key_id_env environ
      /\ aws_secret_access_key c
         = get_object_storage_secret_access_key_env environ
      /\ truthy (region_name c) = true
      /\ (truthy (environ "OBJECT_STORAGE_REGION") = true ->
          region_name c = environ "OBJECT_STORAGE_REGION")
      /\ (truthy (environ "OBJECT_STORAGE_REGION") = false ->
          region_name c = Some "us-east-1")
      /\ addressing_style c = "path").
Proof.
  unfold _build_s3_client, get_object_storage_region_env, str_or.
  destruct (truthy (get_object_storage_endpoint_env environ)),
           (truthy (get_object_storage_access_key_id_env environ)),
           (truthy (get_object_storage_secret_access_key_env environ));
    cbn; (split; [split; [try discriminate; eauto
                         |intros [c Hc]; try discriminate; auto]|]).
  all: intros c Hc; try discriminate Hc; injection Hc as <-; cbn.
  destruct (truthy (environ "OBJECT_STORAGE_REGION")) eqn:E;
    repeat split; auto; discriminate.
Qed.

End MoreObjectStorageFacts.

(** * The image prompt *)

Lemma prefix_append (a b : string) : String.prefix a (a ++ b) = true.
Proof.
  induction a as [|c a IH]; cbn; [now destruct b|].
  destruct (Ascii.ascii_dec c c); [exact IH|congruence].
Qed.

(** X19.  [get_image_prompt] returns the prompt itself without the theme;
    with the theme it returns the prompt, [", "] and the theme prompt, so a
    strictly longer text that starts with the prompt, and when no theme
    prompt is set the text after [", "] is ["None"]. *)
Theorem get_image_prompt_text (self : ImagePrompt.t) (with_theme : bool) :
  String.prefix (ImagePrompt.prompt self)
    (ImagePrompt.get_image_prompt self with_theme) = true
  /\ (ImagePrompt.get_image_prompt self with_theme = ImagePrompt.prompt self
      <-> with_theme = false)
  /\ (with_theme = true -> ImagePrompt.theme_prompt self = None ->
      ImagePrompt.get_image_prompt self with_theme
      = (ImagePrompt.prompt self ++ ", None")%string).
Proof.
  unfold ImagePrompt.get_image_prompt. destruct with_theme.
  - split; [apply prefix_append|]. split.
    + split; [|discriminate]. intros E. exfalso.
      apply (f_equal String.length) in E.
      rewrite !length_append in E. cbn in E. lia.
    + intros _ ->. reflexivity.
  - split; [|split; [tauto|discriminate]].
    rewrite <- (append_nil_r (ImagePrompt.prompt self)) at 2.
    apply prefix_append.
Qed.

(** ** The further theorems on the sample store *)

Lemma sample_contiguous : contiguous 1%N (slide_rows Example.db).
Proof. reflexivity. Defined.

Lemma presentation_not_found_witness :
  Example.edit 9%N 0 "shorter" 99%N (open_session Example.db)
  = (open_session Example.db,
     Raise (HTTPException 404 "Presentation not found"))
  /\ delete_slide 9%N 0 (open_session Example.db)
     = (open_session Example.db,
        Raise (HTTPException 404 "Presentation not found"))
  /\ Example.create 0 9%N 0 "New" 99%N (open_session Example.db)
     = (open_session Example.db,
        Raise (HTTPException 404 "Presentation not found")).
Proof.
  destruct (presentation_not_found Example.get_slide_layout_from_prompt
              Example.get_edited_slide_content
              Example.process_old_and_new_slides_and_fetch_assets
              (Example.generate_presentation_structure 0)
              Example.get_slide_content_from_type_and_outline
              Example.process_slide_and_fetch_assets
              Example.to_presentation_structure
              Example.db 9%N eq_refl) as (He & Hd & Hc).
  split; [apply He|]. split; [apply Hd|apply Hc].
Defined.

Lemma slide_not_found_witness :
  Example.edit 1%N (-1) "shorter" 99%N (open_session Example.db)
  = (open_session Example.db, Raise (HTTPException 404 "Slide not found"))
  /\ Example.edit 1%N 3 "shorter" 99%N (open_session Example.db)
     = (open_session Example.db, Raise (HTTPException 404 "Slide not found"))
  /\ Example.edit 1%N (2 ^ 63) "shorter" 99%N (open_session Example.db)
     = (open_session Example.db, Raise OverflowError)
  /\ Example.edit_html 50%N "bold" (Some "<p/>") 99%N
       (open_session Example.db)
     = (open_session Example.db, Raise (HTTPException 404 "Slide not found")).
Proof.
  destruct (slide_not_found Example.get_slide_layout_from_prompt
              Example.get_edited_slide_content
              Example.process_old_and_new_slides_and_fetch_assets
              Example.get_edited_slide_html Example.db) as [He Hh].
  assert (Hrows : forall idx,
             idx <> 0 -> idx <> 1 -> idx <> 2 ->
             forall s, In s (slide_rows Example.db) ->
                       SlideModel.presentation s = 1%N ->
                       SlideModel.index s <> idx).
  { intros idx H0 H1 H2 s Hs Hp. cbn in Hs.
    destruct Hs as [<-|[<-|[<-|[<-|[]]]]]; cbn in *;
      first [discriminate Hp | congruence]. }
  split; [|split; [|split]].
  - apply (He 1%N Example.deck (-1) "shorter" 99%N eq_refl); [lia|].
    apply Hrows; discriminate.
  - apply (He 1%N Example.deck 3 "shorter" 99%N eq_refl); [lia|].
    apply Hrows; discriminate.
  - apply (He 1%N Example.deck (2 ^ 63) "shorter" 99%N eq_refl). right. lia.
  - apply Hh. cbn. intuition discriminate.
Defined.

Lemma insert_listing_witness :
  exists new,
    SlideModel.id new = 99%N
    /\ PresentationWithSlides.slides
         (Example.returned (PresentationWithSlides.mk Example.deck [])
            (Example.create 0 1%N 1 "New" 99%N (open_session Example.db)))
       = [Example.s0; new; SlideModel.set_index Example.s1 2;
          SlideModel.set_index Example.s2 3].
Proof.
  destruct (insert_listing (Example.generate_presentation_structure 0)
              Example.get_slide_content_from_type_and_outline
              Example.process_slide_and_fetch_assets
              Example.to_presentation_structure
              Example.db 1%N 1 "New" 99%N _ _
              sample_primary_key sample_contiguous
              (run_returns (Example.create 0 1%N 1 "New" 99%N
                              (open_session Example.db)) _ eq_refl))
    as (new & Hid & _ & _ & Hr).
  exists new. split; [exact Hid|exact Hr].
Defined.

Lemma delete_listing_witness :
  PresentationWithSlides.slides
    (Example.returned (PresentationWithSlides.mk Example.deck [])
       (delete_slide 1%N 1 (open_session Example.db)))
  = [Example.s0; SlideModel.set_index Example.s2 1].
Proof.
  destruct (delete_listing Example.db 1%N 1 _ _
              sample_primary_key sample_contiguous
              (run_returns (delete_slide 1%N 1 (open_session Example.db))
                 _ eq_refl))
    as (d & _ & _ & Hr).
  exact Hr.
Defined.

Lemma other_presentations_untouched_witness :
  list_ordered 2%N
    (slide_rows (committed
       (fst (Example.create 0 1%N 0 "New" 99%N (open_session Example.db)))))
  = [Example.t0]
  /\ list_ordered 2%N
       (slide_rows (committed
          (fst (delete_slide 1%N 0 (open_session Example.db)))))
     = [Example.t0].
Proof.
  assert (Hq : 2%N <> 1%N) by discriminate.
  destruct (other_presentations_untouched
              (Example.generate_presentation_structure 0)
              Example.get_slide_content_from_type_and_outline
              Example.process_slide_and_fetch_assets
              Example.to_presentation_structure
              Example.db 1%N 2%N sample_primary_key Hq) as [Hc Hd].
  split.
  - destruct (Hc 0 "New" 99%N _ _
                (run_returns (Example.create 0 1%N 0 "New" 99%N
                                (open_session Example.db)) _ eq_refl))
      as [_ Hl].
    exact Hl.
  - destruct (Hd 0 _ _
                (run_returns (delete_slide 1%N 0 (open_session Example.db))
                   _ eq_refl))
      as (_ & Hl & _).
    exact Hl.
Defined.

Lemma primary_key_preserved_witness :
  primary_key
    (slide_rows (committed
       (fst (Example.create 0 1%N 0 "New" 99%N (open_session Example.db)))))
  /\ primary_key
       (slide_rows (committed
          (fst (delete_slide 1%N 0 (open_session Example.db)))))
  /\ primary_key
       (slide_rows (committed
          (fst (Example.edit 1%N 1 "shorter" 99%N (open_session Example.db)))))
  /\ primary_key
       (slide_rows (committed
          (fst (Example.edit_html 11%N "bold" None 99%N
                  (open_session Example.db))))).
Proof.
  destruct (primary_key_preserved Example.get_slide_layout_from_prompt
              Example.get_edited_slide_content
              Example.process_old_and_new_slides_and_fetch_assets
              Example.get_edited_slide_html
              (Example.generate_presentation_structure 0)
              Example.get_slide_content_from_type_and_outline
              Example.process_slide_and_fetch_assets
              Example.to_presentation_structure
              Example.db sample_primary_key) as (Hc & Hd & He & Hh).
  split; [|split; [|split]].
  - eapply (Hc 1%N 0 "New" 99%N); [exact sample_fresh|].
    apply run_returns. reflexivity.
  - eapply (Hd 1%N 0). apply run_returns. reflexivity.
  - eapply (He 1%N 1 "shorter" 99%N); [exact sample_fresh|].
    apply run_returns. reflexivity.
  - eapply (Hh 11%N "bold" None 99%N); [exact sample_fresh|].
    apply run_returns. reflexivity.
Defined.

Lemma edit_keeps_collection_witness :
  contiguous 1%N
    (slide_rows (committed
       (fst (Example.edit 1%N 1 "shorter" 99%N (open_session Example.db)))))
  /\ contiguous 1%N
       (slide_rows (committed
          (fst (Example.edit_html 11%N "bold" None 99%N
                  (open_session Example.db))))).
Proof.
  destruct (edit_keeps_collection Example.get_slide_layout_from_prompt
              Example.get_edited_slide_content
              Example.process_old_and_new_slides_and_fetch_assets
              Example.get_edited_slide_html
              Example.db sample_primary_key) as [He Hh].
  split.
  - destruct (He 1%N 1 "shorter" 99%N _ _
                (run_returns (Example.edit 1%N 1 "shorter" 99%N
                                (open_session Example.db)) _ eq_refl))
      as (old & _ & _ & _ & Hc).
    apply Hc. exact sample_contiguous.
  - destruct (Hh 11%N "bold" None 99%N _ _
                (run_returns (Example.edit_html 11%N "bold" None 99%N
                                (open_session Example.db)) _ eq_refl))
      as (old & _ & _ & _ & Hc).
    apply Hc. exact sample_contiguous.
Defined.

Lemma edit_slide_result_witness :
  let r := Example.returned Example.s0
             (Example.edit 1%N 1 "shorter" 99%N (open_session Example.db)) in
  SlideModel.speaker_note r
  = dict_get (SlideModel.content r) "__speaker_note__" (JStr "")
  /\ SlideModel.speaker_note r = JStr "Say hello"
  /\ SlideModel.html_content r = Some "<p>Agenda</p>".
Proof.
  destruct (edit_slide_result Example.get_slide_layout_from_prompt
              Example.get_edited_slide_content
              Example.process_old_and_new_slides_and_fetch_assets
              Example.db 1%N 1 "shorter" 99%N _ _
              (run_returns (Example.edit 1%N 1 "shorter" 99%N
                              (open_session Example.db)) _ eq_refl))
    as (p & old & layout & c & pr & _ & _ & _ & _ & _ & _ & Hnote & _).
  split; [exact Hnote|]. split; reflexivity.
Defined.

Lemma edit_slide_html_result_witness :
  let r := Example.returned Example.s0
             (Example.edit_html 12%N "bold" (Some "<b>Thanks</b>") 99%N
                (open_session Example.db)) in
  exists edited,
    Example.get_edited_slide_html "bold" "<b>Thanks</b>" = Return edited
    /\ SlideModel.html_content r = Some edited
    /\ SlideModel.content r = SlideModel.content Example.s2.
Proof.
  destruct (edit_slide_html_result Example.get_edited_slide_html
              Example.db 12%N "bold" (Some "<b>Thanks</b>") 99%N _ _
              (run_returns (Example.edit_html 12%N "bold"
                              (Some "<b>Thanks</b>") 99%N
                              (open_session Example.db)) _ eq_refl))
    as (old & h & edited & _ & _ & Hh & _ & Hed & Hhtml & _).
  cbn in Hh. injection Hh as <-.
  exists edited. split; [exact Hed|]. split; [exact Hhtml|reflexivity].
Defined.

Lemma create_slide_row_witness :
  exists layout new,
    nth_error Example.layouts 0 = Some layout
    /\ In new (slide_rows (committed
                 (fst (Example.create 7 1%N 1 "New" 99%N
                         (open_session Example.db)))))
    /\ SlideModel.id new = 99%N
    /\ SlideModel.layout new = SlideLayoutModel.id layout.
Proof.
  destruct (create_slide_row (Example.generate_presentation_structure 7)
              Example.get_slide_content_from_type_and_outline
              Example.process_slide_and_fetch_assets
              Example.to_presentation_structure
              Example.db 1%N 1 "New" 99%N _ _
              (run_returns (Example.create 7 1%N 1 "New" 99%N
                              (open_session Example.db)) _ eq_refl))
    as (p & st & k & layout & c & pr & new & Hp & Hst & Hk & _ & Hbig & _ & _
        & Hin & Hid & Hlay & _).
  cbn in Hp. injection Hp as <-.
  cbn in Hst. injection Hst as <-. cbn in Hk. injection Hk as <-.
  exists layout, new. split; [apply Hbig; vm_compute; discriminate|].
  auto.
Defined.

Lemma create_slide_without_layouts_witness :
  exists e,
    snd (Example.create 0 3%N 0 "New" 99%N (open_session Example.bare_db))
    = Raise e
    /\ committed (fst (Example.create 0 3%N 0 "New" 99%N
                         (open_session Example.bare_db)))
       = Example.bare_db.
Proof.
  apply (create_slide_without_layouts
           (Example.generate_presentation_structure 0)
           Example.get_slide_content_from_type_and_outline
           Example.process_slide_and_fetch_assets
           Example.to_presentation_structure
           Example.bare_db 3%N Example.bare_deck); reflexivity.
Defined.

Lemma counter_updates_witness :
  PresentationModel.n_slides
    (PresentationWithSlides.presentation
       (Example.returned (PresentationWithSlides.mk Example.deck [])
          (Example.create 0 1%N 0 "New" 99%N
             (open_session Example.uncounted_db))))
  = Some 4
  /\ committed (fst (delete_slide 1%N 0 (open_session Example.uncounted_db)))
     = Example.uncounted_db.
Proof.
  destruct (counter_updates (Example.generate_presentation_structure 0)
              Example.get_slide_content_from_type_and_outline
              Example.process_slide_and_fetch_assets
              Example.to_presentation_structure
              Example.uncounted_db 1%N _ eq_refl) as (Hc & _ & Hd).
  split.
  - destruct (Hc 0 "New" 99%N _ _
                (run_returns (Example.create 0 1%N 0 "New" 99%N
                                (open_session Example.uncounted_db))
                   _ eq_refl)) as (_ & Hnone & _).
    apply Hnone. left. reflexivity.
  - destruct (Hd eq_refl 0 _ _ eq_refl) as [_ Hdb]. exact Hdb.
Defined.

Lemma reindex_write_order_witness :
  (exists moved,
      filter is_update_slide
        (sent (fst (Example.create 0 1%N 1 "New" 99%N
                      (open_session Example.db))))
      = map (fun s => WSetIndex (SlideModel.id s) (SlideModel.index s + 1))
            moved
      /\ Permutation moved [Example.s1; Example.s2]
      /\ StronglySorted
           (fun a b => (SlideModel.id a < SlideModel.id b)%N) moved)
  /\ (exists later moved,
      sent (fst (delete_slide 1%N 0 (open_session Example.db)))
      = WDeleteSlide 10%N :: later
      /\ filter is_update_slide later
         = map (fun s => WSetIndex (SlideModel.id s) (SlideModel.index s - 1))
               moved
      /\ Permutation moved [Example.s1; Example.s2]
      /\ StronglySorted
           (fun a b => (SlideModel.id a < SlideModel.id b)%N) moved).
Proof.
  split.
  - destruct (reindex_write_order (Example.generate_presentation_structure 0)
                Example.get_slide_content_from_type_and_outline
                Example.process_slide_and_fetch_assets
                Example.to_presentation_structure
                Example.db 1%N 1 sample_primary_key sample_contiguous)
      as [Hc _].
    exact (Hc "New" 99%N _ _
             (run_returns (Example.create 0 1%N 1 "New" 99%N
                             (open_session Example.db)) _ eq_refl)).
  - destruct (reindex_write_order (Example.generate_presentation_structure 0)
                Example.get_slide_content_from_type_and_outline
                Example.process_slide_and_fetch_assets
                Example.to_presentation_structure
                Example.db 1%N 0 sample_primary_key sample_contiguous)
      as [_ Hd].
    destruct (Hd _ _
                (run_returns (delete_slide 1%N 0 (open_session Example.db))
                   _ eq_refl))
      as (d & later & moved & Hnth & Hsent & Hrest).
    cbn in Hnth. injection Hnth as <-.
    exists later, moved. split; [exact Hsent | exact Hrest].
Defined.

Lemma database_agrees_with_session_witness :
  (let s' := fst (Example.create 0 1%N 1 "New" 99%N
                    (open_session Example.db)) in
   replay (sent s') Example.db = committed s')
  /\ (let s' := fst (delete_slide 1%N 0 (open_session Example.db)) in
      replay (sent s') Example.db = committed s')
  /\ (let s' := fst (Example.edit 1%N 1 "shorter" 99%N
                       (open_session Example.db)) in
      replay (sent s') Example.db = committed s')
  /\ (let s' := fst (Example.edit_html 11%N "bold" None 99%N
                       (open_session Example.db)) in
      replay (sent s') Example.db = committed s').
Proof.
  destruct (database_agrees_with_session Example.get_slide_layout_from_prompt
              Example.get_edited_slide_content
              Example.process_old_and_new_slides_and_fetch_assets
              Example.get_edited_slide_html
              (Example.generate_presentation_structure 0)
              Example.get_slide_content_from_type_and_outline
              Example.process_slide_and_fetch_assets
              Example.to_presentation_structure
              Example.db) as (Hcd & He & Hh).
  destruct (Hcd sample_primary_key) as [Hc Hd].
  split; [|split; [|split]].
  - apply (Hc 1%N 1 "New" 99%N _ _
             (run_returns (Example.create 0 1%N 1 "New" 99%N
                             (open_session Example.db)) _ eq_refl)).
  - apply (Hd 1%N 0 _ _
             (run_returns (delete_slide 1%N 0 (open_session Example.db))
                _ eq_refl)).
  - apply (He 1%N 1 "shorter" 99%N _ _
             (run_returns (Example.edit 1%N 1 "shorter" 99%N
                             (open_session Example.db)) _ eq_refl)).
  - apply (Hh 11%N "bold" None 99%N _ _
             (run_returns (Example.edit_html 11%N "bold" None 99%N
                             (open_session Example.db)) _ eq_refl)).
Defined.

Lemma sample_consistent : consistent 1%N Example.db.
Proof.
  split; [exact sample_primary_key|]. split; [exact sample_contiguous|].
  intros p Hp. cbn in Hp. injection Hp as <-. reflexivity.
Defined.

Lemma serve_all_consistent_witness :
  consistent 1%N (Example.serve_requests Example.requests Example.db).
Proof.
  apply (serve_all_consistent Example.get_slide_layout_from_prompt
           Example.get_edited_slide_content
           Example.process_old_and_new_slides_and_fetch_assets
           Example.get_edited_slide_html
           (Example.generate_presentation_structure 0)
           Example.get_slide_content_from_type_and_outline
           Example.process_slide_and_fetch_assets
           Example.to_presentation_structure
           1%N Example.requests Example.db sample_consistent).
  - cbn. repeat (constructor; [cbn; intuition discriminate|]). constructor.
  - cbn. intros f Hf Hin.
    destruct Hf as [<-|[<-|[<-|[<-|[<-|[]]]]]];
      cbn in Hin; intuition discriminate.
Defined.

Lemma upload_key_names_file_witness :
  basename "presenton/deck1/a.png" = basename "/tmp/img/a.png".
Proof.
  apply (upload_key_names_file Example.upload_file Example.guess_type
           Example.full_environ None "/tmp/img/a.png" (Some "/deck1/")
           "presenton/deck1/a.png").
  reflexivity.
Defined.

Lemma s3_client_cached_witness :
  exists c,
    fst (_upload_file_to_s3_sync Example.upload_file Example.guess_type
           Example.full_environ None "/tmp/img/a.png" None) = Some c
    /\ _upload_file_to_s3_sync Example.upload_file Example.guess_type
         (fun name => if String.eqb name "OBJECT_STORAGE_BUCKET_NAME"
                      then Some "other" else None)
         (Some c) "/tmp/img/b.png" None
       = (Some c, Return (Some "b.png")).
Proof.
  destruct (s3_client_cached Example.upload_file Example.download_file
              Example.makedirs Example.guess_type
              Example.full_environ
              (fun name => if String.eqb name "OBJECT_STORAGE_BUCKET_NAME"
                           then Some "other" else None)
              "/tmp/img/a.png" None) as [Hc _].
  destruct (_build_s3_client Example.full_environ) as [c|] eqn:E;
    [|discriminate E].
  destruct (Hc c eq_refl) as (Hst & _ & _ & Hup).
  exists c. split; [exact Hst|].
  apply (Hup "other" "/tmp/img/b.png" None); [reflexivity|discriminate|].
  reflexivity.
Defined.

Lemma build_s3_client_fields_witness :
  exists c,
    _build_s3_client Example.full_environ = Some c
    /\ region_name c = Some "us-east-1"
    /\ addressing_style c = "path".
Proof.
  destruct (build_s3_client_fields Example.full_environ) as [Hiff Hfields].
  destruct (proj1 Hiff eq_refl) as [c Hc].
  destruct (Hfields c Hc) as (_ & _ & _ & _ & _ & Hreg & Hstyle).
  exists c. split; [exact Hc|]. split; [apply Hreg; reflexivity|exact Hstyle].
Defined.

Lemma get_image_prompt_text_witness :
  ImagePrompt.get_image_prompt Example.banner true = "a red barn, None"
  /\ ImagePrompt.get_image_prompt Example.banner false = "a red barn".
Proof.
  destruct (get_image_prompt_text Example.banner true) as (_ & _ & Hnone).
  destruct (get_image_prompt_text Example.banner false) as (_ & Hiff & _).
  split; [apply Hnone; reflexivity|apply Hiff; reflexivity].
Defined.
